(** * WorkOS Terraform provider

    A shallow embedding of the provider's transport layer (request, retry,
    error normalisation), of its error taxonomy, and of the reconciliation
    handlers for organizations, users, organization memberships,
    organization roles and connections, together with the properties
    established about them.

    Conventions.
    - Go [int] (64 bits wide), [int64] and [time.Duration] are [Z]; where
      the source multiplies a duration the 64-bit wrap-around is written
      out ([wrap64]).
    - A handler receives its plan / prior state already decoded and returns
      the diagnostics and the state operation it leaves in the response.
    - Everything the code obtains from outside the repository (the HTTP
      round trip, the clock, the random source, [encoding/json],
      [time.Format], [http.ParseTime]) is a field of [Env]. *)

From Stdlib Require Import ZArith String Ascii List Bool Lia DecimalString.
Import ListNotations.
Open Scope string_scope.
Open Scope Z_scope.

(* ------------------------------------------------------------------ *)
(** ** terraform-plugin-framework value types *)

Module types.

(** [types.String]: null, unknown, or a known value. *)
Inductive String : Type :=
| StringNull
| StringUnknown
| StringValue (value : string).

Definition IsNull (s : String) : bool :=
  match s with StringNull => true | _ => false end.

Definition IsUnknown (s : String) : bool :=
  match s with StringUnknown => true | _ => false end.

(** [ValueString] is the empty string for null and unknown values. *)
Definition ValueString (s : String) : string :=
  match s with StringValue v => v | _ => "" end.

(** [Equal]: same state, and the same value when both are known. *)
Definition Equal (a b : String) : bool :=
  match a, b with
  | StringNull, StringNull => true
  | StringUnknown, StringUnknown => true
  | StringValue x, StringValue y => String.eqb x y
  | _, _ => false
  end.

(** [types.Bool]. *)
Inductive Bool : Type :=
| BoolNull
| BoolUnknown
| BoolValue (value : bool).

Definition ValueBool (b : Bool) : bool :=
  match b with BoolValue v => v | _ => false end.

Definition BoolEqual (a b : Bool) : bool :=
  match a, b with
  | BoolNull, BoolNull => true
  | BoolUnknown, BoolUnknown => true
  | BoolValue x, BoolValue y => Bool.eqb x y
  | _, _ => false
  end.

(** [types.Set] and [types.List] of strings ([Set] is reserved, hence
    the trailing underscore). *)
Inductive Set_ : Type :=
| SetNull
| SetUnknown
| SetValue (elements : list string).

Definition SetIsNull (s : Set_) : bool :=
  match s with SetNull => true | _ => false end.

Definition SetIsUnknown (s : Set_) : bool :=
  match s with SetUnknown => true | _ => false end.

Definition SetElements (s : Set_) : list string :=
  match s with SetValue l => l | _ => [] end.

Inductive List_ : Type :=
| ListNull
| ListUnknown
| ListValue (elements : list string).

End types.

(* ------------------------------------------------------------------ *)
(** ** Helpers from the Go standard library that are modelled concretely *)

(** [len(s)] of a string. *)
Definition len (s : string) : Z := Z.of_nat (String.length s).

(** [fmt.Sprintf("%d", n)]. *)
Definition itoa (n : Z) : string := NilZero.string_of_int (Z.to_int n).

(** Two's-complement wrap-around of a 64-bit signed integer. *)
Definition int64_min : Z := - 2 ^ 63.
Definition int64_max : Z := 2 ^ 63 - 1.

Definition wrap64 (z : Z) : Z := (z + 2 ^ 63) mod 2 ^ 64 - 2 ^ 63.

(** [strings.HasPrefix]. *)
Definition strings_HasPrefix (s p : string) : bool := String.prefix p s.

(** First occurrence of a one-byte separator: the text before it and the
    text after it. *)
Fixpoint strings_Cut (s : string) (sep : ascii) : option (string * string) :=
  match s with
  | EmptyString => None
  | String c rest =>
      if Ascii.eqb c sep then Some (EmptyString, rest)
      else match strings_Cut rest sep with
           | Some (before, after) => Some (String c before, after)
           | None => None
           end
  end.

(** [strings.SplitN(s, sep, n)] for a one-byte separator and [n >= 0]:
    at most [n] pieces, the last one being the unsplit remainder. *)
Fixpoint splitAtMost (cuts : nat) (s : string) (sep : ascii) : list string :=
  match cuts with
  | O => [s]
  | S cuts' =>
      match strings_Cut s sep with
      | None => [s]
      | Some (before, after) => before :: splitAtMost cuts' after sep
      end
  end.

Definition strings_SplitN (s : string) (sep : ascii) (n : nat) : list string :=
  match n with
  | O => []
  | S cuts => splitAtMost cuts s sep
  end.

(** [strconv.Atoi]: an optional sign followed by at least one decimal
    digit and nothing else; a value outside the 64-bit range is an error. *)
Definition digitValue (c : ascii) : option Z :=
  let n := Z.of_nat (nat_of_ascii c) in
  if (48 <=? n) && (n <=? 57) then Some (n - 48) else None.

Fixpoint parseDigits (acc : Z) (s : string) : option Z :=
  match s with
  | EmptyString => Some acc
  | String c rest =>
      match digitValue c with
      | Some d => parseDigits (10 * acc + d) rest
      | None => None
      end
  end.

Definition parseUnsigned (s : string) : option Z :=
  match s with
  | EmptyString => None
  | _ => parseDigits 0 s
  end.

Definition strconv_Atoi (s : string) : option Z :=
  let signed :=
    match s with
    | String "+" rest => parseUnsigned rest
    | String "-" rest => option_map Z.opp (parseUnsigned rest)
    | _ => parseUnsigned s
    end in
  match signed with
  | Some n => if (int64_min <=? n) && (n <=? int64_max) then Some n else None
  | None => None
  end.

(* ------------------------------------------------------------------ *)
(** ** Package [client]: errors *)

Module client.

Definition http_StatusBadRequest : Z := 400.
Definition http_StatusUnauthorized : Z := 401.
Definition http_StatusForbidden : Z := 403.
Definition http_StatusNotFound : Z := 404.
Definition http_StatusConflict : Z := 409.
Definition http_StatusUnprocessableEntity : Z := 422.
Definition http_StatusTooManyRequests : Z := 429.

(** [ValidationError]: a field-level validation failure. *)
Record ValidationError : Type := {
  Field : string;
  VCode : string;
  VMessage : string
}.

(** [APIError]: a WorkOS API error response. *)
Record APIError : Type := {
  StatusCode : Z;
  Code : string;
  Message : string;
  Errors : list ValidationError
}.

Definition withMessage (e : APIError) (m : string) : APIError :=
  {| StatusCode := StatusCode e; Code := Code e; Message := m;
     Errors := Errors e |}.

(** Go [error] values as this package builds them.  The first seven
    constructors are the package's sentinel variables; [errorString] is
    any other leaf error (an [errors.New], an [fmt.Errorf] without [%w],
    or an error of another package); [wrapError msg err] is
    [fmt.Errorf(msg + "%w", err)]; [apiError] is an [*APIError]. *)
Inductive error : Type :=
| ErrNotFound
| ErrUnauthorized
| ErrForbidden
| ErrBadRequest
| ErrConflict
| ErrRateLimited
| ErrInternalServer
| errorString (s : string)
| wrapError (msg : string) (err : error)
| apiError (e : APIError).

(** [context.Canceled] and [context.DeadlineExceeded]: the two errors the
    [Err] method of a done context returns, the second when the context
    ended by its deadline.  Neither wraps another error. *)
Definition context_Canceled : error := errorString "context canceled".
Definition context_DeadlineExceeded : error :=
  errorString "context deadline exceeded".

Inductive contextErr : Type := Canceled | DeadlineExceeded.

Definition contextErr_error (e : contextErr) : error :=
  match e with
  | Canceled => context_Canceled
  | DeadlineExceeded => context_DeadlineExceeded
  end.

(** [APIError.Unwrap]. *)
Definition APIError_Unwrap (e : APIError) : option error :=
  if StatusCode e =? http_StatusNotFound then Some ErrNotFound
  else if StatusCode e =? http_StatusUnauthorized then Some ErrUnauthorized
  else if StatusCode e =? http_StatusForbidden then Some ErrForbidden
  else if StatusCode e =? http_StatusBadRequest then Some ErrBadRequest
  else if StatusCode e =? http_StatusConflict then Some ErrConflict
  else if StatusCode e =? http_StatusTooManyRequests then Some ErrRateLimited
  else if 500 <=? StatusCode e then Some ErrInternalServer
  else None.

(** [err == target] on error interfaces.  The targets this package
    compares against are its sentinel variables, and an error is
    identical to a sentinel only when it is that very variable. *)
Definition sameError (err target : error) : bool :=
  match err, target with
  | ErrNotFound, ErrNotFound => true
  | ErrUnauthorized, ErrUnauthorized => true
  | ErrForbidden, ErrForbidden => true
  | ErrBadRequest, ErrBadRequest => true
  | ErrConflict, ErrConflict => true
  | ErrRateLimited, ErrRateLimited => true
  | ErrInternalServer, ErrInternalServer => true
  | _, _ => false
  end.

(** The chain [errors.Is] walks: the error, then what [Unwrap] gives,
    and so on.  A sentinel has no [Unwrap], so the chain of an
    [*APIError] ends at the sentinel its [Unwrap] returns. *)
Fixpoint unwrapChain (err : error) : list error :=
  match err with
  | wrapError _ inner => err :: unwrapChain inner
  | apiError e =>
      err :: match APIError_Unwrap e with
             | Some sentinel => [sentinel]
             | None => []
             end
  | _ => [err]
  end.

(** [errors.Is]. *)
Definition errors_Is (err target : error) : bool :=
  existsb (fun e => sameError e target) (unwrapChain err).

Definition IsNotFound (err : error) : bool := errors_Is err ErrNotFound.
Definition IsUnauthorized (err : error) : bool := errors_Is err ErrUnauthorized.
Definition IsForbidden (err : error) : bool := errors_Is err ErrForbidden.
Definition IsBadRequest (err : error) : bool := errors_Is err ErrBadRequest.
Definition IsConflict (err : error) : bool := errors_Is err ErrConflict.
Definition IsRateLimited (err : error) : bool := errors_Is err ErrRateLimited.
Definition IsInternalServerError (err : error) : bool :=
  errors_Is err ErrInternalServer.

(** [APIError.Error]. *)
Definition validationLine (ve : ValidationError) : string :=
  (String "010" "  - ") ++ Field ve
  ++ (if String.eqb (VCode ve) "" then "" else " [" ++ VCode ve ++ "]")
  ++ (if String.eqb (VMessage ve) "" then "" else ": " ++ VMessage ve).

Definition APIError_Error (e : APIError) : string :=
  "WorkOS API error (HTTP " ++ itoa (StatusCode e) ++ ")"
  ++ (if String.eqb (Code e) "" then "" else " [" ++ Code e ++ "]")
  ++ (if String.eqb (Message e) "" then "" else ": " ++ Message e)
  ++ (match Errors e with
      | [] => ""
      | ves => String "010" "Validation errors:"
               ++ String.concat "" (map validationLine ves)
      end).

(** [err.Error()]. *)
Fixpoint Error (err : error) : string :=
  match err with
  | ErrNotFound => "resource not found"
  | ErrUnauthorized => "unauthorized"
  | ErrForbidden => "forbidden"
  | ErrBadRequest => "bad request"
  | ErrConflict => "conflict"
  | ErrRateLimited => "rate limited"
  | ErrInternalServer => "internal server error"
  | errorString s => s
  | wrapError msg inner => msg ++ Error inner
  | apiError e => APIError_Error e
  end.

(** The default message [parseAPIError] synthesises per status code. *)
Definition defaultMessage (statusCode : Z) : string :=
  if statusCode =? http_StatusNotFound then
    "The requested resource was not found"
  else if statusCode =? http_StatusUnauthorized then
    "Invalid API key or authentication failed"
  else if statusCode =? http_StatusForbidden then
    "Access denied to this resource"
  else if statusCode =? http_StatusBadRequest then
    "The request was invalid or malformed"
  else if statusCode =? http_StatusConflict then
    "The resource already exists or conflicts with existing data"
  else if statusCode =? http_StatusTooManyRequests then
    "Rate limit exceeded, please retry later"
  else if statusCode =? http_StatusUnprocessableEntity then
    "The request was well-formed but contained invalid data"
  else if 500 <=? statusCode then
    "WorkOS service encountered an internal error"
  else "Unexpected error (HTTP " ++ itoa statusCode ++ ")".

(** [parseAPIError].  [unmarshal body e] is [json.Unmarshal(body, e)]:
    the struct as the decoder leaves it and whether it returned no
    error.  [StatusCode] carries no [json] tag, so the decoder may
    write to it like to any other exported field. *)
Definition parseAPIError
    (unmarshal : string -> APIError -> APIError * bool)
    (statusCode : Z) (body : string) : APIError :=
  let apiErr :=
    {| StatusCode := statusCode; Code := ""; Message := ""; Errors := [] |} in
  let apiErr :=
    if 0 <? len body then
      match unmarshal body apiErr with
      | (decoded, true) => decoded
      | (decoded, false) => withMessage decoded body
      end
    else apiErr in
  if String.eqb (Message apiErr) "" then
    withMessage apiErr (defaultMessage statusCode)
  else apiErr.

(* ---------------------------------------------------------------- *)
(** ** Package [client]: models *)

(** [time.Time] as nanoseconds. *)
Definition Time : Type := Z.

Record Domain : Type := {
  Domain_ID : string;
  Domain_Object : string;
  Domain_Domain : string;
  Domain_State : string;
  Domain_OrganizationID : string;
  Domain_VerificationType : string
}.

Record Organization : Type := {
  Organization_ID : string;
  Organization_Object : string;
  Organization_Name : string;
  Organization_AllowProfilesOutsideOrganization : bool;
  Organization_Domains : list Domain;
  Organization_CreatedAt : Time;
  Organization_UpdatedAt : Time
}.

Record SAMLConfiguration : Type := {
  IdPEntityID : string;
  IdPSSOURL : string;
  IdPCertificate : string;
  SPEntityID : string;
  SPACSURL : string
}.

Record OIDCConfiguration : Type := {
  OIDC_ClientID : string;
  OIDC_ClientSecret : string;
  OIDC_Issuer : string;
  OIDC_RedirectURI : string
}.

Record Connection : Type := {
  Connection_ID : string;
  Connection_Object : string;
  Connection_OrganizationID : string;
  Connection_ConnectionType : string;
  Connection_Name : string;
  Connection_State : string;
  Connection_Status : string;
  Connection_SAMLConfiguration : option SAMLConfiguration;
  Connection_OIDCConfiguration : option OIDCConfiguration;
  Connection_CreatedAt : Time;
  Connection_UpdatedAt : Time
}.

Record Directory : Type := {
  Directory_ID : string;
  Directory_Object : string;
  Directory_OrganizationID : string;
  Directory_Name : string;
  Directory_Type : string;
  Directory_State : string;
  Directory_BearerToken : string;
  Directory_Endpoint : string;
  Directory_CreatedAt : Time;
  Directory_UpdatedAt : Time
}.

Record User : Type := {
  User_ID : string;
  User_Object : string;
  User_Email : string;
  User_EmailVerified : bool;
  User_FirstName : string;
  User_LastName : string;
  User_ProfilePictureURL : string;
  User_CreatedAt : Time;
  User_UpdatedAt : Time
}.

(** [UserUpdateRequest]; [EmailVerified] is a [*bool]. *)
Record UserUpdateRequest : Type := {
  UserUpdate_Email : string;
  UserUpdate_FirstName : string;
  UserUpdate_LastName : string;
  UserUpdate_EmailVerified : option bool
}.

Record OrganizationMembership : Type := {
  Membership_ID : string;
  Membership_Object : string;
  Membership_UserID : string;
  Membership_OrganizationID : string;
  Membership_RoleSlug : string;
  Membership_Status : string;
  Membership_CreatedAt : Time;
  Membership_UpdatedAt : Time
}.

Record OrganizationMembershipCreateRequest : Type := {
  MembershipCreate_UserID : string;
  MembershipCreate_OrganizationID : string;
  MembershipCreate_RoleSlug : string
}.

Record ConnectionCreateRequest : Type := {
  ConnectionCreate_OrganizationID : string;
  ConnectionCreate_ConnectionType : string;
  ConnectionCreate_Name : string
}.

Record ConnectionUpdateRequest : Type := {
  ConnectionUpdate_Name : string
}.

Record DirectoryCreateRequest : Type := {
  DirectoryCreate_OrganizationID : string;
  DirectoryCreate_Name : string;
  DirectoryCreate_Type : string
}.

(** Modelled from the spec: the declarations of [OrganizationRole],
    [OrganizationRoleCreateRequest] and [OrganizationRoleUpdateRequest]
    are not in the source at hand; the records below carry the fields
    the handlers and the entity client read and write (slug, name,
    optional description on write; id, type, permission list and
    timestamps computed by the server). *)
Record OrganizationRole : Type := {
  Role_ID : string;
  Role_Slug : string;
  Role_Name : string;
  Role_Description : string;
  Role_Type : string;
  Role_Permissions : list string;
  Role_CreatedAt : Time;
  Role_UpdatedAt : Time
}.

(** Modelled from the spec: the declaration of the create request is not
    in the source at hand either; [Create] fills exactly these three
    fields. *)
Record OrganizationRoleCreateRequest : Type := {
  RoleCreate_Slug : string;
  RoleCreate_Name : string;
  RoleCreate_Description : string
}.

(** The values handed to [doRequest] as [body interface{}]. *)
Inductive Payload : Type :=
| UserUpdateBody (r : UserUpdateRequest)
| MembershipCreateBody (r : OrganizationMembershipCreateRequest)
| RoleCreateBody (r : OrganizationRoleCreateRequest)
| ConnectionCreateBody (r : ConnectionCreateRequest)
| ConnectionUpdateBody (r : ConnectionUpdateRequest)
| DirectoryCreateBody (r : DirectoryCreateRequest).

(** A JSON value, as far as the request payloads need it. *)
Inductive JSON : Type :=
| JString (s : string)
| JBool (b : bool).

(** The object [json.Marshal] writes for a [UserUpdateRequest]: every
    field is tagged [omitempty], so an empty string and a nil pointer
    are left out. *)
Definition omitemptyString (key value : string) : list (string * JSON) :=
  if String.eqb value "" then [] else [(key, JString value)].

Definition UserUpdateRequest_MarshalJSON (r : UserUpdateRequest)
  : list (string * JSON) :=
  omitemptyString "email" (UserUpdate_Email r)
  ++ omitemptyString "first_name" (UserUpdate_FirstName r)
  ++ omitemptyString "last_name" (UserUpdate_LastName r)
  ++ match UserUpdate_EmailVerified r with
     | Some b => [("email_verified", JBool b)]
     | None => []
     end.

(** Whether a key is present in a marshalled object. *)
Definition hasKey (key : string) (obj : list (string * JSON)) : bool :=
  existsb (fun kv => String.eqb (fst kv) key) obj.

(* ---------------------------------------------------------------- *)
(** ** Package [client]: transport *)

Definition DefaultBaseURL : string := "https://api.workos.com".
Definition MaxRetries : Z := 3.
Definition time_Second : Z := 1000000000.
Definition BaseRetryDelay : Z := 1 * time_Second.
Definition MaxRetryDelay : Z := 30 * time_Second.

Definition http_MethodGet : string := "GET".
Definition http_MethodPost : string := "POST".
Definition http_MethodPut : string := "PUT".
Definition http_MethodPatch : string := "PATCH".
Definition http_MethodDelete : string := "DELETE".

Record Client : Type := {
  apiKey : string;
  clientID : string;
  baseURL : string
}.

(** [NewClient]. *)
Definition NewClient (apiKey clientID baseURL : string) : error + Client :=
  if String.eqb apiKey "" then inl (errorString "api_key is required")
  else
    let baseURL := if String.eqb baseURL "" then DefaultBaseURL else baseURL in
    inr {| apiKey := apiKey; clientID := clientID; baseURL := baseURL |}.

Record Request : Type := {
  req_Method : string;
  req_URL : string;
  req_Header : list (string * string);
  req_Body : option Payload
}.

(** An HTTP response: status, headers under their canonical names, and
    what [io.ReadAll] gives for the body. *)
Record Response : Type := {
  resp_StatusCode : Z;
  resp_Header : list (string * string);
  resp_Body : error + string
}.

(** [Header.Get]: the first value under the key, or the empty string. *)
Fixpoint Header_Get (h : list (string * string)) (key : string) : string :=
  match h with
  | [] => ""
  | (k, v) :: rest => if String.eqb k key then v else Header_Get rest key
  end.

(** What the code takes from outside the repository.  [World] is the
    state of everything beyond the process: the remote API, the clock,
    the random source and the caller's context. *)
Record Env : Type := {
  World : Type;
  (** the error of [http.NewRequestWithContext] for a method and a URL,
      if any *)
  http_NewRequest : string -> string -> option error;
  (** [httpClient.Do] *)
  http_Do : World -> Request -> World * (error + Response);
  (** the [select] between [ctx.Done()] and [time.After(delay)]:
      [true] when the context is done first *)
  ctx_Done : World -> Z -> World * bool;
  (** [ctx.Err()] of the context once it is done *)
  ctx_Err : World -> contextErr;
  (** [rand.Int63n], called with a positive argument *)
  rand_Int63n : World -> Z -> World * Z;
  (** [http.ParseTime] *)
  http_ParseTime : string -> option Time;
  (** [time.Until] *)
  time_Until : World -> Time -> Z;
  (** the error of [json.Marshal] for a payload, if any *)
  json_Marshal : Payload -> option error;
  (** [json.Unmarshal] into an [*APIError]: the struct afterwards, and
      whether no error was returned *)
  json_Unmarshal_APIError : string -> APIError -> APIError * bool;
  (** [json.Unmarshal] into a zero value of each response type *)
  json_Unmarshal_Organization : string -> error + Organization;
  json_Unmarshal_User : string -> error + User;
  json_Unmarshal_OrganizationMembership : string -> error + OrganizationMembership;
  json_Unmarshal_OrganizationRole : string -> error + OrganizationRole;
  json_Unmarshal_Connection : string -> error + Connection;
  json_Unmarshal_Directory : string -> error + Directory;
  (** [t.Format(layout)] *)
  time_Format : Time -> string -> string;
  (** the text the plugin framework prints for a string element in a
      diagnostic ([%s] of the element; it depends on the version of the
      framework) *)
  attr_String : string -> string
}.

(** A decode target: the zero value the caller declares and the decoder
    for its type. *)
Record Target (T : Type) : Type := {
  zero : T;
  json_Unmarshal : string -> error + T
}.
Arguments zero {T} _.
Arguments json_Unmarshal {T} _ _.

(** The outcome of a computation: a value, or a run-time panic. *)
Inductive res (A : Type) : Type :=
| Val (a : A)
| Panic (msg : string).
Arguments Val {A} _.
Arguments Panic {A} _.

Section Transport.

Variable env : Env.

(** The state threaded through every call: the outside world, and the
    log of round trips made so far (newest last). *)
Record Net : Type := {
  world : World env;
  wire : list (Request * (error + Response))
}.

Definition M (A : Type) : Type := Net -> res A * Net.

Definition ret {A : Type} (a : A) : M A := fun n => (Val a, n).

Definition bind {A B : Type} (m : M A) (f : A -> M B) : M B :=
  fun n =>
    match m n with
    | (Val a, n') => f a n'
    | (Panic msg, n') => (Panic msg, n')
    end.

Definition panic {A : Type} (msg : string) : M A := fun n => (Panic msg, n).

(** [c.httpClient.Do(req)]; the round trip is appended to the log. *)
Definition httpClient_Do (req : Request) : M (error + Response) :=
  fun n =>
    let (w, out) := http_Do env (world n) req in
    (Val out, {| world := w; wire := wire n ++ [(req, out)] |}).

(** The [select] on [ctx.Done()] and [time.After(delay)]. *)
Definition selectDone (delay : Z) : M bool :=
  fun n =>
    let (w, done) := ctx_Done env (world n) delay in
    (Val done, {| world := w; wire := wire n |}).

(** [ctx.Err()], read after the context is done. *)
Definition ctxErr : M error :=
  fun n => (Val (contextErr_error (ctx_Err env (world n))), n).

(** [rand.Int63n(n)], which panics unless [n > 0]. *)
Definition Int63n (k : Z) : M Z :=
  fun n =>
    if k <=? 0 then (Panic "invalid argument to Int63n", n)
    else
      let (w, r) := rand_Int63n env (world n) k in
      (Val r, {| world := w; wire := wire n |}).

(** [time.Until(t)]. *)
Definition Until (t : Time) : M Z :=
  fun n => (Val (time_Until env (world n) t), n).

End Transport.

Arguments world {env} _.
Arguments wire {env} _.
Arguments ret {env A} _ _.
Arguments bind {env A B} _ _ _.
Arguments panic {env A} _ _.

Notation "x <- m ;; k" := (bind m (fun x => k))
  (at level 61, m at next level, right associativity).

Section Requests.

Variable env : Env.

(** [time.Duration(math.Pow(2, float64(attempt)))]: exact up to [2^62];
    a negative exponent gives a fraction, truncated to zero; beyond the
    64-bit range the conversion is implementation-defined and yields the
    minimum integer on amd64 (no caller reaches it). *)
Definition pow2Duration (attempt : Z) : Z :=
  if attempt <? 0 then 0
  else if attempt <=? 62 then 2 ^ attempt
  else int64_min.

(** [calculateRetryDelay]: how long to wait before retrying. *)
Definition calculateRetryDelay (resp : Response) (attempt : Z) : M env Z :=
  let retryAfter := Header_Get (resp_Header resp) "Retry-After" in
  let backoff : M env Z :=
    let delay := wrap64 (pow2Duration attempt * BaseRetryDelay) in
    let delay := if MaxRetryDelay <? delay then MaxRetryDelay else delay in
    jitter <- Int63n env (Z.quot delay 4) ;;
    ret (delay + jitter) in
  if negb (String.eqb retryAfter "") then
    match strconv_Atoi retryAfter with
    | Some seconds => ret (wrap64 (seconds * time_Second))
    | None =>
        match http_ParseTime env retryAfter with
        | Some t => Until env t
        | None => backoff
        end
    end
  else backoff.

Definition setHeaders (c : Client) : list (string * string) :=
  [("Authorization", "Bearer " ++ apiKey c);
   ("Content-Type", "application/json");
   ("User-Agent", "terraform-provider-workos")].

(** The [for attempt := 0; attempt <= MaxRetries; attempt++] loop of
    [doRequest]; [iterations] is the number of iterations the guard still
    allows, [MaxRetries + 1 - attempt]. *)
Fixpoint doRequestLoop (c : Client) (method path : string)
    (body : option Payload) (iterations : nat) (attempt : Z)
    : M env (error + Response) :=
  match iterations with
  | O => ret (inl (errorString "max retries exceeded"))
  | S iterations' =>
      match http_NewRequest env method (baseURL c ++ path) with
      | Some err => ret (inl (wrapError "failed to create request: " err))
      | None =>
          let req := {| req_Method := method;
                        req_URL := baseURL c ++ path;
                        req_Header := setHeaders c;
                        req_Body := body |} in
          r <- httpClient_Do env req ;;
          match r with
          | inl err => ret (inl (wrapError "request failed: " err))
          | inr resp =>
              if resp_StatusCode resp =? http_StatusTooManyRequests then
                if attempt =? MaxRetries then ret (inr resp)
                else
                  delay <- calculateRetryDelay resp attempt ;;
                  done <- selectDone env delay ;;
                  if done then err <- ctxErr env ;; ret (inl err)
                  else doRequestLoop c method path body iterations' (attempt + 1)
              else ret (inr resp)
          end
      end
  end.

(** [doRequest]: an HTTP request with automatic retry on rate limiting. *)
Definition doRequest (c : Client) (method path : string)
    (body : option Payload) : M env (error + Response) :=
  let loop :=
    doRequestLoop c method path body (Z.to_nat (MaxRetries + 1)) 0 in
  match body with
  | Some payload =>
      match json_Marshal env payload with
      | Some err => ret (inl (wrapError "failed to marshal request body: " err))
      | None => loop
      end
  | None => loop
  end.

(** [parseResponse]: the error, or the contents of the target afterwards
    ([None] for a nil target). *)
Definition parseResponse {T : Type} (resp : Response)
    (target : option (Target T)) : error + option T :=
  match resp_Body resp with
  | inl err => inl (wrapError "failed to read response body: " err)
  | inr bodyBytes =>
      if 400 <=? resp_StatusCode resp then
        inl (apiError (parseAPIError (json_Unmarshal_APIError env)
                         (resp_StatusCode resp) bodyBytes))
      else
        match target with
        | Some tg =>
            if 0 <? len bodyBytes then
              match json_Unmarshal tg bodyBytes with
              | inl err => inl (wrapError "failed to unmarshal response: " err)
              | inr v => inr (Some v)
              end
            else inr (Some (zero tg))
        | None => inr None
        end
  end.

(** The value a caller reads from its target after a call without error. *)
Definition filled {T : Type} (tg : Target T) (r : error + option T) : error + T :=
  match r with
  | inl err => inl err
  | inr (Some v) => inr v
  | inr None => inr (zero tg)
  end.

(** [Get], [Post], [Put], [Patch]: the error, or the decoded target. *)
Definition Get {T : Type} (c : Client) (path : string) (result : Target T)
    : M env (error + T) :=
  r <- doRequest c http_MethodGet path None ;;
  match r with
  | inl err => ret (inl err)
  | inr resp => ret (filled result (parseResponse resp (Some result)))
  end.

Definition Post {T : Type} (c : Client) (path : string) (body : Payload)
    (result : Target T) : M env (error + T) :=
  r <- doRequest c http_MethodPost path (Some body) ;;
  match r with
  | inl err => ret (inl err)
  | inr resp => ret (filled result (parseResponse resp (Some result)))
  end.

Definition Put {T : Type} (c : Client) (path : string) (body : Payload)
    (result : Target T) : M env (error + T) :=
  r <- doRequest c http_MethodPut path (Some body) ;;
  match r with
  | inl err => ret (inl err)
  | inr resp => ret (filled result (parseResponse resp (Some result)))
  end.

Definition Patch {T : Type} (c : Client) (path : string) (body : Payload)
    (result : Target T) : M env (error + T) :=
  r <- doRequest c http_MethodPatch path (Some body) ;;
  match r with
  | inl err => ret (inl err)
  | inr resp => ret (filled result (parseResponse resp (Some result)))
  end.

(** [Delete]: the error, if any. *)
Definition Delete (c : Client) (path : string) : M env (option error) :=
  r <- doRequest c http_MethodDelete path None ;;
  match r with
  | inl err => ret (Some err)
  | inr resp =>
      match parseResponse (T := unit) resp None with
      | inl err => ret (Some err)
      | inr _ => ret None
      end
  end.

(** [fmt.Errorf(msg + ": %w", err)] on the error of a typed call. *)
Definition wrapResult {T : Type} (msg : string) (r : error + T) : error + T :=
  match r with
  | inl err => inl (wrapError msg err)
  | inr v => inr v
  end.

Definition wrapOption (msg : string) (r : option error) : option error :=
  option_map (wrapError msg) r.

(* ---------------------------------------------------------------- *)
(** ** Package [client]: entity clients *)

Definition zeroOrganization : Organization :=
  {| Organization_ID := ""; Organization_Object := ""; Organization_Name := "";
     Organization_AllowProfilesOutsideOrganization := false;
     Organization_Domains := []; Organization_CreatedAt := 0;
     Organization_UpdatedAt := 0 |}.

Definition zeroUser : User :=
  {| User_ID := ""; User_Object := ""; User_Email := "";
     User_EmailVerified := false; User_FirstName := ""; User_LastName := "";
     User_ProfilePictureURL := ""; User_CreatedAt := 0; User_UpdatedAt := 0 |}.

Definition zeroOrganizationMembership : OrganizationMembership :=
  {| Membership_ID := ""; Membership_Object := ""; Membership_UserID := "";
     Membership_OrganizationID := ""; Membership_RoleSlug := "";
     Membership_Status := ""; Membership_CreatedAt := 0;
     Membership_UpdatedAt := 0 |}.

Definition zeroOrganizationRole : OrganizationRole :=
  {| Role_ID := ""; Role_Slug := ""; Role_Name := ""; Role_Description := "";
     Role_Type := ""; Role_Permissions := []; Role_CreatedAt := 0;
     Role_UpdatedAt := 0 |}.

Definition zeroConnection : Connection :=
  {| Connection_ID := ""; Connection_Object := "";
     Connection_OrganizationID := ""; Connection_ConnectionType := "";
     Connection_Name := ""; Connection_State := ""; Connection_Status := "";
     Connection_SAMLConfiguration := None;
     Connection_OIDCConfiguration := None;
     Connection_CreatedAt := 0; Connection_UpdatedAt := 0 |}.

Definition zeroDirectory : Directory :=
  {| Directory_ID := ""; Directory_Object := "";
     Directory_OrganizationID := ""; Directory_Name := "";
     Directory_Type := ""; Directory_State := ""; Directory_BearerToken := "";
     Directory_Endpoint := ""; Directory_CreatedAt := 0;
     Directory_UpdatedAt := 0 |}.

Definition org : Target Organization :=
  {| zero := zeroOrganization;
     json_Unmarshal := json_Unmarshal_Organization env |}.

Definition user : Target User :=
  {| zero := zeroUser; json_Unmarshal := json_Unmarshal_User env |}.

Definition membership : Target OrganizationMembership :=
  {| zero := zeroOrganizationMembership;
     json_Unmarshal := json_Unmarshal_OrganizationMembership env |}.

Definition role : Target OrganizationRole :=
  {| zero := zeroOrganizationRole;
     json_Unmarshal := json_Unmarshal_OrganizationRole env |}.

Definition conn : Target Connection :=
  {| zero := zeroConnection; json_Unmarshal := json_Unmarshal_Connection env |}.

Definition dir : Target Directory :=
  {| zero := zeroDirectory; json_Unmarshal := json_Unmarshal_Directory env |}.

(** Organizations. *)
Definition GetOrganization (c : Client) (id : string)
    : M env (error + Organization) :=
  r <- Get c ("/organizations/" ++ id) org ;;
  ret (wrapResult "failed to get organization: " r).

Definition DeleteOrganization (c : Client) (id : string) : M env (option error) :=
  r <- Delete c ("/organizations/" ++ id) ;;
  ret (wrapOption "failed to delete organization: " r).

(** Users. *)
Definition UpdateUser (c : Client) (id : string) (req : UserUpdateRequest)
    : M env (error + User) :=
  r <- Put c ("/user_management/users/" ++ id) (UserUpdateBody req) user ;;
  ret (wrapResult "failed to update user: " r).

Definition DeleteUser (c : Client) (id : string) : M env (option error) :=
  r <- Delete c ("/user_management/users/" ++ id) ;;
  ret (wrapOption "failed to delete user: " r).

(** Organization memberships. *)
Definition CreateOrganizationMembership (c : Client)
    (req : OrganizationMembershipCreateRequest)
    : M env (error + OrganizationMembership) :=
  r <- Post c "/user_management/organization_memberships"
         (MembershipCreateBody req) membership ;;
  ret (wrapResult "failed to create organization membership: " r).

Definition GetOrganizationMembership (c : Client) (id : string)
    : M env (error + OrganizationMembership) :=
  r <- Get c ("/user_management/organization_memberships/" ++ id) membership ;;
  ret (wrapResult "failed to get organization membership: " r).

Definition DeleteOrganizationMembership (c : Client) (id : string)
    : M env (option error) :=
  r <- Delete c ("/user_management/organization_memberships/" ++ id) ;;
  ret (wrapOption "failed to delete organization membership: " r).

(** Organization roles. *)
Definition CreateOrganizationRole (c : Client) (orgID : string)
    (req : OrganizationRoleCreateRequest) : M env (error + OrganizationRole) :=
  r <- Post c ("/authorization/organizations/" ++ orgID ++ "/roles")
         (RoleCreateBody req) role ;;
  ret (wrapResult "failed to create organization role: " r).

Definition DeleteOrganizationRole (c : Client) (orgID slug : string)
    : M env (option error) :=
  r <- Delete c ("/authorization/organizations/" ++ orgID ++ "/roles/" ++ slug) ;;
  ret (wrapOption "failed to delete organization role: " r).

(** Connections. *)
Definition CreateConnection (c : Client) (req : ConnectionCreateRequest)
    : M env (error + Connection) :=
  r <- Post c "/connections" (ConnectionCreateBody req) conn ;;
  ret (wrapResult "failed to create connection: " r).

Definition UpdateConnection (c : Client) (id : string)
    (req : ConnectionUpdateRequest) : M env (error + Connection) :=
  r <- Put c ("/connections/" ++ id) (ConnectionUpdateBody req) conn ;;
  ret (wrapResult "failed to update connection: " r).

Definition DeleteConnection (c : Client) (id : string) : M env (option error) :=
  r <- Delete c ("/connections/" ++ id) ;;
  ret (wrapOption "failed to delete connection: " r).

(** Directories. *)
Definition CreateDirectory (c : Client) (req : DirectoryCreateRequest)
    : M env (error + Directory) :=
  r <- Post c "/directories" (DirectoryCreateBody req) dir ;;
  ret (wrapResult "failed to create directory: " r).

Definition DeleteDirectory (c : Client) (id : string) : M env (option error) :=
  r <- Delete c ("/directories/" ++ id) ;;
  ret (wrapOption "failed to delete directory: " r).

End Requests.

(* ---------------------------------------------------------------- *)
(** ** Package [client]: list and search helpers *)

Record ListMetadata : Type := {
  Before : string;
  After : string
}.

Record OrganizationListResponse : Type := {
  OrganizationList_Data : list Organization;
  OrganizationList_ListMetadata : ListMetadata
}.

Record UserListResponse : Type := {
  UserList_Data : list User;
  UserList_ListMetadata : ListMetadata
}.

Record ConnectionListResponse : Type := {
  ConnectionList_Data : list Connection;
  ConnectionList_ListMetadata : ListMetadata
}.

(** Modelled from the spec: the declaration of
    [OrganizationRoleListResponse] is not in the source at hand; like the
    other list responses it holds the roles under [Data]. *)
Record OrganizationRoleListResponse : Type := {
  RoleList_Data : list OrganizationRole;
  RoleList_ListMetadata : ListMetadata
}.

(** Modelled from the spec: the declaration of
    [OrganizationRoleUpdateRequest] is not in the source at hand;
    [Update] fills exactly these two fields. *)
Record OrganizationRoleUpdateRequest : Type := {
  RoleUpdate_Name : string;
  RoleUpdate_Description : string
}.

(** Further functions taken from outside the repository. *)
Record Ext : Type := {
  (** [url.QueryEscape] *)
  url_QueryEscape : string -> string;
  (** [os.Getenv] *)
  os_Getenv : string -> string;
  (** [json.Unmarshal] into a zero value of each list response *)
  json_Unmarshal_OrganizationList : string -> error + OrganizationListResponse;
  json_Unmarshal_UserList : string -> error + UserListResponse;
  json_Unmarshal_ConnectionList : string -> error + ConnectionListResponse;
  json_Unmarshal_OrganizationRoleList :
    string -> error + OrganizationRoleListResponse
}.

(** [url.Values] with one value per key. *)
Definition Values : Type := list (string * string).

(** [Values.Set]. *)
Definition Values_Set (v : Values) (key value : string) : Values :=
  (key, value) :: filter (fun kv => negb (String.eqb (fst kv) key)) v.

Fixpoint insertByKey (kv : string * string) (sorted : Values) : Values :=
  match sorted with
  | [] => [kv]
  | kv' :: rest =>
      if String.leb (fst kv) (fst kv') then kv :: sorted
      else kv' :: insertByKey kv rest
  end.

Definition sortByKey (v : Values) : Values := fold_right insertByKey [] v.

(** [Values.Encode]: [key=value] pairs, escaped, sorted by key and joined
    by an ampersand. *)
Definition Values_Encode (escape : string -> string) (v : Values) : string :=
  String.concat "&"
    (map (fun kv => escape (fst kv) ++ "=" ++ escape (snd kv)) (sortByKey v)).

Definition zeroListMetadata : ListMetadata := {| Before := ""; After := "" |}.

(** The error a search helper builds when nothing matches. *)
Definition notFoundError (message : string) : error :=
  apiError {| StatusCode := 404; Code := ""; Message := message; Errors := [] |}.

Section Lookups.

Variable env : Env.
Variable ext : Ext.

Definition orgList : Target OrganizationListResponse :=
  {| zero := {| OrganizationList_Data := [];
                OrganizationList_ListMetadata := zeroListMetadata |};
     json_Unmarshal := json_Unmarshal_OrganizationList ext |}.

Definition userList : Target UserListResponse :=
  {| zero := {| UserList_Data := []; UserList_ListMetadata := zeroListMetadata |};
     json_Unmarshal := json_Unmarshal_UserList ext |}.

Definition connList : Target ConnectionListResponse :=
  {| zero := {| ConnectionList_Data := [];
                ConnectionList_ListMetadata := zeroListMetadata |};
     json_Unmarshal := json_Unmarshal_ConnectionList ext |}.

Definition roleList : Target OrganizationRoleListResponse :=
  {| zero := {| RoleList_Data := []; RoleList_ListMetadata := zeroListMetadata |};
     json_Unmarshal := json_Unmarshal_OrganizationRoleList ext |}.

(** [GetOrganizationByDomain]. *)
Definition GetOrganizationByDomain (c : Client) (domain : string)
    : M env (error + Organization) :=
  let params := Values_Set [] "domains" domain in
  r <- Get env c ("/organizations?" ++ Values_Encode (url_QueryEscape ext) params)
         orgList ;;
  match r with
  | inl err =>
      ret (inl (wrapError "failed to search organizations by domain: " err))
  | inr resp =>
      match OrganizationList_Data resp with
      | [] => ret (inl (notFoundError
                          ("no organization found with domain: " ++ domain)))
      | first :: _ => ret (inr first)
      end
  end.

(** [GetUser]. *)
Definition GetUser (c : Client) (id : string) : M env (error + User) :=
  r <- Get env c ("/user_management/users/" ++ id) (user env) ;;
  ret (wrapResult "failed to get user: " r).

(** [ListUsers]. *)
Definition ListUsers_path (email organizationID : string) : string :=
  let params : Values := [] in
  let params :=
    if negb (String.eqb email "") then Values_Set params "email" email
    else params in
  let params :=
    if negb (String.eqb organizationID "")
    then Values_Set params "organization_id" organizationID
    else params in
  if (0 <? Z.of_nat (List.length params))
  then "/user_management/users" ++ "?"
       ++ Values_Encode (url_QueryEscape ext) params
  else "/user_management/users".

Definition ListUsers (c : Client) (email organizationID : string)
    : M env (error + UserListResponse) :=
  r <- Get env c (ListUsers_path email organizationID) userList ;;
  ret (wrapResult "failed to list users: " r).

(** [GetUserByEmail]. *)
Definition GetUserByEmail (c : Client) (email : string) : M env (error + User) :=
  r <- ListUsers c email "" ;;
  match r with
  | inl err => ret (inl err)
  | inr resp =>
      match UserList_Data resp with
      | [] => ret (inl (notFoundError "user not found"))
      | first :: _ => ret (inr first)
      end
  end.

(** [GetConnectionByOrganizationAndType]. *)
Definition GetConnectionByOrganizationAndType (c : Client)
    (organizationID connectionType : string) : M env (error + Connection) :=
  let params := Values_Set [] "organization_id" organizationID in
  let params := Values_Set params "connection_type" connectionType in
  r <- Get env c ("/connections?" ++ Values_Encode (url_QueryEscape ext) params)
         connList ;;
  match r with
  | inl err => ret (inl (wrapError "failed to search connections: " err))
  | inr resp =>
      match ConnectionList_Data resp with
      | [] => ret (inl (notFoundError
                          ("no connection found for organization "
                           ++ organizationID ++ " with type "
                           ++ connectionType)))
      | first :: _ => ret (inr first)
      end
  end.

(** [GetOrganizationRole]. *)
Definition GetOrganizationRole (c : Client) (orgID slug : string)
    : M env (error + OrganizationRole) :=
  r <- Get env c ("/authorization/organizations/" ++ orgID ++ "/roles/" ++ slug)
         (role env) ;;
  ret (wrapResult "failed to get organization role: " r).

(** [ListOrganizationRoles]. *)
Definition ListOrganizationRoles (c : Client) (orgID : string)
    : M env (error + OrganizationRoleListResponse) :=
  r <- Get env c ("/authorization/organizations/" ++ orgID ++ "/roles")
         roleList ;;
  ret (wrapResult "failed to list organization roles: " r).

(** [GetOrganizationRoleByID]: the first role of the list with the id. *)
Definition GetOrganizationRoleByID (c : Client) (orgID roleID : string)
    : M env (error + OrganizationRole) :=
  r <- ListOrganizationRoles c orgID ;;
  match r with
  | inl err => ret (inl err)
  | inr resp =>
      match find (fun role => String.eqb (Role_ID role) roleID)
                 (RoleList_Data resp) with
      | Some role => ret (inr role)
      | None => ret (inl (notFoundError
                            ("no organization role found with ID: " ++ roleID)))
      end
  end.

End Lookups.

End client.

(* ------------------------------------------------------------------ *)
(** ** Package [provider]: reconciliation handlers *)

Module provider.

Import client.

Inductive Severity : Type := SeverityError | SeverityWarning.

Record Diagnostic : Type := {
  severity : Severity;
  summary : string;
  detail : string
}.

(** [Diagnostics.AddError]. *)
Definition AddError (summary detail : string) : Diagnostic :=
  {| severity := SeverityError; summary := summary; detail := detail |}.

(** [Diagnostics.HasError]. *)
Definition HasError (diags : list Diagnostic) : bool :=
  existsb (fun d => match severity d with
                    | SeverityError => true
                    | SeverityWarning => false
                    end) diags.

(** [Diagnostic.Equal]. *)
Definition Diagnostic_Equal (a b : Diagnostic) : bool :=
  match severity a, severity b with
  | SeverityError, SeverityError | SeverityWarning, SeverityWarning => true
  | _, _ => false
  end
  && String.eqb (summary a) (summary b)
  && String.eqb (detail a) (detail b).

(** [Diagnostics.Append]: a diagnostic that is already there is not
    added again. *)
Definition Diagnostics_Append (diags new : list Diagnostic) : list Diagnostic :=
  fold_left
    (fun acc d => if existsb (Diagnostic_Equal d) acc then acc else (acc ++ [d])%list)
    new diags.

(** The later element of every pair of equal elements, in the order in
    which the validation of a set meets the pairs (outer index first). *)
Fixpoint duplicatePairs (elements : list string) : list string :=
  match elements with
  | [] => []
  | outer :: rest =>
      (filter (String.eqb outer) rest ++ duplicatePairs rest)%list
  end.

(** [types.SetValueFrom(ctx, types.StringType, elements)]: the framework
    validates the set it builds and reports every pair of equal elements;
    with an error the set returned is unknown.  [render] is the text it
    prints for an element. *)
Definition SetValueFrom (render : string -> string) (elements : list string)
    : types.Set_ * list Diagnostic :=
  let diags :=
    Diagnostics_Append []
      (map (fun element =>
              AddError "Duplicate Set Element"
                ("This attribute contains duplicate values of: "
                 ++ render element))
           (duplicatePairs elements)) in
  if HasError diags then (types.SetUnknown, diags)
  else (types.SetValue elements, diags).

(** What a handler does to [resp.State]. *)
Inductive StateOp (Model : Type) : Type :=
| StateUntouched
| StateSet (model : Model)
| StateRemoveResource.
Arguments StateUntouched {Model}.
Arguments StateSet {Model} _.
Arguments StateRemoveResource {Model}.

(** The response a handler leaves behind. *)
Record HandlerResponse (Model : Type) : Type := {
  Diagnostics : list Diagnostic;
  State : StateOp Model
}.
Arguments Diagnostics {Model} _.
Arguments State {Model} _.

Definition time_RFC3339 : string := "2006-01-02T15:04:05Z07:00".

(** The provider's registry of resource types. *)
Inductive Resource : Type :=
| OrganizationResource
| ConnectionResource
| DirectoryResource
| WebhookResource
| UserResource
| OrganizationMembershipResource
| OrganizationRoleResource.

(** [WorkOSProvider.Resources]. *)
Definition Resources : list Resource :=
  [OrganizationResource; ConnectionResource; DirectoryResource;
   WebhookResource; UserResource; OrganizationMembershipResource;
   OrganizationRoleResource].

(** [Metadata]: the type name of each resource. *)
Definition Metadata (r : Resource) (ProviderTypeName : string) : string :=
  ProviderTypeName ++
  match r with
  | OrganizationResource => "_organization"
  | ConnectionResource => "_connection"
  | DirectoryResource => "_directory"
  | WebhookResource => "_webhook"
  | UserResource => "_user"
  | OrganizationMembershipResource => "_organization_membership"
  | OrganizationRoleResource => "_organization_role"
  end.

Record OrganizationResourceModel : Type := {
  Org_ID : types.String;
  Org_Name : types.String;
  Org_Domains : types.Set_;
  Org_CreatedAt : types.String;
  Org_UpdatedAt : types.String
}.

Record UserResourceModel : Type := {
  Usr_ID : types.String;
  Usr_Email : types.String;
  Usr_EmailVerified : types.Bool;
  Usr_FirstName : types.String;
  Usr_LastName : types.String;
  Usr_Password : types.String;
  Usr_PasswordHash : types.String;
  Usr_ProfilePictureURL : types.String;
  Usr_CreatedAt : types.String;
  Usr_UpdatedAt : types.String
}.

Record OrganizationMembershipResourceModel : Type := {
  Mem_ID : types.String;
  Mem_UserID : types.String;
  Mem_OrganizationID : types.String;
  Mem_RoleSlug : types.String;
  Mem_Status : types.String;
  Mem_CreatedAt : types.String;
  Mem_UpdatedAt : types.String
}.

Record OrganizationRoleResourceModel : Type := {
  Rol_ID : types.String;
  Rol_OrganizationID : types.String;
  Rol_Slug : types.String;
  Rol_Name : types.String;
  Rol_Description : types.String;
  Rol_Type : types.String;
  Rol_Permissions : types.List_;
  Rol_CreatedAt : types.String;
  Rol_UpdatedAt : types.String
}.

Record ConnectionResourceModel : Type := {
  Con_ID : types.String;
  Con_OrganizationID : types.String;
  Con_ConnectionType : types.String;
  Con_Name : types.String;
  Con_State : types.String;
  Con_Status : types.String;
  Con_CreatedAt : types.String;
  Con_UpdatedAt : types.String
}.

Record DirectoryResourceModel : Type := {
  Dir_ID : types.String;
  Dir_OrganizationID : types.String;
  Dir_Name : types.String;
  Dir_Type : types.String;
  Dir_State : types.String;
  Dir_BearerToken : types.String;
  Dir_Endpoint : types.String;
  Dir_CreatedAt : types.String;
  Dir_UpdatedAt : types.String
}.

(** The response of an import: diagnostics, and the attributes written
    with [State.SetAttribute], in order. *)
Record ImportStateResponse : Type := {
  ImportDiagnostics : list Diagnostic;
  ImportAttributes : list (string * string)
}.

Section Handlers.

Variable env : Env.

(** The configured [r.client]. *)
Variable c : Client.

Definition fail {Model : Type} (summary detail : string)
    : HandlerResponse Model :=
  {| Diagnostics := [AddError summary detail]; State := StateUntouched |}.

Definition done {Model : Type} (st : StateOp Model) : HandlerResponse Model :=
  {| Diagnostics := []; State := st |}.

(** A non-empty API string as a known value, an empty one as null. *)
Definition valueOrNull (s : string) : types.String :=
  if negb (String.eqb s "") then types.StringValue s else types.StringNull.

(* ---- Organization ---- *)

(** [OrganizationResource.Read]. *)
Definition OrganizationResource_Read (state : OrganizationResourceModel)
    : M env (HandlerResponse OrganizationResourceModel) :=
  r <- GetOrganization env c (types.ValueString (Org_ID state)) ;;
  match r with
  | inl err =>
      if IsNotFound err then ret (done StateRemoveResource)
      else ret (fail "Error Reading Organization"
                  ("Could not read organization ID "
                   ++ types.ValueString (Org_ID state) ++ ": " ++ Error err))
  | inr org =>
      let save (domains : types.Set_)
          : M env (HandlerResponse OrganizationResourceModel) :=
        ret (done (StateSet
          {| Org_ID := Org_ID state;
             Org_Name := types.StringValue (Organization_Name org);
             Org_Domains := domains;
             Org_CreatedAt := types.StringValue
               (time_Format env (Organization_CreatedAt org)
                  "2006-01-02T15:04:05Z");
             Org_UpdatedAt := types.StringValue
               (time_Format env (Organization_UpdatedAt org)
                  "2006-01-02T15:04:05Z")
          |})) in
      if 0 <? Z.of_nat (List.length (Organization_Domains org)) then
        let domainStrings := map Domain_Domain (Organization_Domains org) in
        let (domains, diags) := SetValueFrom (attr_String env) domainStrings in
        let respDiagnostics := Diagnostics_Append [] diags in
        if HasError respDiagnostics then
          ret {| Diagnostics := respDiagnostics; State := StateUntouched |}
        else save domains
      else save types.SetNull
  end.

(** [OrganizationResource.Delete]. *)
Definition OrganizationResource_Delete (state : OrganizationResourceModel)
    : M env (HandlerResponse OrganizationResourceModel) :=
  r <- DeleteOrganization env c (types.ValueString (Org_ID state)) ;;
  match r with
  | Some err =>
      if IsNotFound err then ret (done StateUntouched)
      else ret (fail "Error Deleting Organization"
                  ("Could not delete organization, unexpected error: "
                   ++ Error err))
  | None => ret (done StateUntouched)
  end.

(* ---- User ---- *)

(** [UserResource.Update]. *)
Definition UserResource_updateReq (plan state : UserResourceModel)
    : UserUpdateRequest :=
  {| UserUpdate_Email :=
       if negb (types.Equal (Usr_Email plan) (Usr_Email state))
       then types.ValueString (Usr_Email plan) else "";
     UserUpdate_FirstName :=
       if negb (types.Equal (Usr_FirstName plan) (Usr_FirstName state))
       then types.ValueString (Usr_FirstName plan) else "";
     UserUpdate_LastName :=
       if negb (types.Equal (Usr_LastName plan) (Usr_LastName state))
       then types.ValueString (Usr_LastName plan) else "";
     UserUpdate_EmailVerified :=
       if negb (types.BoolEqual (Usr_EmailVerified plan) (Usr_EmailVerified state))
       then Some (types.ValueBool (Usr_EmailVerified plan)) else None |}.

Definition UserResource_Update (plan state : UserResourceModel)
    : M env (HandlerResponse UserResourceModel) :=
  let updateReq := UserResource_updateReq plan state in
  r <- UpdateUser env c (types.ValueString (Usr_ID state)) updateReq ;;
  match r with
  | inl err =>
      ret (fail "Error Updating User"
             ("Could not update user, unexpected error: " ++ Error err))
  | inr user =>
      ret (done (StateSet
        {| Usr_ID := Usr_ID state;
           Usr_Email := types.StringValue (User_Email user);
           Usr_EmailVerified := types.BoolValue (User_EmailVerified user);
           Usr_FirstName :=
             if negb (String.eqb (User_FirstName user) "")
             then types.StringValue (User_FirstName user)
             else Usr_FirstName plan;
           Usr_LastName :=
             if negb (String.eqb (User_LastName user) "")
             then types.StringValue (User_LastName user)
             else Usr_LastName plan;
           Usr_Password := Usr_Password plan;
           Usr_PasswordHash := Usr_PasswordHash plan;
           Usr_ProfilePictureURL := valueOrNull (User_ProfilePictureURL user);
           Usr_CreatedAt := Usr_CreatedAt state;
           Usr_UpdatedAt := types.StringValue
             (time_Format env (User_UpdatedAt user) time_RFC3339)
        |}))
  end.

(** [UserResource.Delete]. *)
Definition UserResource_Delete (state : UserResourceModel)
    : M env (HandlerResponse UserResourceModel) :=
  r <- DeleteUser env c (types.ValueString (Usr_ID state)) ;;
  match r with
  | Some err =>
      if IsNotFound err then ret (done StateUntouched)
      else ret (fail "Error Deleting User"
                  ("Could not delete user, unexpected error: " ++ Error err))
  | None => ret (done StateUntouched)
  end.

(* ---- Organization membership ---- *)

Definition OrganizationMembershipResource_createReq
    (plan : OrganizationMembershipResourceModel)
    : OrganizationMembershipCreateRequest :=
  {| MembershipCreate_UserID := types.ValueString (Mem_UserID plan);
     MembershipCreate_OrganizationID :=
       types.ValueString (Mem_OrganizationID plan);
     MembershipCreate_RoleSlug :=
       if negb (types.IsNull (Mem_RoleSlug plan))
       then types.ValueString (Mem_RoleSlug plan) else "" |}.

(** [OrganizationMembershipResource.Create]. *)
Definition OrganizationMembershipResource_Create
    (plan : OrganizationMembershipResourceModel)
    : M env (HandlerResponse OrganizationMembershipResourceModel) :=
  let createReq := OrganizationMembershipResource_createReq plan in
  r <- CreateOrganizationMembership env c createReq ;;
  match r with
  | inl err =>
      ret (fail "Error Creating Organization Membership"
             ("Could not create organization membership, unexpected error: "
              ++ Error err))
  | inr membership =>
      ret (done (StateSet
        {| Mem_ID := types.StringValue (Membership_ID membership);
           Mem_UserID := types.StringValue (Membership_UserID membership);
           Mem_OrganizationID :=
             types.StringValue (Membership_OrganizationID membership);
           Mem_RoleSlug :=
             if negb (String.eqb (Membership_RoleSlug membership) "") then
               types.StringValue (Membership_RoleSlug membership)
             else if negb (types.IsNull (Mem_RoleSlug plan))
                     && negb (String.eqb
                                (types.ValueString (Mem_RoleSlug plan)) "")
             then Mem_RoleSlug plan
             else types.StringNull;
           Mem_Status := types.StringValue (Membership_Status membership);
           Mem_CreatedAt := types.StringValue
             (time_Format env (Membership_CreatedAt membership) time_RFC3339);
           Mem_UpdatedAt := types.StringValue
             (time_Format env (Membership_UpdatedAt membership) time_RFC3339)
        |}))
  end.

(** [OrganizationMembershipResource.Read]. *)
Definition OrganizationMembershipResource_Read
    (state : OrganizationMembershipResourceModel)
    : M env (HandlerResponse OrganizationMembershipResourceModel) :=
  r <- GetOrganizationMembership env c (types.ValueString (Mem_ID state)) ;;
  match r with
  | inl err =>
      if IsNotFound err then ret (done StateRemoveResource)
      else ret (fail "Error Reading Organization Membership"
                  ("Could not read organization membership ID "
                   ++ types.ValueString (Mem_ID state) ++ ": " ++ Error err))
  | inr membership =>
      ret (done (StateSet
        {| Mem_ID := Mem_ID state;
           Mem_UserID := types.StringValue (Membership_UserID membership);
           Mem_OrganizationID :=
             types.StringValue (Membership_OrganizationID membership);
           Mem_RoleSlug :=
             if negb (String.eqb (Membership_RoleSlug membership) "") then
               types.StringValue (Membership_RoleSlug membership)
             else if negb (types.IsNull (Mem_RoleSlug state))
                     && negb (String.eqb
                                (types.ValueString (Mem_RoleSlug state)) "")
             then Mem_RoleSlug state
             else types.StringNull;
           Mem_Status := types.StringValue (Membership_Status membership);
           Mem_CreatedAt := types.StringValue
             (time_Format env (Membership_CreatedAt membership) time_RFC3339);
           Mem_UpdatedAt := types.StringValue
             (time_Format env (Membership_UpdatedAt membership) time_RFC3339)
        |}))
  end.

(** [OrganizationMembershipResource.Update]: no write is issued; the
    current remote state is read back. *)
Definition OrganizationMembershipResource_Update
    (plan state : OrganizationMembershipResourceModel)
    : M env (HandlerResponse OrganizationMembershipResourceModel) :=
  r <- GetOrganizationMembership env c (types.ValueString (Mem_ID state)) ;;
  match r with
  | inl err =>
      ret (fail "Error Updating Organization Membership"
             ("Could not read organization membership: " ++ Error err))
  | inr membership =>
      ret (done (StateSet
        {| Mem_ID := Mem_ID state;
           Mem_UserID := types.StringValue (Membership_UserID membership);
           Mem_OrganizationID :=
             types.StringValue (Membership_OrganizationID membership);
           Mem_RoleSlug :=
             if negb (String.eqb (Membership_RoleSlug membership) "") then
               types.StringValue (Membership_RoleSlug membership)
             else Mem_RoleSlug plan;
           Mem_Status := types.StringValue (Membership_Status membership);
           Mem_CreatedAt := Mem_CreatedAt state;
           Mem_UpdatedAt := types.StringValue
             (time_Format env (Membership_UpdatedAt membership) time_RFC3339)
        |}))
  end.

(** [OrganizationMembershipResource.Delete]. *)
Definition OrganizationMembershipResource_Delete
    (state : OrganizationMembershipResourceModel)
    : M env (HandlerResponse OrganizationMembershipResourceModel) :=
  r <- DeleteOrganizationMembership env c (types.ValueString (Mem_ID state)) ;;
  match r with
  | Some err =>
      if IsNotFound err then ret (done StateUntouched)
      else ret (fail "Error Deleting Organization Membership"
                  ("Could not delete organization membership, unexpected error: "
                   ++ Error err))
  | None => ret (done StateUntouched)
  end.

(* ---- Organization role ---- *)

Definition OrganizationRoleResource_createReq
    (plan : OrganizationRoleResourceModel) : OrganizationRoleCreateRequest :=
  {| RoleCreate_Slug := types.ValueString (Rol_Slug plan);
     RoleCreate_Name := types.ValueString (Rol_Name plan);
     RoleCreate_Description :=
       if negb (types.IsNull (Rol_Description plan))
          && negb (types.IsUnknown (Rol_Description plan))
       then types.ValueString (Rol_Description plan) else "" |}.

(** [OrganizationRoleResource.Create]. *)
Definition OrganizationRoleResource_Create
    (plan : OrganizationRoleResourceModel)
    : M env (HandlerResponse OrganizationRoleResourceModel) :=
  let createReq := OrganizationRoleResource_createReq plan in
  r <- CreateOrganizationRole env c
         (types.ValueString (Rol_OrganizationID plan)) createReq ;;
  match r with
  | inl err =>
      ret (fail "Error Creating Organization Role"
             ("Could not create organization role, unexpected error: "
              ++ Error err))
  | inr role =>
      ret (done (StateSet
        {| Rol_ID := types.StringValue (Role_ID role);
           Rol_OrganizationID := Rol_OrganizationID plan;
           Rol_Slug := Rol_Slug plan;
           Rol_Name := Rol_Name plan;
           Rol_Description := types.StringValue (Role_Description role);
           Rol_Type := types.StringValue (Role_Type role);
           Rol_Permissions :=
             if 0 <? Z.of_nat (List.length (Role_Permissions role))
             then types.ListValue (Role_Permissions role)
             else types.ListValue [];
           Rol_CreatedAt := types.StringValue
             (time_Format env (Role_CreatedAt role) time_RFC3339);
           Rol_UpdatedAt := types.StringValue
             (time_Format env (Role_UpdatedAt role) time_RFC3339)
        |}))
  end.

(** [OrganizationRoleResource.Delete]. *)
Definition OrganizationRoleResource_Delete
    (state : OrganizationRoleResourceModel)
    : M env (HandlerResponse OrganizationRoleResourceModel) :=
  r <- DeleteOrganizationRole env c
         (types.ValueString (Rol_OrganizationID state))
         (types.ValueString (Rol_Slug state)) ;;
  match r with
  | Some err =>
      if IsNotFound err then ret (done StateUntouched)
      else ret (fail "Error Deleting Organization Role"
                  ("Could not delete organization role, unexpected error: "
                   ++ Error err))
  | None => ret (done StateUntouched)
  end.

(** [OrganizationRoleResource.ImportState]: the composite key
    [org_id/slug] is parsed; no client call is made. *)
Definition OrganizationRoleResource_ImportState (ID : string)
    : M env ImportStateResponse :=
  let parts := strings_SplitN ID "/" 2 in
  match parts with
  | [organization_id; slug] =>
      if String.eqb organization_id "" || String.eqb slug "" then
        ret {| ImportDiagnostics :=
                 [AddError "Invalid Import ID"
                    ("Expected import ID in the format 'organization_id/slug', got: "
                     ++ ID)];
               ImportAttributes := [] |}
      else
        ret {| ImportDiagnostics := [];
               ImportAttributes :=
                 [("organization_id", organization_id); ("slug", slug)] |}
  | _ =>
      ret {| ImportDiagnostics :=
               [AddError "Invalid Import ID"
                  ("Expected import ID in the format 'organization_id/slug', got: "
                   ++ ID)];
             ImportAttributes := [] |}
  end.

(* ---- Connection and directory ---- *)

(** [ConnectionResource.Create]. *)
Definition ConnectionResource_Create (plan : ConnectionResourceModel)
    : M env (HandlerResponse ConnectionResourceModel) :=
  let createReq :=
    {| ConnectionCreate_OrganizationID :=
         types.ValueString (Con_OrganizationID plan);
       ConnectionCreate_ConnectionType :=
         types.ValueString (Con_ConnectionType plan);
       ConnectionCreate_Name := types.ValueString (Con_Name plan) |} in
  r <- CreateConnection env c createReq ;;
  match r with
  | inl err =>
      ret (fail "Error Creating Connection"
             ("Could not create connection, unexpected error: " ++ Error err))
  | inr conn =>
      ret (done (StateSet
        {| Con_ID := types.StringValue (Connection_ID conn);
           Con_OrganizationID := Con_OrganizationID plan;
           Con_ConnectionType := Con_ConnectionType plan;
           Con_Name :=
             if negb (String.eqb (Connection_Name conn) "")
             then types.StringValue (Connection_Name conn)
             else Con_Name plan;
           Con_State := types.StringValue (Connection_State conn);
           Con_Status := types.StringValue (Connection_Status conn);
           Con_CreatedAt := types.StringValue
             (time_Format env (Connection_CreatedAt conn) "2006-01-02T15:04:05Z");
           Con_UpdatedAt := types.StringValue
             (time_Format env (Connection_UpdatedAt conn) "2006-01-02T15:04:05Z")
        |}))
  end.

(** [ConnectionResource.Update]. *)
Definition ConnectionResource_Update (plan state : ConnectionResourceModel)
    : M env (HandlerResponse ConnectionResourceModel) :=
  let updateReq :=
    {| ConnectionUpdate_Name := types.ValueString (Con_Name plan) |} in
  r <- UpdateConnection env c (types.ValueString (Con_ID state)) updateReq ;;
  match r with
  | inl err =>
      ret (fail "Error Updating Connection"
             ("Could not update connection, unexpected error: " ++ Error err))
  | inr conn =>
      ret (done (StateSet
        {| Con_ID := Con_ID state;
           Con_OrganizationID := Con_OrganizationID plan;
           Con_ConnectionType := Con_ConnectionType plan;
           Con_Name := types.StringValue (Connection_Name conn);
           Con_State := types.StringValue (Connection_State conn);
           Con_Status := types.StringValue (Connection_Status conn);
           Con_CreatedAt := Con_CreatedAt state;
           Con_UpdatedAt := types.StringValue
             (time_Format env (Connection_UpdatedAt conn) "2006-01-02T15:04:05Z")
        |}))
  end.

(** [ConnectionResource.Delete]. *)
Definition ConnectionResource_Delete (state : ConnectionResourceModel)
    : M env (HandlerResponse ConnectionResourceModel) :=
  r <- DeleteConnection env c (types.ValueString (Con_ID state)) ;;
  match r with
  | Some err =>
      if IsNotFound err then ret (done StateUntouched)
      else ret (fail "Error Deleting Connection"
                  ("Could not delete connection, unexpected error: "
                   ++ Error err))
  | None => ret (done StateUntouched)
  end.

(** [DirectoryResource.Create]. *)
Definition DirectoryResource_Create (plan : DirectoryResourceModel)
    : M env (HandlerResponse DirectoryResourceModel) :=
  let createReq :=
    {| DirectoryCreate_OrganizationID :=
         types.ValueString (Dir_OrganizationID plan);
       DirectoryCreate_Name := types.ValueString (Dir_Name plan);
       DirectoryCreate_Type := types.ValueString (Dir_Type plan) |} in
  r <- CreateDirectory env c createReq ;;
  match r with
  | inl err =>
      ret (fail "Error Creating Directory"
             ("Could not create directory, unexpected error: " ++ Error err))
  | inr dir =>
      ret (done (StateSet
        {| Dir_ID := types.StringValue (Directory_ID dir);
           Dir_OrganizationID := Dir_OrganizationID plan;
           Dir_Name := Dir_Name plan;
           Dir_Type := Dir_Type plan;
           Dir_State := types.StringValue (Directory_State dir);
           Dir_BearerToken := valueOrNull (Directory_BearerToken dir);
           Dir_Endpoint := valueOrNull (Directory_Endpoint dir);
           Dir_CreatedAt := types.StringValue
             (time_Format env (Directory_CreatedAt dir) "2006-01-02T15:04:05Z");
           Dir_UpdatedAt := types.StringValue
             (time_Format env (Directory_UpdatedAt dir) "2006-01-02T15:04:05Z")
        |}))
  end.

End Handlers.

(* ---- Further handlers ---- *)



Record WorkOSProviderModel : Type := {
  APIKey : types.String;
  ClientID : types.String;
  BaseURL : types.String
}.

(** What [Configure] leaves in its response: the diagnostics, and the
    client handed to resources and data sources, if one was created. *)
Record ConfigureResponse : Type := {
  ConfigureDiagnostics : list Diagnostic;
  ResourceData : option Client
}.

(** [WorkOSProvider.Configure]: environment variables are the defaults,
    overridden by every configuration value that is not null.  (The
    attribute path of [AddAttributeError] is not kept.) *)
Definition Configure (ext : Ext) (config : WorkOSProviderModel)
    : ConfigureResponse :=
  let apiKey := os_Getenv ext "WORKOS_API_KEY" in
  let clientID := os_Getenv ext "WORKOS_CLIENT_ID" in
  let baseURL := os_Getenv ext "WORKOS_BASE_URL" in
  let apiKey :=
    if negb (types.IsNull (APIKey config))
    then types.ValueString (APIKey config) else apiKey in
  let clientID :=
    if negb (types.IsNull (ClientID config))
    then types.ValueString (ClientID config) else clientID in
  let baseURL :=
    if negb (types.IsNull (BaseURL config))
    then types.ValueString (BaseURL config) else baseURL in
  if String.eqb apiKey "" then
    {| ConfigureDiagnostics :=
         [AddError "Missing WorkOS API Key"
            ("The provider cannot create the WorkOS API client as there is a missing or empty value for the WorkOS API key. "
             ++ "Set the api_key value in the configuration or use the WORKOS_API_KEY environment variable. "
             ++ "If either is already set, ensure the value is not empty.")];
       ResourceData := None |}
  else
    let baseURL :=
      if String.eqb baseURL "" then "https://api.workos.com" else baseURL in
    match NewClient apiKey clientID baseURL with
    | inl err =>
        {| ConfigureDiagnostics :=
             [AddError "Unable to Create WorkOS API Client"
                ("An unexpected error occurred when creating the WorkOS API client. "
                 ++ "If the error is not clear, please contact the provider developers."
                 ++ String "010" (String "010" "WorkOS Client Error: ")
                 ++ Error err)];
           ResourceData := None |}
    | inr workosClient =>
        {| ConfigureDiagnostics := []; ResourceData := Some workosClient |}
    end.

Section MoreHandlers.

Variable env : Env.
Variable ext : Ext.

(** The configured [r.client]. *)
Variable c : Client.

(** [UserResource.Read]. *)
Definition UserResource_Read (state : UserResourceModel)
    : M env (HandlerResponse UserResourceModel) :=
  r <- GetUser env c (types.ValueString (Usr_ID state)) ;;
  match r with
  | inl err =>
      if IsNotFound err then ret (done StateRemoveResource)
      else ret (fail "Error Reading User"
                  ("Could not read user ID "
                   ++ types.ValueString (Usr_ID state) ++ ": " ++ Error err))
  | inr user =>
      ret (done (StateSet
        {| Usr_ID := Usr_ID state;
           Usr_Email := types.StringValue (User_Email user);
           Usr_EmailVerified := types.BoolValue (User_EmailVerified user);
           Usr_FirstName := valueOrNull (User_FirstName user);
           Usr_LastName := valueOrNull (User_LastName user);
           Usr_Password := Usr_Password state;
           Usr_PasswordHash := Usr_PasswordHash state;
           Usr_ProfilePictureURL := valueOrNull (User_ProfilePictureURL user);
           Usr_CreatedAt := types.StringValue
             (time_Format env (User_CreatedAt user) time_RFC3339);
           Usr_UpdatedAt := types.StringValue
             (time_Format env (User_UpdatedAt user) time_RFC3339)
        |}))
  end.

(** The permission list as the role handlers persist it. *)
Definition permissionsList (permissions : list string) : types.List_ :=
  if 0 <? Z.of_nat (List.length permissions)
  then types.ListValue permissions
  else types.ListValue [].

(** [OrganizationRoleResource.Read]. *)
Definition OrganizationRoleResource_Read (state : OrganizationRoleResourceModel)
    : M env (HandlerResponse OrganizationRoleResourceModel) :=
  r <- GetOrganizationRole env c
         (types.ValueString (Rol_OrganizationID state))
         (types.ValueString (Rol_Slug state)) ;;
  match r with
  | inl err =>
      if IsNotFound err then ret (done StateRemoveResource)
      else ret (fail "Error Reading Organization Role"
                  ("Could not read organization role "
                   ++ types.ValueString (Rol_Slug state) ++ ": " ++ Error err))
  | inr role =>
      ret (done (StateSet
        {| Rol_ID := types.StringValue (Role_ID role);
           Rol_OrganizationID := Rol_OrganizationID state;
           Rol_Slug := types.StringValue (Role_Slug role);
           Rol_Name := types.StringValue (Role_Name role);
           Rol_Description := types.StringValue (Role_Description role);
           Rol_Type := types.StringValue (Role_Type role);
           Rol_Permissions := permissionsList (Role_Permissions role);
           Rol_CreatedAt := types.StringValue
             (time_Format env (Role_CreatedAt role) time_RFC3339);
           Rol_UpdatedAt := types.StringValue
             (time_Format env (Role_UpdatedAt role) time_RFC3339)
        |}))
  end.

(** [OrganizationRoleResource.Update].  [UpdateOrganizationRole] stands
    for [r.client.UpdateOrganizationRole], the PATCH of the entity
    client, given the organization id, the slug and the request. *)
Definition OrganizationRoleResource_Update
    (UpdateOrganizationRole :
       string -> string -> OrganizationRoleUpdateRequest ->
       M env (error + OrganizationRole))
    (plan state : OrganizationRoleResourceModel)
    : M env (HandlerResponse OrganizationRoleResourceModel) :=
  if types.Equal (Rol_Name plan) (Rol_Name state)
     && types.Equal (Rol_Description plan) (Rol_Description state)
  then
    ret (done (StateSet
      {| Rol_ID := Rol_ID state;
         Rol_OrganizationID := Rol_OrganizationID plan;
         Rol_Slug := Rol_Slug plan;
         Rol_Name := Rol_Name plan;
         Rol_Description := Rol_Description plan;
         Rol_Type := Rol_Type state;
         Rol_Permissions := Rol_Permissions state;
         Rol_CreatedAt := Rol_CreatedAt state;
         Rol_UpdatedAt := Rol_UpdatedAt state |}))
  else
    let updateReq :=
      {| RoleUpdate_Name := types.ValueString (Rol_Name plan);
         RoleUpdate_Description := types.ValueString (Rol_Description plan) |} in
    r <- UpdateOrganizationRole
           (types.ValueString (Rol_OrganizationID state))
           (types.ValueString (Rol_Slug state)) updateReq ;;
    match r with
    | inl err =>
        ret (fail "Error Updating Organization Role"
               ("Could not update organization role, unexpected error: "
                ++ Error err))
    | inr role =>
        ret (done (StateSet
          {| Rol_ID := Rol_ID state;
             Rol_OrganizationID := Rol_OrganizationID plan;
             Rol_Slug := Rol_Slug plan;
             Rol_Name := Rol_Name plan;
             Rol_Description := types.StringValue (Role_Description role);
             Rol_Type := Rol_Type state;
             Rol_Permissions := permissionsList (Role_Permissions role);
             Rol_CreatedAt := Rol_CreatedAt state;
             Rol_UpdatedAt := types.StringValue
               (time_Format env (Role_UpdatedAt role) time_RFC3339)
          |}))
    end.



End MoreHandlers.

End provider.

(* ------------------------------------------------------------------ *)
(** ** A scripted environment

    A concrete [Env] on which the handlers can be run: the remote API
    answers from a script, the context and the random source read from
    lists, and bodies use a toy wire format (the body text is the one
    field of interest of each entity). *)

Module sim.

Import client.

Record World : Type := {
  replies : list (error + Response);
  dones : list bool;
  randoms : list Z
}.

Definition Do (w : World) (req : Request) : World * (error + Response) :=
  match replies w with
  | [] => (w, inl (errorString "connection refused"))
  | r :: rest =>
      ({| replies := rest; dones := dones w; randoms := randoms w |}, r)
  end.

(** A string element as the framework prints it, in double quotes. *)
Definition quoted (s : string) : string :=
  String "034" (s ++ String "034" "").

Definition Done (w : World) (delay : Z) : World * bool :=
  match dones w with
  | [] => (w, false)
  | d :: rest =>
      ({| replies := replies w; dones := rest; randoms := randoms w |}, d)
  end.

Definition Int63n (w : World) (k : Z) : World * Z :=
  match randoms w with
  | [] => (w, 0)
  | r :: rest =>
      ({| replies := replies w; dones := dones w; randoms := rest |}, r mod k)
  end.

Definition Unmarshal_APIError (body : string) (e : APIError) : APIError * bool :=
  if String.eqb body "validation" then
    ({| StatusCode := StatusCode e; Code := "invalid_request";
        Message := "";
        Errors := [{| Field := "email"; VCode := "invalid"; VMessage := "" |}] |},
     true)
  else if String.eqb body "statusCode=500" then
    (* a body with a key that matches the untagged [StatusCode] field *)
    ({| StatusCode := 500; Code := Code e; Message := "upstream failure";
        Errors := Errors e |},
     true)
  else (e, false).

Definition mkDomain (d : string) : Domain :=
  {| Domain_ID := ""; Domain_Object := "organization_domain";
     Domain_Domain := d; Domain_State := "verified";
     Domain_OrganizationID := ""; Domain_VerificationType := "" |}.

Definition Unmarshal_Organization (body : string) : error + Organization :=
  inr {| Organization_ID := "org_1"; Organization_Object := "organization";
         Organization_Name := "Acme";
         Organization_AllowProfilesOutsideOrganization := false;
         Organization_Domains := map mkDomain (strings_SplitN body "," 16);
         Organization_CreatedAt := 0; Organization_UpdatedAt := 0 |}.

Definition Unmarshal_User (body : string) : error + User :=
  inr {| User_ID := "user_1"; User_Object := "user"; User_Email := body;
         User_EmailVerified := false; User_FirstName := "";
         User_LastName := ""; User_ProfilePictureURL := "";
         User_CreatedAt := 0; User_UpdatedAt := 0 |}.

Definition Unmarshal_OrganizationMembership (body : string)
    : error + OrganizationMembership :=
  inr {| Membership_ID := "om_1"; Membership_Object := "organization_membership";
         Membership_UserID := "user_1"; Membership_OrganizationID := "org_1";
         Membership_RoleSlug := body; Membership_Status := "active";
         Membership_CreatedAt := 0; Membership_UpdatedAt := 0 |}.

Definition Unmarshal_OrganizationRole (body : string) : error + OrganizationRole :=
  inr {| Role_ID := "role_1"; Role_Slug := body; Role_Name := "";
         Role_Description := ""; Role_Type := "OrganizationRole";
         Role_Permissions := []; Role_CreatedAt := 0; Role_UpdatedAt := 0 |}.

Definition Unmarshal_Connection (body : string) : error + Connection :=
  inr {| Connection_ID := body; Connection_Object := "connection";
         Connection_OrganizationID := "org_1";
         Connection_ConnectionType := "OktaSAML"; Connection_Name := "";
         Connection_State := "draft"; Connection_Status := "unlinked";
         Connection_SAMLConfiguration := None;
         Connection_OIDCConfiguration := None;
         Connection_CreatedAt := 0; Connection_UpdatedAt := 0 |}.

Definition Unmarshal_Directory (body : string) : error + Directory :=
  inr {| Directory_ID := body; Directory_Object := "directory";
         Directory_OrganizationID := "org_1"; Directory_Name := "";
         Directory_Type := "okta scim v2.0"; Directory_State := "unlinked";
         Directory_BearerToken := ""; Directory_Endpoint := "";
         Directory_CreatedAt := 0; Directory_UpdatedAt := 0 |}.

Definition env : Env :=
  {| client.World := World;
     http_NewRequest := fun _ _ => None;
     http_Do := Do;
     ctx_Done := Done;
     ctx_Err := fun _ => Canceled;
     rand_Int63n := Int63n;
     http_ParseTime := fun _ => None;
     time_Until := fun _ _ => 0;
     json_Marshal := fun _ => None;
     json_Unmarshal_APIError := Unmarshal_APIError;
     json_Unmarshal_Organization := Unmarshal_Organization;
     json_Unmarshal_User := Unmarshal_User;
     json_Unmarshal_OrganizationMembership := Unmarshal_OrganizationMembership;
     json_Unmarshal_OrganizationRole := Unmarshal_OrganizationRole;
     json_Unmarshal_Connection := Unmarshal_Connection;
     json_Unmarshal_Directory := Unmarshal_Directory;
     time_Format := fun t _ => itoa t;
     attr_String := quoted |}.

(** A response with a status, an optional [Retry-After] header and a body. *)
Definition reply (status : Z) (retryAfter body : string) : error + Response :=
  inr {| resp_StatusCode := status;
         resp_Header :=
           if String.eqb retryAfter "" then []
           else [("Retry-After", retryAfter)];
         resp_Body := inr body |}.

(** A response whose body cannot be read to its end. *)
Definition broken (status : Z) : error + Response :=
  inr {| resp_StatusCode := status;
         resp_Header := [];
         resp_Body := inl (errorString "unexpected EOF") |}.

(** The state before anything is sent, for a script of replies. *)
Definition start (script : list (error + Response)) : Net env :=
  {| world := {| replies := script; dones := []; randoms := [] |} : client.World env;
     wire := [] |}.

Definition theClient : Client :=
  {| apiKey := "sk_test"; clientID := ""; baseURL := DefaultBaseURL |}.

(** List bodies in the toy wire format: the ids of the entries, separated
    by commas. *)
Definition mkRole (id : string) : OrganizationRole :=
  {| Role_ID := id; Role_Slug := "org-" ++ id; Role_Name := "";
     Role_Description := ""; Role_Type := "OrganizationRole";
     Role_Permissions := []; Role_CreatedAt := 0; Role_UpdatedAt := 0 |}.

Definition mkUser (id : string) : User :=
  {| User_ID := id; User_Object := "user"; User_Email := id ++ "@example.com";
     User_EmailVerified := true; User_FirstName := ""; User_LastName := "";
     User_ProfilePictureURL := ""; User_CreatedAt := 0; User_UpdatedAt := 0 |}.

Definition mkOrganization (id : string) : Organization :=
  {| Organization_ID := id; Organization_Object := "organization";
     Organization_Name := ""; Organization_AllowProfilesOutsideOrganization := false;
     Organization_Domains := []; Organization_CreatedAt := 0;
     Organization_UpdatedAt := 0 |}.

Definition mkConnection (id : string) : Connection :=
  {| Connection_ID := id; Connection_Object := "connection";
     Connection_OrganizationID := "org_1";
     Connection_ConnectionType := "OktaSAML"; Connection_Name := "";
     Connection_State := "active"; Connection_Status := "linked";
     Connection_SAMLConfiguration := None;
     Connection_OIDCConfiguration := None;
     Connection_CreatedAt := 0; Connection_UpdatedAt := 0 |}.

(** The entries of a list body; the body [-] is the empty list. *)
Definition entries (body : string) : list string :=
  if String.eqb body "-" then [] else strings_SplitN body "," 16.

Definition Getenv (key : string) : string :=
  if String.eqb key "WORKOS_API_KEY" then "sk_env"
  else if String.eqb key "WORKOS_BASE_URL" then "https://env.example.com"
  else "".

Definition ext : Ext :=
  {| url_QueryEscape := fun s => s;
     os_Getenv := Getenv;
     json_Unmarshal_OrganizationList := fun body =>
       inr {| OrganizationList_Data := map mkOrganization (entries body);
              OrganizationList_ListMetadata := zeroListMetadata |};
     json_Unmarshal_UserList := fun body =>
       inr {| UserList_Data := map mkUser (entries body);
              UserList_ListMetadata := zeroListMetadata |};
     json_Unmarshal_ConnectionList := fun body =>
       inr {| ConnectionList_Data := map mkConnection (entries body);
              ConnectionList_ListMetadata := zeroListMetadata |};
     json_Unmarshal_OrganizationRoleList := fun body =>
       inr {| RoleList_Data := map mkRole (entries body);
              RoleList_ListMetadata := zeroListMetadata |} |}.

(** The state before anything is sent, for a script of replies and a
    script of answers of the context. *)
Definition startWith (script : list (error + Response)) (ctx : list bool)
    : Net env :=
  {| world := {| replies := script; dones := ctx; randoms := [] |} : client.World env;
     wire := [] |}.

(** A remote that answers every request with a 429, and a context that
    is never done. *)
Definition busy : Env :=
  {| client.World := unit;
     http_NewRequest := fun _ _ => None;
     http_Do := fun w _ => (w, reply 429 "" "");
     ctx_Done := fun w _ => (w, false);
     ctx_Err := fun _ => Canceled;
     rand_Int63n := fun w _ => (w, 0);
     http_ParseTime := fun _ => None;
     time_Until := fun _ _ => 0;
     json_Marshal := fun _ => None;
     json_Unmarshal_APIError := Unmarshal_APIError;
     json_Unmarshal_Organization := Unmarshal_Organization;
     json_Unmarshal_User := Unmarshal_User;
     json_Unmarshal_OrganizationMembership := Unmarshal_OrganizationMembership;
     json_Unmarshal_OrganizationRole := Unmarshal_OrganizationRole;
     json_Unmarshal_Connection := Unmarshal_Connection;
     json_Unmarshal_Directory := Unmarshal_Directory;
     time_Format := fun t _ => itoa t;
     attr_String := quoted |}.

(** The scripted environment with a request constructor that refuses a
    URL without a scheme, as [url.Parse] does. *)
Definition strict : Env :=
  {| client.World := World;
     http_NewRequest := fun _ url =>
       if String.prefix ":" url
       then Some (errorString "parse: missing protocol scheme")
       else None;
     http_Do := Do;
     ctx_Done := Done;
     ctx_Err := fun _ => Canceled;
     rand_Int63n := Int63n;
     http_ParseTime := fun _ => None;
     time_Until := fun _ _ => 0;
     json_Marshal := fun _ => None;
     json_Unmarshal_APIError := Unmarshal_APIError;
     json_Unmarshal_Organization := Unmarshal_Organization;
     json_Unmarshal_User := Unmarshal_User;
     json_Unmarshal_OrganizationMembership := Unmarshal_OrganizationMembership;
     json_Unmarshal_OrganizationRole := Unmarshal_OrganizationRole;
     json_Unmarshal_Connection := Unmarshal_Connection;
     json_Unmarshal_Directory := Unmarshal_Directory;
     time_Format := fun t _ => itoa t;
     attr_String := quoted |}.

(** The scripted environment with a context that ends by its deadline. *)
Definition timed : Env :=
  {| client.World := World;
     http_NewRequest := fun _ _ => None;
     http_Do := Do;
     ctx_Done := Done;
     ctx_Err := fun _ => DeadlineExceeded;
     rand_Int63n := Int63n;
     http_ParseTime := fun _ => None;
     time_Until := fun _ _ => 0;
     json_Marshal := fun _ => None;
     json_Unmarshal_APIError := Unmarshal_APIError;
     json_Unmarshal_Organization := Unmarshal_Organization;
     json_Unmarshal_User := Unmarshal_User;
     json_Unmarshal_OrganizationMembership := Unmarshal_OrganizationMembership;
     json_Unmarshal_OrganizationRole := Unmarshal_OrganizationRole;
     json_Unmarshal_Connection := Unmarshal_Connection;
     json_Unmarshal_Directory := Unmarshal_Directory;
     time_Format := fun t _ => itoa t;
     attr_String := quoted |}.

End sim.

(* ------------------------------------------------------------------ *)
(** ** Vocabulary of the statements *)

Module spec.

Import client.
Import provider.

(** An error wrapped in any number of [fmt.Errorf("...: %w", err)] layers. *)
Definition wraps (msgs : list string) (err : error) : error :=
  fold_right wrapError err msgs.

(** The backoff before jitter: base times two to the attempt, capped. *)
Definition backoffValue (attempt : Z) : Z :=
  Z.min (BaseRetryDelay * 2 ^ attempt) MaxRetryDelay.

(** The contract of [rand.Int63n] on a positive argument. *)
Definition randContract (env : Env) : Prop :=
  forall (w : World env) (k : Z), 0 < k -> 0 <= snd (rand_Int63n env w k) < k.

(** A round trip that ended in a 429 response. *)
Definition is429 (x : Request * (error + Response)) : bool :=
  match snd x with
  | inr resp => resp_StatusCode resp =? http_StatusTooManyRequests
  | inl _ => false
  end.

(** The three-state merge as the specification words it: a non-empty
    value of the response is stored; otherwise a non-empty locally held
    value is preserved; otherwise the value is null. *)
Definition threeStateMerge (response : string) (held : types.String)
    : types.String :=
  if negb (String.eqb response "") then types.StringValue response
  else if negb (String.eqb (types.ValueString held) "") then held
  else types.StringNull.

(** A handler run that ended without any diagnostic. *)
Definition succeeded {Model : Type} (r : res (HandlerResponse Model)) : bool :=
  match r with
  | Val resp => match Diagnostics resp with [] => true | _ => false end
  | Panic _ => false
  end.

(** The request [doRequest] builds for a method, a path and a body. *)
Definition requestOf (c : Client) (method path : string)
    (body : option Payload) : Request :=
  {| req_Method := method; req_URL := baseURL c ++ path;
     req_Header := setHeaders c; req_Body := body |}.

(** The round trips of one run of the retry loop of [doRequest] with
    [k] iterations left, and the result it returns: a transport error or
    a response other than 429 ends the run; a 429 on the last iteration
    is returned as it is; a 429 before that is followed either by the
    cancellation of the context or by the next iteration. *)
Inductive Attempts (req : Request)
  : nat -> list (Request * (error + Response)) -> res (error + Response) -> Prop :=
| AttemptsTransport : forall k err,
    Attempts req (S k) [(req, inl err)]
      (Val (inl (wrapError "request failed: " err)))
| AttemptsResponse : forall k resp,
    resp_StatusCode resp <> http_StatusTooManyRequests ->
    Attempts req (S k) [(req, inr resp)] (Val (inr resp))
| AttemptsFinal : forall resp,
    resp_StatusCode resp = http_StatusTooManyRequests ->
    Attempts req 1 [(req, inr resp)] (Val (inr resp))
| AttemptsCancelled : forall k resp e,
    resp_StatusCode resp = http_StatusTooManyRequests ->
    Attempts req (S (S k)) [(req, inr resp)] (Val (inl (contextErr_error e)))
| AttemptsRetry : forall k resp xs r,
    resp_StatusCode resp = http_StatusTooManyRequests ->
    Attempts req (S k) xs r ->
    Attempts req (S (S k)) ((req, inr resp) :: xs) r.

(** The retry policy as the specification words it, read against the
    outside world: one request, sent at attempt number [attempt] with
    [retries] retries left.  The request makes a round trip.  A transport
    error, or a response other than 429, ends the run at once.  A 429
    with no retry left is handed back itself.  A 429 with retries left is
    followed by the wait: when the context is done first the run ends
    with the error of the context, otherwise the next attempt follows. *)
Inductive RetryPolicy (env : Env) (req : Request)
  : nat -> Z -> Net env -> res (error + Response) * Net env -> Prop :=
| PolicyTransport : forall retries attempt n w err,
    http_Do env (world n) req = (w, inl err) ->
    RetryPolicy env req retries attempt n
      (Val (inl (wrapError "request failed: " err)),
       {| world := w; wire := wire n ++ [(req, inl err)] |})
| PolicyAnswer : forall retries attempt n w resp,
    http_Do env (world n) req = (w, inr resp) ->
    resp_StatusCode resp <> http_StatusTooManyRequests ->
    RetryPolicy env req retries attempt n
      (Val (inr resp),
       {| world := w; wire := wire n ++ [(req, inr resp)] |})
| PolicyExhausted : forall attempt n w resp,
    http_Do env (world n) req = (w, inr resp) ->
    resp_StatusCode resp = http_StatusTooManyRequests ->
    RetryPolicy env req 0 attempt n
      (Val (inr resp),
       {| world := w; wire := wire n ++ [(req, inr resp)] |})
| PolicyCancelled : forall retries attempt n w resp delay n1 w2,
    http_Do env (world n) req = (w, inr resp) ->
    resp_StatusCode resp = http_StatusTooManyRequests ->
    calculateRetryDelay env resp attempt
      {| world := w; wire := wire n ++ [(req, inr resp)] |}
    = (Val delay, n1) ->
    ctx_Done env (world n1) delay = (w2, true) ->
    RetryPolicy env req (S retries) attempt n
      (Val (inl (contextErr_error (ctx_Err env w2))),
       {| world := w2; wire := wire n ++ [(req, inr resp)] |})
| PolicyRetry : forall retries attempt n w resp delay n1 w2 out,
    http_Do env (world n) req = (w, inr resp) ->
    resp_StatusCode resp = http_StatusTooManyRequests ->
    calculateRetryDelay env resp attempt
      {| world := w; wire := wire n ++ [(req, inr resp)] |}
    = (Val delay, n1) ->
    ctx_Done env (world n1) delay = (w2, false) ->
    RetryPolicy env req retries (attempt + 1)
      {| world := w2; wire := wire n ++ [(req, inr resp)] |} out ->
    RetryPolicy env req (S retries) attempt n out.

(** Whether [json.Marshal] accepts the body, if there is one. *)
Definition marshals (env : Env) (body : option Payload) : Prop :=
  match body with
  | Some payload => json_Marshal env payload = None
  | None => True
  end.


(** The body of an error response leaves the status of the parsed error
    alone: decoding it into the [*APIError] does not replace the
    [StatusCode] field, which has no JSON tag of its own. *)
Definition keepsStatus (env : Env) (statusCode : Z) (body : string) : Prop :=
  StatusCode (parseAPIError (json_Unmarshal_APIError env) statusCode body)
  = statusCode.


End spec.

(* ------------------------------------------------------------------ *)
(** ** Properties of the error taxonomy *)

Module taxonomy.

Import client.
Import spec.

Lemma sameError_wrapError (msg : string) (err target : error) :
  sameError (wrapError msg err) target = false.
Proof. reflexivity. Qed.

Lemma sameError_apiError (e : APIError) (target : error) :
  sameError (apiError e) target = false.
Proof. reflexivity. Qed.

(** A wrapping layer is transparent to [errors.Is]. *)
Lemma errors_Is_wrapError (msg : string) (err target : error) :
  errors_Is (wrapError msg err) target = errors_Is err target.
Proof. reflexivity. Qed.

Lemma errors_Is_wraps (msgs : list string) (err target : error) :
  errors_Is (wraps msgs err) target = errors_Is err target.
Proof.
  induction msgs as [|m msgs IH]; simpl; [reflexivity|].
  rewrite errors_Is_wrapError. exact IH.
Qed.

(** An [*APIError] is of the kind its [Unwrap] names, and of no other. *)
Lemma errors_Is_apiError (e : APIError) (target : error) :
  errors_Is (apiError e) target =
  match APIError_Unwrap e with
  | Some sentinel => sameError sentinel target
  | None => false
  end.
Proof.
  unfold errors_Is. simpl.
  destruct (APIError_Unwrap e); simpl; [apply orb_false_r | reflexivity].
Qed.

Lemma APIError_Unwrap_404 (e : APIError) :
  StatusCode e = 404 -> APIError_Unwrap e = Some ErrNotFound.
Proof. intros H. unfold APIError_Unwrap. rewrite H. reflexivity. Qed.

Lemma APIError_Unwrap_other_4xx (e : APIError) :
  400 <= StatusCode e < 500 ->
  ~ In (StatusCode e) [400; 401; 403; 404; 409; 429] ->
  APIError_Unwrap e = None.
Proof.
  intros Hrange Hnot. simpl in Hnot.
  unfold APIError_Unwrap, http_StatusNotFound, http_StatusUnauthorized,
    http_StatusForbidden, http_StatusBadRequest, http_StatusConflict,
    http_StatusTooManyRequests.
  repeat match goal with
         | |- context [?a =? ?b] => destruct (Z.eqb_spec a b); [lia|]
         end.
  destruct (Z.leb_spec 500 (StatusCode e)); [lia | reflexivity].
Qed.

Lemma parseAPIError_422_message
    (unmarshal : string -> APIError -> APIError * bool) (body : string) :
  Message (parseAPIError unmarshal 422 body) <> "".
Proof.
  unfold parseAPIError.
  destruct (0 <? len body) eqn:Hlen.
  - destruct (unmarshal body _) as [d ok]. destruct ok.
    + destruct (String.eqb_spec (Message d) ""); simpl; [discriminate | assumption].
    + simpl. destruct (String.eqb_spec body "") as [->|Hne]; simpl.
      * discriminate.
      * assumption.
  - simpl. discriminate.
Qed.

Lemma parseAPIError_decoded_details
    (unmarshal : string -> APIError -> APIError * bool)
    (statusCode : Z) (body : string) (d : APIError) :
  0 < len body ->
  unmarshal body {| StatusCode := statusCode; Code := ""; Message := "";
                    Errors := [] |} = (d, true) ->
  Errors (parseAPIError unmarshal statusCode body) = Errors d.
Proof.
  intros Hlen Hdec. unfold parseAPIError.
  apply Z.ltb_lt in Hlen. rewrite Hlen, Hdec.
  destruct (String.eqb (Message d) ""); reflexivity.
Qed.

(** C10. An [APIError] whose status is a 4xx other than 400, 401, 403,
    404, 409 and 429 (422 among them) unwraps to nothing, so none of the
    seven kind predicates holds of it, however often it is wrapped; yet
    an error parsed from a 422 response always carries a message, and the
    field-level details the body decoded to. *)
Theorem C10_other_client_errors_have_no_kind :
  forall (e : APIError) (msgs : list string),
    400 <= StatusCode e < 500 ->
    ~ In (StatusCode e) [400; 401; 403; 404; 409; 429] ->
    APIError_Unwrap e = None
    /\ IsNotFound (wraps msgs (apiError e)) = false
    /\ IsUnauthorized (wraps msgs (apiError e)) = false
    /\ IsForbidden (wraps msgs (apiError e)) = false
    /\ IsBadRequest (wraps msgs (apiError e)) = false
    /\ IsConflict (wraps msgs (apiError e)) = false
    /\ IsRateLimited (wraps msgs (apiError e)) = false
    /\ IsInternalServerError (wraps msgs (apiError e)) = false
    /\ (forall unmarshal body,
          Message (parseAPIError unmarshal 422 body) <> "")
    /\ (forall unmarshal body d,
          0 < len body ->
          unmarshal body {| StatusCode := 422; Code := ""; Message := "";
                            Errors := [] |} = (d, true) ->
          Errors (parseAPIError unmarshal 422 body) = Errors d).
Proof.
  intros e msgs Hrange Hnot.
  pose proof (APIError_Unwrap_other_4xx e Hrange Hnot) as Hnone.
  unfold IsNotFound, IsUnauthorized, IsForbidden, IsBadRequest, IsConflict,
    IsRateLimited, IsInternalServerError.
  rewrite !errors_Is_wraps, !errors_Is_apiError, Hnone.
  repeat split.
  - apply parseAPIError_422_message.
  - intros unmarshal body d. apply parseAPIError_decoded_details.
Qed.

(** A 422 with field-level details in the scripted environment. *)
Lemma C10_witness_422 :
  let e := parseAPIError sim.Unmarshal_APIError 422 "validation" in
  StatusCode e = 422
  /\ Message e = "The request was well-formed but contained invalid data"
  /\ Errors e = [{| Field := "email"; VCode := "invalid"; VMessage := "" |}]
  /\ APIError_Unwrap e = None
  /\ IsBadRequest (wraps ["failed to create user: "] (apiError e)) = false.
Proof.
  pose proof (C10_other_client_errors_have_no_kind
                (parseAPIError sim.Unmarshal_APIError 422 "validation")
                ["failed to create user: "]) as H.
  assert (Hr : 400 <= 422 < 500) by lia.
  assert (Hn : ~ In 422 [400; 401; 403; 404; 409; 429])
    by (simpl; lia).
  specialize (H Hr Hn).
  destruct H as (Hu & _ & _ & _ & Hb & _).
  repeat split; try reflexivity; assumption.
Defined.

End taxonomy.

(* ------------------------------------------------------------------ *)
(** ** Properties of the retry delay *)

Module delay.

Import client.
Import spec.

Lemma wrap64_small (z : Z) :
  int64_min <= z <= int64_max -> wrap64 z = z.
Proof.
  unfold wrap64, int64_min, int64_max. intros H.
  rewrite Z.mod_small; lia.
Qed.

Lemma pow2_bounds (attempt : Z) :
  0 <= attempt <= 33 -> 1 <= 2 ^ attempt <= 2 ^ 33.
Proof.
  intros H. split.
  - pose proof (Z.pow_pos_nonneg 2 attempt). lia.
  - apply Z.pow_le_mono_r; lia.
Qed.

(** No numeric header is empty. *)
Lemma strconv_Atoi_nonempty (s : string) (n : Z) :
  strconv_Atoi s = Some n -> s <> "".
Proof. intros H ->. discriminate. Qed.

(** The delay before jitter, for the attempts on which nothing wraps. *)
Lemma capped_backoff (attempt : Z) :
  0 <= attempt <= 33 ->
  (if MaxRetryDelay <? wrap64 (pow2Duration attempt * BaseRetryDelay)
   then MaxRetryDelay
   else wrap64 (pow2Duration attempt * BaseRetryDelay))
  = backoffValue attempt.
Proof.
  intros H. pose proof (pow2_bounds attempt H) as Hp.
  unfold pow2Duration.
  destruct (Z.ltb_spec attempt 0); [lia|].
  destruct (Z.leb_spec attempt 62); [|lia].
  assert (H33 : 2 ^ 33 = 8589934592) by reflexivity.
  rewrite wrap64_small.
  - unfold backoffValue, MaxRetryDelay, BaseRetryDelay, time_Second.
    destruct (Z.ltb_spec (30 * 1000000000) (2 ^ attempt * (1 * 1000000000))); lia.
  - unfold int64_min, int64_max, BaseRetryDelay, time_Second.
    assert (2 ^ 63 = 9223372036854775808) by reflexivity. lia.
Qed.

Lemma backoffValue_bounds (attempt : Z) :
  0 <= attempt <= 33 ->
  time_Second <= backoffValue attempt <= MaxRetryDelay.
Proof.
  intros H. pose proof (pow2_bounds attempt H).
  unfold backoffValue, MaxRetryDelay, BaseRetryDelay, time_Second. lia.
Qed.

(** The backoff branch of [calculateRetryDelay]. *)
Lemma backoff_branch (env : Env) (attempt : Z) (n : Net env) :
  0 <= attempt <= 33 ->
  randContract env ->
  exists jitter n',
    (jitter <- Int63n env
                 (Z.quot (if MaxRetryDelay <? wrap64 (pow2Duration attempt * BaseRetryDelay)
                          then MaxRetryDelay
                          else wrap64 (pow2Duration attempt * BaseRetryDelay)) 4) ;;
     ret (env := env)
       ((if MaxRetryDelay <? wrap64 (pow2Duration attempt * BaseRetryDelay)
         then MaxRetryDelay
         else wrap64 (pow2Duration attempt * BaseRetryDelay)) + jitter)) n
    = (Val (backoffValue attempt + jitter), n')
    /\ 0 <= jitter /\ 4 * jitter < backoffValue attempt
    /\ wire n' = wire n.
Proof.
  intros Hat Hrand. rewrite (capped_backoff attempt Hat).
  pose proof (backoffValue_bounds attempt Hat) as Hb.
  unfold time_Second, MaxRetryDelay in Hb.
  assert (Hq : 0 < Z.quot (backoffValue attempt) 4).
  { rewrite Z.quot_div_nonneg by lia.
    apply Z.div_str_pos. lia. }
  unfold bind, Int63n.
  destruct (Z.leb_spec (Z.quot (backoffValue attempt) 4) 0); [lia|].
  pose proof (Hrand (world n) (Z.quot (backoffValue attempt) 4) Hq) as Hr.
  destruct (rand_Int63n env (world n) (Z.quot (backoffValue attempt) 4))
    as [w r]. simpl in Hr.
  exists r. eexists. split; [reflexivity|]. split; [lia|]. split; [|reflexivity].
  rewrite Z.quot_div_nonneg in Hr by lia.
  pose proof (Z.mul_div_le (backoffValue attempt) 4). lia.
Qed.

(** C3, as the code has it.  When the [Retry-After] header of a response
    parses as an integer number of seconds that a 64-bit nanosecond
    duration can hold, the delay is exactly that many seconds, without
    jitter.  When the header is absent, or is neither an integer nor an
    HTTP date, the delay is the backoff (one second times two to the
    attempt, capped at thirty seconds) plus a jitter that is at least zero
    and less than a quarter of the backoff; this holds for the attempts
    0, 1, 2 that [doRequest] passes, and up to attempt 33. *)
Theorem C3_retry_delay :
  forall (env : Env) (resp : Response) (attempt : Z) (n : Net env),
    (forall seconds,
        strconv_Atoi (Header_Get (resp_Header resp) "Retry-After") = Some seconds ->
        -9223372036 <= seconds <= 9223372036 ->
        calculateRetryDelay env resp attempt n
        = (Val (seconds * time_Second), n))
    /\ (Header_Get (resp_Header resp) "Retry-After" = ""
        \/ (strconv_Atoi (Header_Get (resp_Header resp) "Retry-After") = None
            /\ http_ParseTime env (Header_Get (resp_Header resp) "Retry-After") = None) ->
        0 <= attempt <= 33 ->
        randContract env ->
        exists jitter n',
          calculateRetryDelay env resp attempt n
          = (Val (backoffValue attempt + jitter), n')
          /\ 0 <= jitter
          /\ 4 * jitter < backoffValue attempt
          /\ backoffValue attempt <= backoffValue attempt + jitter
          /\ wire n' = wire n).
Proof.
  intros env resp attempt n. split.
  - intros seconds Hatoi Hrange.
    unfold calculateRetryDelay.
    pose proof (strconv_Atoi_nonempty _ _ Hatoi) as Hne.
    destruct (String.eqb_spec (Header_Get (resp_Header resp) "Retry-After") "");
      [contradiction|].
    simpl. rewrite Hatoi. unfold ret.
    rewrite wrap64_small; [reflexivity|].
    unfold int64_min, int64_max, time_Second.
    assert (2 ^ 63 = 9223372036854775808) by reflexivity. lia.
  - intros Hhdr Hat Hrand.
    destruct (backoff_branch env attempt n Hat Hrand)
      as (jitter & n' & Hrun & H0 & H4 & Hw).
    exists jitter, n'. repeat split; try assumption; try lia.
    unfold calculateRetryDelay.
    destruct Hhdr as [Hempty | [Hatoi Hdate]].
    + rewrite Hempty. simpl. exact Hrun.
    + rewrite Hatoi, Hdate.
      destruct (negb _); exact Hrun.
Qed.

Lemma sim_randContract : randContract sim.env.
Proof.
  intros w k Hk. simpl. unfold sim.Int63n.
  destruct (sim.randoms w) as [|r rest]; simpl.
  - lia.
  - apply Z.mod_pos_bound. exact Hk.
Qed.

(** [Retry-After: 5] gives five seconds; no header on attempt 2 gives four
    seconds plus jitter. *)
Lemma C3_witness :
  calculateRetryDelay sim.env
    {| resp_StatusCode := 429; resp_Header := [("Retry-After", "5")];
       resp_Body := inr "" |} 0 (sim.start [])
  = (Val (5 * time_Second), sim.start [])
  /\ exists jitter n',
       calculateRetryDelay sim.env
         {| resp_StatusCode := 429; resp_Header := []; resp_Body := inr "" |}
         2 (sim.start [])
       = (Val (backoffValue 2 + jitter), n')
       /\ 0 <= jitter
       /\ 4 * jitter < backoffValue 2
       /\ backoffValue 2 <= backoffValue 2 + jitter
       /\ wire n' = wire (sim.start []).
Proof.
  split.
  - apply (proj1 (C3_retry_delay sim.env
             {| resp_StatusCode := 429; resp_Header := [("Retry-After", "5")];
                resp_Body := inr "" |} 0 (sim.start [])) 5).
    + reflexivity.
    + lia.
  - apply (proj2 (C3_retry_delay sim.env
             {| resp_StatusCode := 429; resp_Header := []; resp_Body := inr "" |}
             2 (sim.start []))).
    + left. reflexivity.
    + lia.
    + exact sim_randContract.
Defined.

(** C3 as stated fails for a numeric header beyond the range of a
    duration: [Retry-After: 9223372037] parses as an integer, yet the
    delay computed is negative, not 9223372037 seconds. *)
Lemma C3_counterexample_large_retry_after :
  let resp := {| resp_StatusCode := 429;
                 resp_Header := [("Retry-After", "9223372037")];
                 resp_Body := inr "" |} in
  strconv_Atoi (Header_Get (resp_Header resp) "Retry-After") = Some 9223372037
  /\ calculateRetryDelay sim.env resp 0 (sim.start [])
     = (Val (-9223372036709551616), sim.start [])
  /\ -9223372036709551616 <> 9223372037 * time_Second.
Proof.
  split; [vm_compute; reflexivity|].
  split; [vm_compute; reflexivity|].
  vm_compute. discriminate.
Qed.

End delay.

(* ------------------------------------------------------------------ *)
(** ** Properties of [doRequest] *)

Module retry.

Import client.
Import spec.

(** [calculateRetryDelay] returns on every attempt [doRequest] passes,
    and makes no round trip. *)
Lemma calculateRetryDelay_total (env : Env) (resp : Response) (attempt : Z)
    (n : Net env) :
  0 <= attempt <= 33 ->
  exists d n',
    calculateRetryDelay env resp attempt n = (Val d, n') /\ wire n' = wire n.
Proof.
  intros Hat.
  assert (Hback : forall m : Net env, exists d n',
    (jitter <- Int63n env
                 (Z.quot (if MaxRetryDelay <? wrap64 (pow2Duration attempt * BaseRetryDelay)
                          then MaxRetryDelay
                          else wrap64 (pow2Duration attempt * BaseRetryDelay)) 4) ;;
     ret (env := env)
       ((if MaxRetryDelay <? wrap64 (pow2Duration attempt * BaseRetryDelay)
         then MaxRetryDelay
         else wrap64 (pow2Duration attempt * BaseRetryDelay)) + jitter)) m
    = (Val d, n') /\ wire n' = wire m).
  { intros m. rewrite (delay.capped_backoff attempt Hat).
    pose proof (delay.backoffValue_bounds attempt Hat) as Hb.
    unfold time_Second in Hb.
    assert (Hq : 0 < Z.quot (backoffValue attempt) 4).
    { rewrite Z.quot_div_nonneg by lia. apply Z.div_str_pos. lia. }
    unfold bind, Int63n.
    destruct (Z.leb_spec (Z.quot (backoffValue attempt) 4) 0); [lia|].
    destruct (rand_Int63n env (world m) (Z.quot (backoffValue attempt) 4))
      as [w r].
    eexists. eexists. split; reflexivity. }
  unfold calculateRetryDelay.
  destruct (negb _).
  - destruct (strconv_Atoi _).
    + eexists. eexists. split; reflexivity.
    + destruct (http_ParseTime env _).
      * eexists. eexists. split; reflexivity.
      * apply Hback.
  - apply Hback.
Qed.

(** One iteration of the loop, unfolded. *)
Lemma doRequestLoop_S (env : Env) (c : Client) (method path : string)
    (body : option Payload) (k : nat) (attempt : Z) :
  doRequestLoop env c method path body (S k) attempt =
  match http_NewRequest env method (baseURL c ++ path) with
  | Some err => ret (inl (wrapError "failed to create request: " err))
  | None =>
      r <- httpClient_Do env (requestOf c method path body) ;;
      match r with
      | inl err => ret (inl (wrapError "request failed: " err))
      | inr resp =>
          if resp_StatusCode resp =? http_StatusTooManyRequests then
            if attempt =? MaxRetries then ret (inr resp)
            else
              delay <- calculateRetryDelay env resp attempt ;;
              done <- selectDone env delay ;;
              if done then err <- ctxErr env ;; ret (inl err)
              else doRequestLoop env c method path body k (attempt + 1)
          else ret (inr resp)
      end
  end.
Proof. reflexivity. Qed.

(** The loop follows [Attempts]. *)
Lemma doRequestLoop_Attempts (env : Env) (c : Client) (method path : string)
    (body : option Payload) :
  http_NewRequest env method (baseURL c ++ path) = None ->
  forall (k : nat) (attempt : Z) (n : Net env),
    attempt = MaxRetries - Z.of_nat k ->
    0 <= attempt ->
    exists xs,
      wire (snd (doRequestLoop env c method path body (S k) attempt n))
      = (wire n ++ xs)%list
      /\ Attempts (requestOf c method path body) (S k) xs
           (fst (doRequestLoop env c method path body (S k) attempt n)).
Proof.
  intros Hnew. induction k as [|k IH]; intros attempt n Hatt H0;
    destruct (doRequestLoop env c method path body _ attempt n)
      as [res n'] eqn:Hrun; simpl fst; simpl snd;
    rewrite doRequestLoop_S, Hnew in Hrun;
    unfold bind at 1, httpClient_Do in Hrun;
    destruct (http_Do env (world n) (requestOf c method path body)) as [w out];
    destruct out as [err|resp].
  - inversion Hrun; subst. eexists. split; [reflexivity | constructor].
  - destruct (Z.eqb_spec (resp_StatusCode resp) http_StatusTooManyRequests)
      as [H429|H429].
    + destruct (Z.eqb_spec attempt MaxRetries) as [_|Hne]; [|simpl in Hatt; lia].
      inversion Hrun; subst.
      eexists. split; [reflexivity | constructor; assumption].
    + inversion Hrun; subst.
      eexists. split; [reflexivity | constructor; assumption].
  - inversion Hrun; subst. eexists. split; [reflexivity | constructor].
  - destruct (Z.eqb_spec (resp_StatusCode resp) http_StatusTooManyRequests)
      as [H429|H429].
    + destruct (Z.eqb_spec attempt MaxRetries) as [He|_];
        [unfold MaxRetries in *; lia|].
      assert (Hat : 0 <= attempt <= 33) by (unfold MaxRetries in *; lia).
      destruct (calculateRetryDelay_total env resp attempt
                  {| world := w;
                     wire := wire n ++ [(requestOf c method path body, inr resp)] |}
                  Hat) as (d & n1 & Hd & Hw1).
      unfold bind at 1 in Hrun. rewrite Hd in Hrun.
      unfold bind at 1, selectDone in Hrun.
      destruct (ctx_Done env (world n1) d) as [w2 done].
      destruct done.
      * inversion Hrun; subst. simpl. rewrite Hw1. simpl.
        eexists. split; [reflexivity | constructor; assumption].
      * destruct (IH (attempt + 1) {| world := w2; wire := wire n1 |})
          as (xs & Hwire & Hatts); [lia | lia |].
        rewrite Hrun in Hwire, Hatts. simpl in Hwire, Hatts.
        exists ((requestOf c method path body, inr resp) :: xs). split.
        -- rewrite Hwire, Hw1. simpl.
           rewrite <- app_assoc. reflexivity.
        -- apply AttemptsRetry; assumption.
    + inversion Hrun; subst.
      eexists. split; [reflexivity | constructor; assumption].
Qed.

Lemma Attempts_nonempty req k xs r : Attempts req k xs r -> xs <> [].
Proof. destruct 1; discriminate. Qed.

Lemma Attempts_length req k xs r : Attempts req k xs r -> (length xs <= k)%nat.
Proof. induction 1; simpl in *; lia. Qed.

Lemma Attempts_same_request req k xs r :
  Attempts req k xs r -> Forall (fun x => fst x = req) xs.
Proof. induction 1; repeat constructor; assumption. Qed.

Lemma Attempts_429_before_last req k xs r :
  Attempts req k xs r -> Forall (fun x => is429 x = true) (removelast xs).
Proof.
  induction 1 as [| | | |k resp xs r H429 Hatt IH]; try (simpl; constructor).
  pose proof (Attempts_nonempty _ _ _ _ Hatt) as Hne.
  change ((req, inr resp) :: xs) with ([(req, inr resp)] ++ xs)%list.
  rewrite removelast_app by assumption. simpl. constructor; [|assumption].
  unfold is429. simpl. apply Z.eqb_eq. assumption.
Qed.

Lemma Attempts_no_panic req k xs r :
  Attempts req k xs r -> forall msg, r <> Panic msg.
Proof. induction 1; intros msg; try discriminate. apply IHAttempts. Qed.

(** The result is decided by the last round trip and by whether it was
    the last one the loop allows. *)
Lemma Attempts_verdict req k xs r :
  Attempts req k xs r ->
  exists pre out,
    xs = (pre ++ [(req, out)])%list
    /\ match out with
       | inl err => r = Val (inl (wrapError "request failed: " err))
       | inr resp =>
           if resp_StatusCode resp =? http_StatusTooManyRequests then
             if Nat.eqb (length xs) k then r = Val (inr resp)
             else exists e, r = Val (inl (contextErr_error e))
           else r = Val (inr resp)
       end.
Proof.
  induction 1
    as [k err|k resp Hne|resp H429|k resp e H429|k resp xs r H429 Hatt IH].
  - exists [], (inl err). split; reflexivity.
  - exists [], (inr resp). split; [reflexivity|].
    destruct (Z.eqb_spec (resp_StatusCode resp) http_StatusTooManyRequests);
      [contradiction | reflexivity].
  - exists [], (inr resp). split; [reflexivity|].
    rewrite H429, Z.eqb_refl. reflexivity.
  - exists [], (inr resp). split; [reflexivity|].
    rewrite H429, Z.eqb_refl. simpl. exists e. reflexivity.
  - destruct IH as (pre & out & Hxs & Hout).
    exists ((req, inr resp) :: pre), out. split.
    + rewrite Hxs. reflexivity.
    + destruct out as [err|resp']; [assumption|].
      destruct (resp_StatusCode resp' =? http_StatusTooManyRequests);
        [|assumption].
      simpl length. simpl Nat.eqb. exact Hout.
Qed.

Lemma last_unique {A : Type} (pre pre' : list A) (x y : A) :
  (pre ++ [x] = pre' ++ [y])%list -> x = y.
Proof. intros H. apply app_inj_tail in H. tauto. Qed.

(** When the body marshals and the request can be built, [doRequest]
    makes at least one round trip and follows [Attempts] with four
    iterations. *)
Lemma doRequest_Attempts (env : Env) (c : Client) (method path : string)
    (body : option Payload) (n : Net env) :
  marshals env body ->
  http_NewRequest env method (baseURL c ++ path) = None ->
  exists xs,
    wire (snd (doRequest env c method path body n)) = (wire n ++ xs)%list
    /\ Attempts (requestOf c method path body) 4 xs
         (fst (doRequest env c method path body n)).
Proof.
  intros Hm Hnew.
  assert (Hloop : exists xs,
    wire (snd (doRequestLoop env c method path body 4 0 n)) = (wire n ++ xs)%list
    /\ Attempts (requestOf c method path body) 4 xs
         (fst (doRequestLoop env c method path body 4 0 n))).
  { apply (doRequestLoop_Attempts env c method path body Hnew 3 0 n);
      [reflexivity | lia]. }
  unfold doRequest. change (Z.to_nat (MaxRetries + 1)) with 4%nat.
  destruct body as [payload|]; [|exact Hloop].
  simpl in Hm. rewrite Hm. exact Hloop.
Qed.

(** Otherwise it returns an error without any round trip. *)
Lemma doRequest_cases (env : Env) (c : Client) (method path : string)
    (body : option Payload) (n : Net env) :
  (snd (doRequest env c method path body n) = n
   /\ exists err, fst (doRequest env c method path body n) = Val (inl err))
  \/ exists xs,
       wire (snd (doRequest env c method path body n)) = (wire n ++ xs)%list
       /\ Attempts (requestOf c method path body) 4 xs
            (fst (doRequest env c method path body n)).
Proof.
  destruct (http_NewRequest env method (baseURL c ++ path)) as [e|] eqn:Hnew.
  - left. unfold doRequest. change (Z.to_nat (MaxRetries + 1)) with 4%nat.
    rewrite doRequestLoop_S, Hnew.
    destruct body as [payload|]; [destruct (json_Marshal env payload)|];
      (split; [reflexivity | eexists; reflexivity]).
  - destruct body as [payload|].
    + destruct (json_Marshal env payload) as [e|] eqn:Hm.
      * left. unfold doRequest. rewrite Hm.
        split; [reflexivity | eexists; reflexivity].
      * right. apply doRequest_Attempts; assumption.
    + right. apply doRequest_Attempts; [exact I | assumption].
Qed.

(** The loop follows the retry policy, read against the outside world. *)
Lemma doRequestLoop_RetryPolicy (env : Env) (c : Client) (method path : string)
    (body : option Payload) :
  http_NewRequest env method (baseURL c ++ path) = None ->
  forall (k : nat) (attempt : Z) (n : Net env),
    attempt = MaxRetries - Z.of_nat k ->
    0 <= attempt ->
    RetryPolicy env (requestOf c method path body) k attempt n
      (doRequestLoop env c method path body (S k) attempt n).
Proof.
  intros Hnew. induction k as [|k IH]; intros attempt n Hatt H0;
    rewrite doRequestLoop_S, Hnew; unfold bind at 1, httpClient_Do;
    destruct (http_Do env (world n) (requestOf c method path body))
      as [w out] eqn:Hdo;
    destruct out as [err|resp].
  - apply PolicyTransport. exact Hdo.
  - destruct (Z.eqb_spec (resp_StatusCode resp) http_StatusTooManyRequests)
      as [H429|H429].
    + destruct (Z.eqb_spec attempt MaxRetries) as [_|Hne]; [|simpl in Hatt; lia].
      apply PolicyExhausted; assumption.
    + apply PolicyAnswer; assumption.
  - apply PolicyTransport. exact Hdo.
  - destruct (Z.eqb_spec (resp_StatusCode resp) http_StatusTooManyRequests)
      as [H429|H429].
    + destruct (Z.eqb_spec attempt MaxRetries) as [He|_];
        [unfold MaxRetries in *; lia|].
      assert (Hat : 0 <= attempt <= 33) by (unfold MaxRetries in *; lia).
      destruct (calculateRetryDelay_total env resp attempt
                  {| world := w;
                     wire := wire n ++ [(requestOf c method path body, inr resp)] |}
                  Hat) as (d & n1 & Hd & Hw1).
      simpl in Hw1.
      unfold bind at 1. rewrite Hd.
      unfold bind at 1, selectDone.
      destruct (ctx_Done env (world n1) d) as [w2 done] eqn:Hdone.
      rewrite Hw1. destruct done.
      * eapply PolicyCancelled; eassumption.
      * eapply PolicyRetry; try eassumption.
        apply IH; lia.
    + apply PolicyAnswer; assumption.
Qed.

(** A run of the policy that ends with an error of a context ends with
    the error of its own context, read in the final state. *)
Lemma RetryPolicy_context_error (env : Env) (req : Request)
    (retries : nat) (attempt : Z) (n : Net env)
    (out : res (error + Response) * Net env) :
  RetryPolicy env req retries attempt n out ->
  forall e,
    fst out = Val (inl (contextErr_error e)) ->
    fst out = Val (inl (contextErr_error (ctx_Err env (world (snd out))))).
Proof.
  induction 1; intros e He; simpl in *;
    try (destruct e; discriminate He).
  - reflexivity.
  - eapply IHRetryPolicy. exact He.
Qed.

Lemma doRequest_context_error (env : Env) (c : Client) (method path : string)
    (body : option Payload) (n : Net env) (e : contextErr) :
  fst (doRequest env c method path body n) = Val (inl (contextErr_error e)) ->
  fst (doRequest env c method path body n)
  = Val (inl (contextErr_error
                (ctx_Err env (world (snd (doRequest env c method path body n)))))).
Proof.
  intros He.
  destruct (http_NewRequest env method (baseURL c ++ path)) as [err|] eqn:Hnew.
  - exfalso. revert He. unfold doRequest.
    change (Z.to_nat (MaxRetries + 1)) with 4%nat.
    rewrite doRequestLoop_S, Hnew.
    destruct body as [payload|]; [destruct (json_Marshal env payload)|];
      simpl; destruct e; discriminate.
  - assert (Hloop : RetryPolicy env (requestOf c method path body) 3 0 n
                      (doRequestLoop env c method path body 4 0 n)).
    { apply doRequestLoop_RetryPolicy; [assumption | reflexivity | lia]. }
    revert He. unfold doRequest. change (Z.to_nat (MaxRetries + 1)) with 4%nat.
    destruct body as [payload|];
      [destruct (json_Marshal env payload);
       [simpl; destruct e; discriminate|]|];
      intros He; exact (RetryPolicy_context_error _ _ _ _ _ _ Hloop e He).
Qed.

(** C4. [doRequest] follows the retry policy of the specification: when
    the body marshals and the request can be built, its result and the
    round trips it makes are those of [RetryPolicy] with three retries,
    read against the outside world.  So a request is sent; a 429 is
    retried while retries are left and the context is not done; nothing
    but a 429 is retried; a response other than 429 (a 5xx included) is
    returned by the attempt that received it; and when the fourth
    attempt still receives a 429, that response itself is returned, not
    an error.  On the wire: at most four round trips (one attempt and at
    most three retries), all with the same request, every one but the
    last ended in a 429; a response that is returned is the one received
    last; and after a 429 on an earlier attempt only the error of the
    done context, as the context reports it, ends the run.  The run
    never panics. *)
Theorem C4_doRequest_retries_only_on_429 :
  forall (env : Env) (c : Client) (method path : string)
         (body : option Payload) (n : Net env),
    let r := doRequest env c method path body n in
    let req := requestOf c method path body in
    (marshals env body ->
     http_NewRequest env method (baseURL c ++ path) = None ->
     RetryPolicy env req (Z.to_nat MaxRetries) 0 n r)
    /\ (forall w resp,
          marshals env body ->
          http_NewRequest env method (baseURL c ++ path) = None ->
          http_Do env (world n) req = (w, inr resp) ->
          resp_StatusCode resp <> http_StatusTooManyRequests ->
          r = (Val (inr resp),
               {| world := w; wire := wire n ++ [(req, inr resp)] |}))
    /\ exists xs,
         wire (snd r) = (wire n ++ xs)%list
         /\ (length xs <= 1 + Z.to_nat MaxRetries)%nat
         /\ Forall (fun x => fst x = req) xs
         /\ Forall (fun x => is429 x = true) (removelast xs)
         /\ (forall msg, fst r <> Panic msg)
         /\ (forall resp, fst r = Val (inr resp) ->
               exists pre, xs = (pre ++ [(req, inr resp)])%list)
         /\ (forall pre resp,
               xs = (pre ++ [(req, inr resp)])%list ->
               resp_StatusCode resp <> http_StatusTooManyRequests ->
               fst r = Val (inr resp))
         /\ (forall pre resp,
               xs = (pre ++ [(req, inr resp)])%list ->
               length xs = (1 + Z.to_nat MaxRetries)%nat ->
               fst r = Val (inr resp))
         /\ (forall pre resp,
               xs = (pre ++ [(req, inr resp)])%list ->
               resp_StatusCode resp = http_StatusTooManyRequests ->
               (length xs < 1 + Z.to_nat MaxRetries)%nat ->
               fst r
               = Val (inl (contextErr_error (ctx_Err env (world (snd r)))))).
Proof.
  intros env c method path body n r req. subst r req.
  change (1 + Z.to_nat MaxRetries)%nat with 4%nat.
  change (Z.to_nat MaxRetries) with 3%nat.
  assert (Hpolicy :
    marshals env body ->
    http_NewRequest env method (baseURL c ++ path) = None ->
    RetryPolicy env (requestOf c method path body) 3 0 n
      (doRequest env c method path body n)).
  { intros Hm Hnew.
    assert (Hloop : RetryPolicy env (requestOf c method path body) 3 0 n
                      (doRequestLoop env c method path body 4 0 n)).
    { apply doRequestLoop_RetryPolicy; [assumption | reflexivity | lia]. }
    unfold doRequest. change (Z.to_nat (MaxRetries + 1)) with 4%nat.
    destruct body as [payload|]; [|exact Hloop].
    simpl in Hm. rewrite Hm. exact Hloop. }
  split; [exact Hpolicy|]. split.
  { intros w resp Hm Hnew Hdo Hne.
    pose proof (Hpolicy Hm Hnew) as Hrun.
    inversion Hrun; subst;
      match goal with
      | H : http_Do env (world n) _ = _ |- _ => rewrite Hdo in H; inversion H; subst
      end; try contradiction.
    reflexivity. }
  destruct (doRequest_cases env c method path body n)
    as [[Hsame [err Herr]] | (xs & Hwire & Hatt)].
  - exists []. rewrite Hsame, app_nil_r, Herr.
    repeat split; try constructor; simpl; try lia; try discriminate;
      intros; exfalso; eapply app_cons_not_nil; eassumption.
  - exists xs.
    destruct (Attempts_verdict _ _ _ _ Hatt) as (pre0 & out & Hxs & Hout).
    split; [assumption|].
    split; [eapply Attempts_length; eassumption|].
    split; [eapply Attempts_same_request; eassumption|].
    split; [eapply Attempts_429_before_last; eassumption|].
    split; [eapply Attempts_no_panic; eassumption|].
    split; [|split; [|split]].
    + intros resp Hr. exists pre0. rewrite Hxs. do 3 f_equal.
      destruct out as [e|resp'].
      * rewrite Hout in Hr. discriminate.
      * destruct (resp_StatusCode resp' =? http_StatusTooManyRequests);
          [destruct (Nat.eqb (length xs) 4)|].
        -- rewrite Hout in Hr. congruence.
        -- destruct Hout as [e Hout]. rewrite Hout in Hr. discriminate.
        -- rewrite Hout in Hr. congruence.
    + intros pre resp Heq Hne. rewrite Heq in Hxs.
      apply last_unique in Hxs. inversion Hxs; subst out.
      destruct (Z.eqb_spec (resp_StatusCode resp) http_StatusTooManyRequests);
        [contradiction | assumption].
    + intros pre resp Heq Hlen. rewrite Heq in Hxs.
      apply last_unique in Hxs. inversion Hxs; subst out.
      rewrite Hlen in Hout. simpl in Hout.
      destruct (resp_StatusCode resp =? http_StatusTooManyRequests);
        assumption.
    + intros pre resp Heq H429 Hlen. rewrite Heq in Hxs.
      apply last_unique in Hxs. inversion Hxs; subst out.
      rewrite H429, Z.eqb_refl in Hout.
      destruct (Nat.eqb_spec (length xs) 4) as [He|_]; [lia|].
      destruct Hout as [e Hout].
      apply (doRequest_context_error env c method path body n e). exact Hout.
Qed.

(** A 429 with [Retry-After: 1] and then a 500: the policy's run is two
    round trips and the 500, without a further attempt; and a first
    answer of 503 is returned at once. *)
Lemma C4_witness :
  RetryPolicy sim.env
    (requestOf sim.theClient http_MethodGet "/organizations/org_1" None) 3 0
    (sim.start [sim.reply 429 "1" ""; sim.reply 500 "" ""; sim.reply 200 "" ""])
    (Val (sim.reply 500 "" ""),
     {| world := world (sim.start [sim.reply 200 "" ""]);
        wire := [(requestOf sim.theClient http_MethodGet "/organizations/org_1"
                    None, sim.reply 429 "1" "");
                 (requestOf sim.theClient http_MethodGet "/organizations/org_1"
                    None, sim.reply 500 "" "")] |})
  /\ doRequest sim.env sim.theClient http_MethodGet "/organizations/org_1" None
       (sim.start [sim.reply 503 "" ""; sim.reply 200 "" ""])
     = (Val (sim.reply 503 "" ""),
        {| world := world (sim.start [sim.reply 200 "" ""]);
           wire := [(requestOf sim.theClient http_MethodGet
                       "/organizations/org_1" None, sim.reply 503 "" "")] |}).
Proof.
  split.
  - exact (proj1 (C4_doRequest_retries_only_on_429 sim.env sim.theClient
                    http_MethodGet "/organizations/org_1" None
                    (sim.start [sim.reply 429 "1" ""; sim.reply 500 "" "";
                                sim.reply 200 "" ""])) I eq_refl).
  - refine (proj1 (proj2 (C4_doRequest_retries_only_on_429 sim.env sim.theClient
                            http_MethodGet "/organizations/org_1" None
                            (sim.start [sim.reply 503 "" ""; sim.reply 200 "" ""])))
              _ _ I eq_refl eq_refl _).
    discriminate.
Defined.

(** Four 429 answers in a row: four round trips, and the fourth 429 is
    what the caller gets. *)
Example doRequest_exhausted :
  let busy := sim.reply 429 "" "" in
  let r := doRequest sim.env sim.theClient http_MethodGet "/organizations/org_1"
             None (sim.start [busy; busy; busy; busy; sim.reply 200 "" ""]) in
  fst r = Val busy /\ length (wire (snd r)) = 4%nat.
Proof. vm_compute. split; reflexivity. Qed.

(** A 429 followed by a 500: two round trips, and the 500 is returned
    without a further attempt. *)
Example doRequest_5xx_not_retried :
  let r := doRequest sim.env sim.theClient http_MethodGet "/organizations/org_1"
             None (sim.start [sim.reply 429 "1" ""; sim.reply 500 "" "";
                              sim.reply 200 "" ""]) in
  fst r = Val (sim.reply 500 "" "") /\ length (wire (snd r)) = 2%nat.
Proof. vm_compute. split; reflexivity. Qed.

End retry.

(* ------------------------------------------------------------------ *)
(** ** Properties of the typed verbs *)

Module verbs.

Import client.
Import spec.

(** A first answer other than 429 ends [doRequest] after one round trip. *)
Lemma doRequest_single (env : Env) (c : Client) (method path : string)
    (body : option Payload) (n : Net env) (w : World env) (resp : Response) :
  marshals env body ->
  http_NewRequest env method (baseURL c ++ path) = None ->
  http_Do env (world n) (requestOf c method path body) = (w, inr resp) ->
  resp_StatusCode resp <> http_StatusTooManyRequests ->
  doRequest env c method path body n
  = (Val (inr resp),
     {| world := w;
        wire := wire n ++ [(requestOf c method path body, inr resp)] |}).
Proof.
  intros Hm Hnew Hdo Hne.
  assert (Hloop : doRequestLoop env c method path body 4 0 n
    = (Val (inr resp),
       {| world := w;
          wire := wire n ++ [(requestOf c method path body, inr resp)] |})).
  { rewrite retry.doRequestLoop_S, Hnew. unfold bind, httpClient_Do.
    rewrite Hdo.
    destruct (Z.eqb_spec (resp_StatusCode resp) http_StatusTooManyRequests);
      [contradiction | reflexivity]. }
  unfold doRequest. change (Z.to_nat (MaxRetries + 1)) with 4%nat.
  destruct body as [payload|]; [|exact Hloop].
  simpl in Hm. rewrite Hm. exact Hloop.
Qed.

(** A 404 whose body can be read, and does not overwrite the status the
    error was created with, makes [Delete] return a not-found error. *)
Lemma Delete_404 (env : Env) (c : Client) (path : string) (n : Net env)
    (w : World env) (resp : Response) (b : string) :
  http_NewRequest env http_MethodDelete (baseURL c ++ path) = None ->
  http_Do env (world n) (requestOf c http_MethodDelete path None) = (w, inr resp) ->
  resp_StatusCode resp = http_StatusNotFound ->
  resp_Body resp = inr b ->
  StatusCode (parseAPIError (json_Unmarshal_APIError env) http_StatusNotFound b)
  = http_StatusNotFound ->
  Delete env c path n
  = (Val (Some (apiError (parseAPIError (json_Unmarshal_APIError env)
                            http_StatusNotFound b))),
     {| world := w;
        wire := wire n ++ [(requestOf c http_MethodDelete path None, inr resp)] |})
    /\ forall msg,
         IsNotFound (wrapError msg
           (apiError (parseAPIError (json_Unmarshal_APIError env)
                        http_StatusNotFound b))) = true.
Proof.
  intros Hnew Hdo Hst Hbody Hkeep. split.
  - unfold Delete, bind.
    rewrite (doRequest_single env c http_MethodDelete path None n w resp I Hnew Hdo)
      by (rewrite Hst; discriminate).
    unfold parseResponse. rewrite Hbody, Hst. reflexivity.
  - intros msg. unfold IsNotFound.
    rewrite taxonomy.errors_Is_wrapError, taxonomy.errors_Is_apiError.
    rewrite (taxonomy.APIError_Unwrap_404 _ Hkeep). reflexivity.
Qed.

(** An answer other than 429 whose body cannot be read makes [Delete]
    return the error of the read, whatever the status. *)
Lemma Delete_unreadable (env : Env) (c : Client) (path : string) (n : Net env)
    (w : World env) (resp : Response) (e : error) :
  http_NewRequest env http_MethodDelete (baseURL c ++ path) = None ->
  http_Do env (world n) (requestOf c http_MethodDelete path None) = (w, inr resp) ->
  resp_StatusCode resp <> http_StatusTooManyRequests ->
  resp_Body resp = inl e ->
  Delete env c path n
  = (Val (Some (wrapError "failed to read response body: " e)),
     {| world := w;
        wire := wire n ++ [(requestOf c http_MethodDelete path None, inr resp)] |}).
Proof.
  intros Hnew Hdo Hst Hbody. unfold Delete, bind.
  rewrite (doRequest_single env c http_MethodDelete path None n w resp I Hnew Hdo Hst).
  unfold parseResponse. rewrite Hbody. reflexivity.
Qed.

(** A success answer makes [Delete] return no error. *)
Lemma Delete_success (env : Env) (c : Client) (path : string) (n : Net env)
    (w : World env) (resp : Response) (b : string) :
  http_NewRequest env http_MethodDelete (baseURL c ++ path) = None ->
  http_Do env (world n) (requestOf c http_MethodDelete path None) = (w, inr resp) ->
  200 <= resp_StatusCode resp < 300 ->
  resp_Body resp = inr b ->
  Delete env c path n
  = (Val None,
     {| world := w;
        wire := wire n ++ [(requestOf c http_MethodDelete path None, inr resp)] |}).
Proof.
  intros Hnew Hdo Hst Hbody. unfold Delete, bind.
  rewrite (doRequest_single env c http_MethodDelete path None n w resp I Hnew Hdo)
    by (unfold http_StatusTooManyRequests; lia).
  unfold parseResponse. rewrite Hbody.
  destruct (Z.leb_spec 400 (resp_StatusCode resp)); [lia | reflexivity].
Qed.

End verbs.

(* ------------------------------------------------------------------ *)
(** ** Properties of the reconciliation handlers: import, read, delete *)

Module reconcile.

Import client.
Import provider.
Import spec.

(** The import handler never touches the network state. *)
Lemma ImportState_no_round_trip (env : Env) (ID : string) (n : Net env) :
  snd (OrganizationRoleResource_ImportState env ID n) = n.
Proof.
  unfold OrganizationRoleResource_ImportState.
  destruct (strings_SplitN ID "/" 2) as [|a [|b [|x rest]]]; try reflexivity.
  destruct (String.eqb a "" || String.eqb b ""); reflexivity.
Qed.

(** [strings.SplitN] at the first slash of [org ++ "/" ++ slug]. *)
Lemma strings_Cut_first (org slug : string) :
  strings_Cut org "/" = None ->
  strings_Cut (org ++ String "/" slug) "/" = Some (org, slug).
Proof.
  induction org as [|ch org IH]; simpl; intros H.
  - reflexivity.
  - destruct (Ascii.eqb ch "/"); [discriminate|].
    destruct (strings_Cut org "/") as [[a b]|]; [discriminate|].
    rewrite (IH eq_refl). reflexivity.
Qed.

Lemma strings_SplitN_2 (s : string) (sep : ascii) :
  strings_SplitN s sep 2
  = match strings_Cut s sep with
    | None => [s]
    | Some (before, after) => [before; after]
    end.
Proof.
  unfold strings_SplitN. simpl.
  destruct (strings_Cut s sep) as [[a b]|]; reflexivity.
Qed.

(** Every well-formed composite key is accepted. *)
Lemma ImportState_well_formed (env : Env) (org slug : string) (n : Net env) :
  strings_Cut org "/" = None -> org <> "" -> slug <> "" ->
  OrganizationRoleResource_ImportState env (org ++ String "/" slug) n
  = (Val {| ImportDiagnostics := [];
            ImportAttributes := [("organization_id", org); ("slug", slug)] |},
     n).
Proof.
  intros Hcut Horg Hslug.
  unfold OrganizationRoleResource_ImportState.
  rewrite strings_SplitN_2, (strings_Cut_first org slug Hcut).
  destruct (String.eqb_spec org ""); [contradiction|].
  destruct (String.eqb_spec slug ""); [contradiction|].
  reflexivity.
Qed.

(** C9. Importing an organization role from [org_123/billing-admin] sets
    [organization_id] to [org_123] and [slug] to [billing-admin]; from
    [org_123] (no slash) and from [org_123/] (empty slug) it reports the
    error "Invalid Import ID" and sets nothing; and on no input does the
    handler make a round trip to the remote API. *)
Theorem C9_role_import_composite_key :
  forall (env : Env) (n : Net env),
    OrganizationRoleResource_ImportState env "org_123/billing-admin" n
    = (Val {| ImportDiagnostics := [];
              ImportAttributes :=
                [("organization_id", "org_123"); ("slug", "billing-admin")] |},
       n)
    /\ OrganizationRoleResource_ImportState env "org_123" n
       = (Val {| ImportDiagnostics :=
                   [AddError "Invalid Import ID"
                      "Expected import ID in the format 'organization_id/slug', got: org_123"];
                 ImportAttributes := [] |},
          n)
    /\ OrganizationRoleResource_ImportState env "org_123/" n
       = (Val {| ImportDiagnostics :=
                   [AddError "Invalid Import ID"
                      "Expected import ID in the format 'organization_id/slug', got: org_123/"];
                 ImportAttributes := [] |},
          n)
    /\ HasError [AddError "Invalid Import ID"
                   "Expected import ID in the format 'organization_id/slug', got: org_123"]
       = true
    /\ (forall ID, snd (OrganizationRoleResource_ImportState env ID n) = n).
Proof.
  intros env n. repeat split; try reflexivity.
  intros ID. apply ImportState_no_round_trip.
Qed.

(** A list without repetition has no pair of equal elements, and the
    other way round. *)
Lemma duplicatePairs_NoDup (elements : list string) :
  NoDup elements -> duplicatePairs elements = [].
Proof.
  induction 1 as [|x l Hnotin Hnodup IH]; simpl; [reflexivity|].
  rewrite IH, app_nil_r.
  assert (Hnone : forall l', (forall y, In y l' -> y <> x) ->
                             filter (String.eqb x) l' = []).
  { induction l' as [|y l' IHl]; intros Hall; simpl; [reflexivity|].
    destruct (String.eqb_spec x y) as [->|_].
    - exfalso. apply (Hall y); [left; reflexivity | reflexivity].
    - apply IHl. intros z Hz. apply Hall. right. exact Hz. }
  apply Hnone. intros y Hy ->. contradiction.
Qed.

Lemma duplicatePairs_nil (elements : list string) :
  duplicatePairs elements = [] -> NoDup elements.
Proof.
  induction elements as [|x l IH]; simpl; intros H; [constructor|].
  apply app_eq_nil in H. destruct H as [Hfilter Hrest].
  constructor; [|apply IH; exact Hrest].
  intros Hin.
  assert (Hx : In x (filter (String.eqb x) l)).
  { apply filter_In. split; [exact Hin | apply String.eqb_refl]. }
  rewrite Hfilter in Hx. exact Hx.
Qed.

(** [Diagnostics.Append] keeps what is there and adds only diagnostics
    of the new list. *)
Lemma Diagnostics_Append_extends (new diags : list Diagnostic) :
  exists added,
    Diagnostics_Append diags new = (diags ++ added)%list
    /\ Forall (fun d => In d new) added.
Proof.
  unfold Diagnostics_Append. revert diags.
  induction new as [|d new IH]; intros diags; simpl.
  - exists []. rewrite app_nil_r. split; [reflexivity | constructor].
  - destruct (existsb (Diagnostic_Equal d) diags).
    + destruct (IH diags) as (added & Heq & Hall). exists added.
      split; [exact Heq|].
      eapply Forall_impl; [|exact Hall]. intros x Hx. right. exact Hx.
    + destruct (IH (diags ++ [d])%list) as (added & Heq & Hall).
      exists (d :: added). split.
      * rewrite Heq, <- app_assoc. reflexivity.
      * constructor; [left; reflexivity|].
        eapply Forall_impl; [|exact Hall]. intros x Hx. right. exact Hx.
Qed.

Lemma Diagnostics_Append_first (d : Diagnostic) (new : list Diagnostic) :
  exists added,
    Diagnostics_Append [] (d :: new) = d :: added
    /\ Forall (fun x => In x new) added.
Proof.
  unfold Diagnostics_Append. simpl.
  destruct (Diagnostics_Append_extends new [d]) as (added & Heq & Hall).
  exists added. split; [exact Heq | exact Hall].
Qed.

Lemma Diagnostics_Append_Forall (P : Diagnostic -> Prop)
    (new diags : list Diagnostic) :
  Forall P diags -> Forall P new -> Forall P (Diagnostics_Append diags new).
Proof.
  intros Hdiags Hnew.
  destruct (Diagnostics_Append_extends new diags) as (added & Heq & Hall).
  rewrite Heq. apply Forall_app. split; [exact Hdiags|].
  rewrite Forall_forall in Hall, Hnew. apply Forall_forall.
  intros x Hx. apply Hnew. apply Hall. exact Hx.
Qed.

Lemma Diagnostics_Append_nonempty (new : list Diagnostic) :
  new <> [] -> Diagnostics_Append [] new <> [].
Proof.
  destruct new as [|d new]; [contradiction|]. intros _.
  destruct (Diagnostics_Append_first d new) as (added & Heq & _).
  rewrite Heq. discriminate.
Qed.

Lemma HasError_all_errors (diags : list Diagnostic) :
  diags <> [] ->
  Forall (fun d => severity d = SeverityError) diags ->
  HasError diags = true.
Proof.
  destruct diags as [|d rest]; [contradiction|]. intros _ Hall.
  inversion Hall as [|x l Hd Hrest]; subst.
  unfold HasError. simpl. rewrite Hd. reflexivity.
Qed.

(** What [types.SetValueFrom] makes of a list of strings: the set of the
    strings when no string is repeated, and otherwise no set and error
    diagnostics for the repetition. *)
Lemma SetValueFrom_cases (render : string -> string) (elements : list string) :
  (NoDup elements ->
   SetValueFrom render elements = (types.SetValue elements, []))
  /\ (~ NoDup elements ->
      fst (SetValueFrom render elements) = types.SetUnknown
      /\ snd (SetValueFrom render elements) <> []
      /\ Forall (fun d => severity d = SeverityError
                          /\ summary d = "Duplicate Set Element")
           (snd (SetValueFrom render elements))).
Proof.
  split.
  - intros Hnodup. unfold SetValueFrom.
    rewrite (duplicatePairs_NoDup _ Hnodup). reflexivity.
  - intros Hdup. unfold SetValueFrom. cbv zeta.
    set (mk := fun element : string =>
                 AddError "Duplicate Set Element"
                   ("This attribute contains duplicate values of: "
                    ++ render element)).
    assert (Hne : map mk (duplicatePairs elements) <> []).
    { destruct (duplicatePairs elements) eqn:Hpairs; [|discriminate].
      exfalso. apply Hdup. apply duplicatePairs_nil. exact Hpairs. }
    assert (Hall : Forall (fun d => severity d = SeverityError
                                    /\ summary d = "Duplicate Set Element")
                     (Diagnostics_Append [] (map mk (duplicatePairs elements)))).
    { apply Diagnostics_Append_Forall; [constructor|].
      apply Forall_forall. intros d Hd. apply in_map_iff in Hd.
      destruct Hd as (x & <- & _). split; reflexivity. }
    pose proof (Diagnostics_Append_nonempty _ Hne) as Hne'.
    rewrite (HasError_all_errors _ Hne').
    + simpl. repeat split; assumption.
    + eapply Forall_impl; [|exact Hall]. intros d [Hd _]. exact Hd.
Qed.

(** C6. When the organization read gets an answer from the API whose
    domain strings are pairwise distinct, the persisted domain set holds
    the plain domain strings of the domain objects of the answer, in
    order; and when the answer holds no domain the persisted set is null,
    which is not the empty set.  When a domain string is repeated the
    framework refuses the set: the read reports [Duplicate Set Element]
    and leaves the state untouched. *)
Theorem C6_organization_read_domains :
  forall (env : Env) (c : Client) (state : OrganizationResourceModel)
         (n n' : Net env) (org : Organization),
    GetOrganization env c (types.ValueString (Org_ID state)) n
    = (Val (inr org), n') ->
    (NoDup (map Domain_Domain (Organization_Domains org)) ->
     exists st,
       OrganizationResource_Read env c state n = (Val (done (StateSet st)), n')
       /\ Org_Domains st
          = match Organization_Domains org with
            | [] => types.SetNull
            | ds => types.SetValue (map Domain_Domain ds)
            end
       /\ (Organization_Domains org = [] ->
           Org_Domains st = types.SetNull
           /\ Org_Domains st <> types.SetValue []))
    /\ (~ NoDup (map Domain_Domain (Organization_Domains org)) ->
        exists r,
          OrganizationResource_Read env c state n = (Val r, n')
          /\ State r = StateUntouched
          /\ HasError (Diagnostics r) = true
          /\ Forall (fun d => summary d = "Duplicate Set Element")
               (Diagnostics r)).
Proof.
  intros env c state n n' org Hget.
  destruct (SetValueFrom_cases (attr_String env)
              (map Domain_Domain (Organization_Domains org)))
    as [Hset Hrefused].
  split.
  - intros Hnodup. unfold OrganizationResource_Read, bind. rewrite Hget.
    destruct (Organization_Domains org) as [|d ds] eqn:Hds.
    + eexists. split; [reflexivity|]. simpl.
      split; [reflexivity|]. intros _. split; [reflexivity | discriminate].
    + change (0 <? Z.of_nat (Datatypes.length (d :: ds))) with
        (0 <? Z.pos (Pos.of_succ_nat (Datatypes.length ds))).
      change (0 <? Z.pos (Pos.of_succ_nat (Datatypes.length ds))) with true.
      cbv iota. rewrite (Hset Hnodup). cbv beta iota zeta.
      eexists. split; [reflexivity|]. simpl.
      split; [reflexivity | discriminate].
  - intros Hdup. unfold OrganizationResource_Read, bind. rewrite Hget.
    destruct (Organization_Domains org) as [|d ds] eqn:Hds.
    + exfalso. apply Hdup. constructor.
    + change (0 <? Z.of_nat (Datatypes.length (d :: ds))) with
        (0 <? Z.pos (Pos.of_succ_nat (Datatypes.length ds))).
      change (0 <? Z.pos (Pos.of_succ_nat (Datatypes.length ds))) with true.
      cbv iota.
      destruct (Hrefused Hdup) as (_ & Hne & Hall).
      destruct (SetValueFrom (attr_String env) (map Domain_Domain (d :: ds)))
        as [domains diags].
      simpl in Hne, Hall.
      assert (Hall' : Forall (fun x => severity x = SeverityError
                                       /\ summary x = "Duplicate Set Element")
                        (Diagnostics_Append [] diags)).
      { apply Diagnostics_Append_Forall; [constructor | exact Hall]. }
      assert (Herr : HasError (Diagnostics_Append [] diags) = true).
      { apply HasError_all_errors;
          [apply Diagnostics_Append_nonempty; exact Hne|].
        eapply Forall_impl; [|exact Hall']. intros x [Hx _]. exact Hx. }
      rewrite Herr. eexists. split; [reflexivity|]. simpl.
      split; [reflexivity|]. split; [exact Herr|].
      eapply Forall_impl; [|exact Hall']. intros x [_ Hx]. exact Hx.
Qed.

(** An answer with two domains, and an answer with none. *)
Lemma C6_witness :
  (exists st,
     OrganizationResource_Read sim.env sim.theClient
       {| Org_ID := types.StringValue "org_1"; Org_Name := types.StringNull;
          Org_Domains := types.SetNull; Org_CreatedAt := types.StringNull;
          Org_UpdatedAt := types.StringNull |}
       (sim.start [sim.reply 200 "" "acme.com,acme.org"])
     = (Val (done (StateSet st)),
        snd (GetOrganization sim.env sim.theClient "org_1"
               (sim.start [sim.reply 200 "" "acme.com,acme.org"])))
     /\ Org_Domains st = types.SetValue ["acme.com"; "acme.org"])
  /\ (exists st,
        OrganizationResource_Read sim.env sim.theClient
          {| Org_ID := types.StringValue "org_1"; Org_Name := types.StringNull;
             Org_Domains := types.SetValue ["acme.com"];
             Org_CreatedAt := types.StringNull;
             Org_UpdatedAt := types.StringNull |}
          (sim.start [sim.reply 200 "" ""])
        = (Val (done (StateSet st)),
           snd (GetOrganization sim.env sim.theClient "org_1"
                  (sim.start [sim.reply 200 "" ""])))
        /\ Org_Domains st = types.SetNull).
Proof.
  split.
  - destruct (proj1 (C6_organization_read_domains sim.env sim.theClient
                       {| Org_ID := types.StringValue "org_1";
                          Org_Name := types.StringNull;
                          Org_Domains := types.SetNull;
                          Org_CreatedAt := types.StringNull;
                          Org_UpdatedAt := types.StringNull |}
                       (sim.start [sim.reply 200 "" "acme.com,acme.org"])
                       _ _ eq_refl))
      as (st & Hrun & Hdom & _).
    + apply duplicatePairs_nil. reflexivity.
    + exists st. split; [exact Hrun | exact Hdom].
  - destruct (proj1 (C6_organization_read_domains sim.env sim.theClient
                       {| Org_ID := types.StringValue "org_1";
                          Org_Name := types.StringNull;
                          Org_Domains := types.SetValue ["acme.com"];
                          Org_CreatedAt := types.StringNull;
                          Org_UpdatedAt := types.StringNull |}
                       (sim.start [sim.reply 200 "" ""]) _ _ eq_refl))
      as (st & Hrun & Hdom & _).
    + apply duplicatePairs_nil. reflexivity.
    + exists st. split; [exact Hrun | exact Hdom].
Defined.

(** An answer that names the domain [acme.com] twice: nothing is
    persisted, the read ends with the framework's error. *)
Lemma C6_counterexample_duplicate_domains :
  fst (OrganizationResource_Read sim.env sim.theClient
         {| Org_ID := types.StringValue "org_1"; Org_Name := types.StringNull;
            Org_Domains := types.SetNull; Org_CreatedAt := types.StringNull;
            Org_UpdatedAt := types.StringNull |}
         (sim.start [sim.reply 200 "" "acme.com,acme.com"]))
  = Val {| Diagnostics :=
             [AddError "Duplicate Set Element"
                ("This attribute contains duplicate values of: "
                 ++ sim.quoted "acme.com")];
           State := StateUntouched |}.
Proof. reflexivity. Qed.

(** Each delete handler swallows a not-found error of its entity call. *)
Lemma OrganizationResource_Delete_not_found (env : Env) (c : Client)
    (state : OrganizationResourceModel) (n n' : Net env) (err : error) :
  DeleteOrganization env c (types.ValueString (Org_ID state)) n
  = (Val (Some err), n') ->
  IsNotFound err = true ->
  OrganizationResource_Delete env c state n = (Val (done StateUntouched), n').
Proof.
  intros Hdel Hnf. unfold OrganizationResource_Delete, bind.
  rewrite Hdel, Hnf. reflexivity.
Qed.

Lemma UserResource_Delete_not_found (env : Env) (c : Client)
    (state : UserResourceModel) (n n' : Net env) (err : error) :
  DeleteUser env c (types.ValueString (Usr_ID state)) n = (Val (Some err), n') ->
  IsNotFound err = true ->
  UserResource_Delete env c state n = (Val (done StateUntouched), n').
Proof.
  intros Hdel Hnf. unfold UserResource_Delete, bind.
  rewrite Hdel, Hnf. reflexivity.
Qed.

Lemma OrganizationMembershipResource_Delete_not_found (env : Env) (c : Client)
    (state : OrganizationMembershipResourceModel) (n n' : Net env) (err : error) :
  DeleteOrganizationMembership env c (types.ValueString (Mem_ID state)) n
  = (Val (Some err), n') ->
  IsNotFound err = true ->
  OrganizationMembershipResource_Delete env c state n
  = (Val (done StateUntouched), n').
Proof.
  intros Hdel Hnf. unfold OrganizationMembershipResource_Delete, bind.
  rewrite Hdel, Hnf. reflexivity.
Qed.

Lemma OrganizationRoleResource_Delete_not_found (env : Env) (c : Client)
    (state : OrganizationRoleResourceModel) (n n' : Net env) (err : error) :
  DeleteOrganizationRole env c (types.ValueString (Rol_OrganizationID state))
    (types.ValueString (Rol_Slug state)) n
  = (Val (Some err), n') ->
  IsNotFound err = true ->
  OrganizationRoleResource_Delete env c state n
  = (Val (done StateUntouched), n').
Proof.
  intros Hdel Hnf. unfold OrganizationRoleResource_Delete, bind.
  rewrite Hdel, Hnf. reflexivity.
Qed.

(** Deleting an organization twice, the remote answering with a success
    and then with a 404. *)
Lemma OrganizationResource_Delete_twice (env : Env) (c : Client)
    (state : OrganizationResourceModel) (n : Net env)
    (w1 w2 : World env) (resp1 resp2 : Response) (b1 b2 : string) :
  http_NewRequest env http_MethodDelete
    (baseURL c ++ "/organizations/" ++ types.ValueString (Org_ID state)) = None ->
  http_Do env (world n)
    (requestOf c http_MethodDelete
       ("/organizations/" ++ types.ValueString (Org_ID state)) None)
  = (w1, inr resp1) ->
  200 <= resp_StatusCode resp1 < 300 ->
  resp_Body resp1 = inr b1 ->
  http_Do env w1
    (requestOf c http_MethodDelete
       ("/organizations/" ++ types.ValueString (Org_ID state)) None)
  = (w2, inr resp2) ->
  resp_StatusCode resp2 = http_StatusNotFound ->
  resp_Body resp2 = inr b2 ->
  StatusCode (parseAPIError (json_Unmarshal_APIError env) http_StatusNotFound b2)
  = http_StatusNotFound ->
  exists n1 n2,
    OrganizationResource_Delete env c state n = (Val (done StateUntouched), n1)
    /\ OrganizationResource_Delete env c state n1
       = (Val (done StateUntouched), n2)
    /\ wire n2
       = (wire n
          ++ [(requestOf c http_MethodDelete
                 ("/organizations/" ++ types.ValueString (Org_ID state)) None,
               inr resp1);
              (requestOf c http_MethodDelete
                 ("/organizations/" ++ types.ValueString (Org_ID state)) None,
               inr resp2)])%list.
Proof.
  intros Hnew Hdo1 Hst1 Hb1 Hdo2 Hst2 Hb2 Hkeep.
  pose proof (verbs.Delete_success env c _ n w1 resp1 b1 Hnew Hdo1 Hst1 Hb1)
    as Hfirst.
  destruct (verbs.Delete_404 env c _
              {| world := w1;
                 wire := wire n ++ [(requestOf c http_MethodDelete
                   ("/organizations/" ++ types.ValueString (Org_ID state)) None,
                   inr resp1)] |}
              w2 resp2 b2 Hnew Hdo2 Hst2 Hb2 Hkeep) as [Hsecond Hnf].
  simpl wire in Hsecond.
  eexists. eexists. split; [|split].
  - unfold OrganizationResource_Delete, DeleteOrganization, bind.
    rewrite Hfirst. reflexivity.
  - eapply OrganizationResource_Delete_not_found.
    + unfold DeleteOrganization, bind. rewrite Hsecond. reflexivity.
    + apply Hnf.
  - simpl. rewrite <- app_assoc. reflexivity.
Qed.

(** C8. For the organization, user, organization-membership and
    organization-role resources alike: when the entity client's delete
    call returns an error of the not-found kind the handler adds no
    diagnostic, so the delete succeeds; and when the remote answers the
    DELETE with a 404 whose body can be read, and whose body does not
    replace the status recorded in the error, the handler succeeds after
    that one round trip.  In particular, deleting the same organization
    twice, where the remote answers the second call with such a 404,
    succeeds both times.  A 404 whose body cannot be read is not treated
    as not found: the handler reports the error of the read (an I/O
    error, which is not of the not-found kind). *)
Theorem C8_delete_not_found_is_success :
  forall (env : Env) (c : Client),
    (* the handlers, on an error of the not-found kind *)
    ((forall (state : OrganizationResourceModel) (n n' : Net env) (err : error),
         DeleteOrganization env c (types.ValueString (Org_ID state)) n
         = (Val (Some err), n') ->
         IsNotFound err = true ->
         succeeded (fst (OrganizationResource_Delete env c state n)) = true
         /\ snd (OrganizationResource_Delete env c state n) = n')
     /\ (forall (state : UserResourceModel) (n n' : Net env) (err : error),
           DeleteUser env c (types.ValueString (Usr_ID state)) n
           = (Val (Some err), n') ->
           IsNotFound err = true ->
           succeeded (fst (UserResource_Delete env c state n)) = true
           /\ snd (UserResource_Delete env c state n) = n')
     /\ (forall (state : OrganizationMembershipResourceModel) (n n' : Net env)
                (err : error),
           DeleteOrganizationMembership env c (types.ValueString (Mem_ID state)) n
           = (Val (Some err), n') ->
           IsNotFound err = true ->
           succeeded (fst (OrganizationMembershipResource_Delete env c state n))
           = true
           /\ snd (OrganizationMembershipResource_Delete env c state n) = n')
     /\ (forall (state : OrganizationRoleResourceModel) (n n' : Net env)
                (err : error),
           DeleteOrganizationRole env c
             (types.ValueString (Rol_OrganizationID state))
             (types.ValueString (Rol_Slug state)) n
           = (Val (Some err), n') ->
           IsNotFound err = true ->
           succeeded (fst (OrganizationRoleResource_Delete env c state n)) = true
           /\ snd (OrganizationRoleResource_Delete env c state n) = n'))
    (* from the wire: a 404 with a readable body that keeps the status *)
    /\ (forall (path : string) (n : Net env) (w : World env) (resp : Response)
               (b : string),
          http_NewRequest env http_MethodDelete (baseURL c ++ path) = None ->
          http_Do env (world n) (requestOf c http_MethodDelete path None)
          = (w, inr resp) ->
          resp_StatusCode resp = http_StatusNotFound ->
          resp_Body resp = inr b ->
          keepsStatus env http_StatusNotFound b ->
          let n' :=
            {| world := w;
               wire := wire n
                       ++ [(requestOf c http_MethodDelete path None, inr resp)] |} in
          (forall state : OrganizationResourceModel,
              path = "/organizations/" ++ types.ValueString (Org_ID state) ->
              OrganizationResource_Delete env c state n
              = (Val (done StateUntouched), n'))
          /\ (forall state : UserResourceModel,
                path = "/user_management/users/"
                       ++ types.ValueString (Usr_ID state) ->
                UserResource_Delete env c state n
                = (Val (done StateUntouched), n'))
          /\ (forall state : OrganizationMembershipResourceModel,
                path = "/user_management/organization_memberships/"
                       ++ types.ValueString (Mem_ID state) ->
                OrganizationMembershipResource_Delete env c state n
                = (Val (done StateUntouched), n'))
          /\ (forall state : OrganizationRoleResourceModel,
                path = "/authorization/organizations/"
                       ++ types.ValueString (Rol_OrganizationID state)
                       ++ "/roles/" ++ types.ValueString (Rol_Slug state) ->
                OrganizationRoleResource_Delete env c state n
                = (Val (done StateUntouched), n')))
    (* the same organization deleted twice *)
    /\ (forall (state : OrganizationResourceModel) (n : Net env)
               (w1 w2 : World env) (resp1 resp2 : Response) (b1 b2 : string),
          http_NewRequest env http_MethodDelete
            (baseURL c ++ "/organizations/" ++ types.ValueString (Org_ID state))
          = None ->
          http_Do env (world n)
            (requestOf c http_MethodDelete
               ("/organizations/" ++ types.ValueString (Org_ID state)) None)
          = (w1, inr resp1) ->
          200 <= resp_StatusCode resp1 < 300 ->
          resp_Body resp1 = inr b1 ->
          http_Do env w1
            (requestOf c http_MethodDelete
               ("/organizations/" ++ types.ValueString (Org_ID state)) None)
          = (w2, inr resp2) ->
          resp_StatusCode resp2 = http_StatusNotFound ->
          resp_Body resp2 = inr b2 ->
          keepsStatus env http_StatusNotFound b2 ->
          exists n1 n2,
            OrganizationResource_Delete env c state n
            = (Val (done StateUntouched), n1)
            /\ OrganizationResource_Delete env c state n1
               = (Val (done StateUntouched), n2)
            /\ length (wire n2) = (length (wire n) + 2)%nat)
    (* a 404 whose body cannot be read *)
    /\ (forall (path : string) (n : Net env) (w : World env) (resp : Response)
               (e : error),
          http_NewRequest env http_MethodDelete (baseURL c ++ path) = None ->
          http_Do env (world n) (requestOf c http_MethodDelete path None)
          = (w, inr resp) ->
          resp_StatusCode resp = http_StatusNotFound ->
          resp_Body resp = inl e ->
          IsNotFound e = false ->
          let n' :=
            {| world := w;
               wire := wire n
                       ++ [(requestOf c http_MethodDelete path None, inr resp)] |} in
          (forall state : OrganizationResourceModel,
              path = "/organizations/" ++ types.ValueString (Org_ID state) ->
              OrganizationResource_Delete env c state n
              = (Val (fail "Error Deleting Organization"
                        ("Could not delete organization, unexpected error: "
                         ++ Error (wrapError "failed to delete organization: "
                                     (wrapError "failed to read response body: "
                                        e)))), n'))
          /\ (forall state : UserResourceModel,
                path = "/user_management/users/"
                       ++ types.ValueString (Usr_ID state) ->
                UserResource_Delete env c state n
                = (Val (fail "Error Deleting User"
                          ("Could not delete user, unexpected error: "
                           ++ Error (wrapError "failed to delete user: "
                                       (wrapError "failed to read response body: "
                                          e)))), n'))
          /\ (forall state : OrganizationMembershipResourceModel,
                path = "/user_management/organization_memberships/"
                       ++ types.ValueString (Mem_ID state) ->
                OrganizationMembershipResource_Delete env c state n
                = (Val (fail "Error Deleting Organization Membership"
                          ("Could not delete organization membership, unexpected error: "
                           ++ Error (wrapError
                                       "failed to delete organization membership: "
                                       (wrapError "failed to read response body: "
                                          e)))), n'))
          /\ (forall state : OrganizationRoleResourceModel,
                path = "/authorization/organizations/"
                       ++ types.ValueString (Rol_OrganizationID state)
                       ++ "/roles/" ++ types.ValueString (Rol_Slug state) ->
                OrganizationRoleResource_Delete env c state n
                = (Val (fail "Error Deleting Organization Role"
                          ("Could not delete organization role, unexpected error: "
                           ++ Error (wrapError
                                       "failed to delete organization role: "
                                       (wrapError "failed to read response body: "
                                          e)))), n'))).
Proof.
  intros env c. split; [|split; [|split]].
  - repeat apply conj.
    + intros state n n' err Hdel Hnf.
      rewrite (OrganizationResource_Delete_not_found env c state n n' err Hdel Hnf).
      split; reflexivity.
    + intros state n n' err Hdel Hnf.
      rewrite (UserResource_Delete_not_found env c state n n' err Hdel Hnf).
      split; reflexivity.
    + intros state n n' err Hdel Hnf.
      rewrite (OrganizationMembershipResource_Delete_not_found
                 env c state n n' err Hdel Hnf).
      split; reflexivity.
    + intros state n n' err Hdel Hnf.
      rewrite (OrganizationRoleResource_Delete_not_found
                 env c state n n' err Hdel Hnf).
      split; reflexivity.
  - intros path n w resp b Hnew Hdo Hst Hb Hkeep n'. subst n'.
    destruct (verbs.Delete_404 env c path n w resp b Hnew Hdo Hst Hb Hkeep)
      as [Hrun Hnf].
    repeat apply conj; intros state Hpath.
    + eapply OrganizationResource_Delete_not_found;
        [unfold DeleteOrganization, bind; rewrite <- Hpath, Hrun; reflexivity
        | apply Hnf].
    + eapply UserResource_Delete_not_found;
        [unfold DeleteUser, bind; rewrite <- Hpath, Hrun; reflexivity
        | apply Hnf].
    + eapply OrganizationMembershipResource_Delete_not_found;
        [unfold DeleteOrganizationMembership, bind; rewrite <- Hpath, Hrun;
         reflexivity
        | apply Hnf].
    + eapply OrganizationRoleResource_Delete_not_found;
        [unfold DeleteOrganizationRole, bind; rewrite <- Hpath, Hrun; reflexivity
        | apply Hnf].
  - intros state n w1 w2 resp1 resp2 b1 b2 Hnew Hdo1 Hst1 Hb1 Hdo2 Hst2 Hb2 Hkeep.
    destruct (OrganizationResource_Delete_twice env c state n w1 w2 resp1 resp2
                b1 b2 Hnew Hdo1 Hst1 Hb1 Hdo2 Hst2 Hb2 Hkeep)
      as (n1 & n2 & H1 & H2 & Hw).
    exists n1, n2. split; [exact H1|]. split; [exact H2|].
    rewrite Hw, length_app. reflexivity.
  - intros path n w resp e Hnew Hdo Hst Hb He n'. subst n'.
    assert (Hrun := verbs.Delete_unreadable env c path n w resp e Hnew Hdo).
    rewrite Hst in Hrun. specialize (Hrun ltac:(discriminate) Hb).
    assert (Hkind : forall msg,
              IsNotFound (wrapError msg
                            (wrapError "failed to read response body: " e))
              = false).
    { intros msg. unfold IsNotFound.
      rewrite !taxonomy.errors_Is_wrapError. exact He. }
    repeat apply conj; intros state Hpath.
    + unfold OrganizationResource_Delete, DeleteOrganization, bind.
      rewrite <- Hpath, Hrun. simpl. rewrite Hkind. reflexivity.
    + unfold UserResource_Delete, DeleteUser, bind.
      rewrite <- Hpath, Hrun. simpl. rewrite Hkind. reflexivity.
    + unfold OrganizationMembershipResource_Delete,
        DeleteOrganizationMembership, bind.
      rewrite <- Hpath, Hrun. simpl. rewrite Hkind. reflexivity.
    + unfold OrganizationRoleResource_Delete, DeleteOrganizationRole, bind.
      rewrite <- Hpath, Hrun. simpl. rewrite Hkind. reflexivity.
Qed.

(** The organization [org_1] deleted twice against a remote that answers
    204 and then 404; and a user, a membership and a role whose delete is
    answered with a 404. *)
Lemma C8_witness :
  (exists n1 n2,
     OrganizationResource_Delete sim.env sim.theClient
       {| Org_ID := types.StringValue "org_1"; Org_Name := types.StringValue "Acme";
          Org_Domains := types.SetNull; Org_CreatedAt := types.StringNull;
          Org_UpdatedAt := types.StringNull |}
       (sim.start [sim.reply 204 "" ""; sim.reply 404 "" ""])
     = (Val (done StateUntouched), n1)
     /\ OrganizationResource_Delete sim.env sim.theClient
          {| Org_ID := types.StringValue "org_1";
             Org_Name := types.StringValue "Acme";
             Org_Domains := types.SetNull; Org_CreatedAt := types.StringNull;
             Org_UpdatedAt := types.StringNull |} n1
        = (Val (done StateUntouched), n2)
     /\ length (wire n2) = 2%nat)
  /\ fst (UserResource_Delete sim.env sim.theClient
            {| Usr_ID := types.StringValue "user_1";
               Usr_Email := types.StringValue "jane@example.com";
               Usr_EmailVerified := types.BoolNull;
               Usr_FirstName := types.StringNull;
               Usr_LastName := types.StringNull;
               Usr_Password := types.StringNull;
               Usr_PasswordHash := types.StringNull;
               Usr_ProfilePictureURL := types.StringNull;
               Usr_CreatedAt := types.StringNull;
               Usr_UpdatedAt := types.StringNull |}
            (sim.start [sim.reply 404 "" ""]))
     = Val (done StateUntouched)
  /\ fst (OrganizationMembershipResource_Delete sim.env sim.theClient
            {| Mem_ID := types.StringValue "om_1";
               Mem_UserID := types.StringValue "user_1";
               Mem_OrganizationID := types.StringValue "org_1";
               Mem_RoleSlug := types.StringNull;
               Mem_Status := types.StringNull;
               Mem_CreatedAt := types.StringNull;
               Mem_UpdatedAt := types.StringNull |}
            (sim.start [sim.reply 404 "" ""]))
     = Val (done StateUntouched)
  /\ fst (OrganizationRoleResource_Delete sim.env sim.theClient
            {| Rol_ID := types.StringValue "role_1";
               Rol_OrganizationID := types.StringValue "org_1";
               Rol_Slug := types.StringValue "org-billing-admin";
               Rol_Name := types.StringValue "Billing Admin";
               Rol_Description := types.StringNull;
               Rol_Type := types.StringNull;
               Rol_Permissions := types.ListNull;
               Rol_CreatedAt := types.StringNull;
               Rol_UpdatedAt := types.StringNull |}
            (sim.start [sim.reply 404 "" "Not Found"]))
     = Val (done StateUntouched).
Proof.
  pose proof (C8_delete_not_found_is_success sim.env sim.theClient)
    as (_ & Hwire & Htwice & _).
  split; [|split; [|split]].
  - refine (Htwice
              {| Org_ID := types.StringValue "org_1";
                 Org_Name := types.StringValue "Acme";
                 Org_Domains := types.SetNull; Org_CreatedAt := types.StringNull;
                 Org_UpdatedAt := types.StringNull |}
              (sim.start [sim.reply 204 "" ""; sim.reply 404 "" ""])
              _ _ _ _ "" "" eq_refl eq_refl _ eq_refl eq_refl eq_refl eq_refl
              eq_refl).
    simpl. lia.
  - destruct (Hwire "/user_management/users/user_1"
                (sim.start [sim.reply 404 "" ""]) _ _ ""
                eq_refl eq_refl eq_refl eq_refl eq_refl) as (_ & Huser & _).
    match goal with
    | |- fst (UserResource_Delete _ _ ?st _) = _ => rewrite (Huser st eq_refl)
    end.
    reflexivity.
  - destruct (Hwire "/user_management/organization_memberships/om_1"
                (sim.start [sim.reply 404 "" ""]) _ _ ""
                eq_refl eq_refl eq_refl eq_refl eq_refl) as (_ & _ & Hmem & _).
    match goal with
    | |- fst (OrganizationMembershipResource_Delete _ _ ?st _) = _ => rewrite (Hmem st eq_refl)
    end.
    reflexivity.
  - destruct (Hwire "/authorization/organizations/org_1/roles/org-billing-admin"
                (sim.start [sim.reply 404 "" "Not Found"]) _ _ "Not Found"
                eq_refl eq_refl eq_refl eq_refl eq_refl) as (_ & _ & _ & Hrole).
    match goal with
    | |- fst (OrganizationRoleResource_Delete _ _ ?st _) = _ => rewrite (Hrole st eq_refl)
    end.
    reflexivity.
Defined.

(** The organization [org_1] deleted twice, the second call receiving a
    404 whose body breaks off while it is read: the first delete
    succeeds, the second ends with an error diagnostic.  The same happens
    when the body of the 404 carries a status of its own, which replaces
    the status recorded in the error. *)
Lemma C8_counterexample_second_delete_fails :
  (exists n1,
     OrganizationResource_Delete sim.env sim.theClient
       {| Org_ID := types.StringValue "org_1"; Org_Name := types.StringValue "Acme";
          Org_Domains := types.SetNull; Org_CreatedAt := types.StringNull;
          Org_UpdatedAt := types.StringNull |}
       (sim.start [sim.reply 204 "" ""; sim.broken 404])
     = (Val (done StateUntouched), n1)
     /\ fst (OrganizationResource_Delete sim.env sim.theClient
               {| Org_ID := types.StringValue "org_1";
                  Org_Name := types.StringValue "Acme";
                  Org_Domains := types.SetNull; Org_CreatedAt := types.StringNull;
                  Org_UpdatedAt := types.StringNull |} n1)
        = Val (fail "Error Deleting Organization"
                 "Could not delete organization, unexpected error: failed to delete organization: failed to read response body: unexpected EOF"))
  /\ (exists n1,
        OrganizationResource_Delete sim.env sim.theClient
          {| Org_ID := types.StringValue "org_1";
             Org_Name := types.StringValue "Acme";
             Org_Domains := types.SetNull; Org_CreatedAt := types.StringNull;
             Org_UpdatedAt := types.StringNull |}
          (sim.start [sim.reply 204 "" ""; sim.reply 404 "" "statusCode=500"])
        = (Val (done StateUntouched), n1)
        /\ succeeded
             (fst (OrganizationResource_Delete sim.env sim.theClient
                     {| Org_ID := types.StringValue "org_1";
                        Org_Name := types.StringValue "Acme";
                        Org_Domains := types.SetNull;
                        Org_CreatedAt := types.StringNull;
                        Org_UpdatedAt := types.StringNull |} n1))
           = false).
Proof.
  split; eexists; (split; [reflexivity|]); reflexivity.
Qed.

End reconcile.

(* ------------------------------------------------------------------ *)
(** ** What the handlers put on the wire *)

Module onwire.

Import client.
Import provider.
Import spec.

(** The round trips of a [doRequest] all carry the request it was asked
    to make; when the body marshals and the request can be built there is
    at least one. *)
Lemma doRequest_sends (env : Env) (c : Client) (method path : string)
    (body : option Payload) (n : Net env) :
  exists xs,
    wire (snd (doRequest env c method path body n)) = (wire n ++ xs)%list
    /\ Forall (fun x => fst x = requestOf c method path body) xs
    /\ (marshals env body ->
        http_NewRequest env method (baseURL c ++ path) = None ->
        xs <> []).
Proof.
  destruct (retry.doRequest_cases env c method path body n)
    as [[Hsame _] | (xs & Hwire & Hatt)].
  - exists []. rewrite Hsame, app_nil_r. split; [reflexivity|].
    split; [constructor|]. intros Hm Hnew.
    destruct (retry.doRequest_Attempts env c method path body n Hm Hnew)
      as (ys & Hw & Hys).
    rewrite Hsame in Hw.
    pose proof (retry.Attempts_nonempty _ _ _ _ Hys) as Hne.
    destruct ys as [|y ys]; [contradiction|].
    apply (f_equal (@length _)) in Hw. rewrite length_app in Hw.
    simpl in Hw. lia.
  - exists xs. split; [assumption|].
    split; [eapply retry.Attempts_same_request; eassumption|].
    intros _ _. eapply retry.Attempts_nonempty; eassumption.
Qed.

(** Nothing after the [doRequest] of a typed verb touches the network. *)
Lemma Post_net {T : Type} (env : Env) (c : Client) (path : string)
    (body : Payload) (tg : Target T) (n : Net env) :
  snd (Post env c path body tg n)
  = snd (doRequest env c http_MethodPost path (Some body) n).
Proof.
  unfold Post, bind.
  destruct (doRequest env c http_MethodPost path (Some body) n)
    as [[[err|resp]|msg] n1]; reflexivity.
Qed.

Lemma Put_net {T : Type} (env : Env) (c : Client) (path : string)
    (body : Payload) (tg : Target T) (n : Net env) :
  snd (Put env c path body tg n)
  = snd (doRequest env c http_MethodPut path (Some body) n).
Proof.
  unfold Put, bind.
  destruct (doRequest env c http_MethodPut path (Some body) n)
    as [[[err|resp]|msg] n1]; reflexivity.
Qed.

Lemma Delete_net (env : Env) (c : Client) (path : string) (n : Net env) :
  snd (Delete env c path n)
  = snd (doRequest env c http_MethodDelete path None n).
Proof.
  unfold Delete, bind.
  destruct (doRequest env c http_MethodDelete path None n)
    as [[[err|resp]|msg] n1]; try reflexivity.
  destruct (parseResponse env resp None); reflexivity.
Qed.

(** A continuation that only computes leaves the network state of the
    call before it. *)
Lemma bind_pure_net {A B : Type} (env : Env) (m : M env A) (f : A -> B)
    (n : Net env) :
  snd ((x <- m ;; ret (f x)) n) = snd (m n).
Proof.
  unfold bind. destruct (m n) as [[a|msg] n1]; reflexivity.
Qed.

Lemma UserResource_Update_net (env : Env) (c : Client)
    (plan state : UserResourceModel) (n : Net env) :
  snd (UserResource_Update env c plan state n)
  = snd (doRequest env c http_MethodPut
           ("/user_management/users/" ++ types.ValueString (Usr_ID state))
           (Some (UserUpdateBody (UserResource_updateReq plan state))) n).
Proof.
  rewrite <- Put_net with (tg := user env).
  rewrite <- (bind_pure_net env (Put env c _ _ (user env))
                (wrapResult "failed to update user: ") n).
  unfold UserResource_Update, UpdateUser. unfold bind at 1.
  destruct ((r <- Put env c _ _ (user env) ;; ret (wrapResult _ r)) n)
    as [[[err|u]|msg] n1]; reflexivity.
Qed.

Lemma OrganizationRoleResource_Create_net (env : Env) (c : Client)
    (plan : OrganizationRoleResourceModel) (n : Net env) :
  snd (OrganizationRoleResource_Create env c plan n)
  = snd (doRequest env c http_MethodPost
           ("/authorization/organizations/"
            ++ types.ValueString (Rol_OrganizationID plan) ++ "/roles")
           (Some (RoleCreateBody (OrganizationRoleResource_createReq plan))) n).
Proof.
  rewrite <- Post_net with (tg := role env).
  rewrite <- (bind_pure_net env (Post env c _ _ (role env))
                (wrapResult "failed to create organization role: ") n).
  unfold OrganizationRoleResource_Create, CreateOrganizationRole.
  unfold bind at 1.
  destruct ((r <- Post env c _ _ (role env) ;; ret (wrapResult _ r)) n)
    as [[[err|u]|msg] n1]; reflexivity.
Qed.

Lemma ConnectionResource_Create_net (env : Env) (c : Client)
    (plan : ConnectionResourceModel) (n : Net env) :
  snd (ConnectionResource_Create env c plan n)
  = snd (doRequest env c http_MethodPost "/connections"
           (Some (ConnectionCreateBody
              {| ConnectionCreate_OrganizationID :=
                   types.ValueString (Con_OrganizationID plan);
                 ConnectionCreate_ConnectionType :=
                   types.ValueString (Con_ConnectionType plan);
                 ConnectionCreate_Name := types.ValueString (Con_Name plan) |}))
           n).
Proof.
  rewrite <- Post_net with (tg := conn env).
  rewrite <- (bind_pure_net env (Post env c _ _ (conn env))
                (wrapResult "failed to create connection: ") n).
  unfold ConnectionResource_Create, CreateConnection.
  unfold bind at 1.
  destruct ((r <- Post env c _ _ (conn env) ;; ret (wrapResult _ r)) n)
    as [[[err|u]|msg] n1]; reflexivity.
Qed.

Lemma ConnectionResource_Update_net (env : Env) (c : Client)
    (plan state : ConnectionResourceModel) (n : Net env) :
  snd (ConnectionResource_Update env c plan state n)
  = snd (doRequest env c http_MethodPut
           ("/connections/" ++ types.ValueString (Con_ID state))
           (Some (ConnectionUpdateBody
              {| ConnectionUpdate_Name := types.ValueString (Con_Name plan) |}))
           n).
Proof.
  rewrite <- Put_net with (tg := conn env).
  rewrite <- (bind_pure_net env (Put env c _ _ (conn env))
                (wrapResult "failed to update connection: ") n).
  unfold ConnectionResource_Update, UpdateConnection.
  unfold bind at 1.
  destruct ((r <- Put env c _ _ (conn env) ;; ret (wrapResult _ r)) n)
    as [[[err|u]|msg] n1]; reflexivity.
Qed.

Lemma ConnectionResource_Delete_net (env : Env) (c : Client)
    (state : ConnectionResourceModel) (n : Net env) :
  snd (ConnectionResource_Delete env c state n)
  = snd (doRequest env c http_MethodDelete
           ("/connections/" ++ types.ValueString (Con_ID state)) None n).
Proof.
  rewrite <- Delete_net.
  rewrite <- (bind_pure_net env (Delete env c _)
                (wrapOption "failed to delete connection: ") n).
  unfold ConnectionResource_Delete, DeleteConnection.
  unfold bind at 1.
  destruct ((r <- Delete env c _ ;; ret (wrapOption _ r)) n)
    as [[[err|]|msg] n1]; try reflexivity.
  destruct (IsNotFound err); reflexivity.
Qed.

Lemma DirectoryResource_Create_net (env : Env) (c : Client)
    (plan : DirectoryResourceModel) (n : Net env) :
  snd (DirectoryResource_Create env c plan n)
  = snd (doRequest env c http_MethodPost "/directories"
           (Some (DirectoryCreateBody
              {| DirectoryCreate_OrganizationID :=
                   types.ValueString (Dir_OrganizationID plan);
                 DirectoryCreate_Name := types.ValueString (Dir_Name plan);
                 DirectoryCreate_Type := types.ValueString (Dir_Type plan) |}))
           n).
Proof.
  rewrite <- Post_net with (tg := dir env).
  rewrite <- (bind_pure_net env (Post env c _ _ (dir env))
                (wrapResult "failed to create directory: ") n).
  unfold DirectoryResource_Create, CreateDirectory.
  unfold bind at 1.
  destruct ((r <- Post env c _ _ (dir env) ;; ret (wrapResult _ r)) n)
    as [[[err|u]|msg] n1]; reflexivity.
Qed.

End onwire.

(* ------------------------------------------------------------------ *)
(** ** Properties of the reconciliation handlers: field survival *)

Module survival.

Import client.
Import provider.
Import spec.

Lemma hasKey_app (key : string) (a b : list (string * JSON)) :
  hasKey key (a ++ b) = hasKey key a || hasKey key b.
Proof. apply existsb_app. Qed.

Lemma hasKey_omitemptyString (key k value : string) :
  String.eqb k key = false -> hasKey key (omitemptyString k value) = false.
Proof.
  intros Hk. unfold omitemptyString.
  destruct (String.eqb value ""); simpl; [reflexivity|].
  rewrite Hk. reflexivity.
Qed.

(** The rule [Create] and [Read] apply to the role slug is the
    three-state merge. *)
Lemma merge_as_coded (response : string) (held : types.String) :
  (if negb (String.eqb response "") then types.StringValue response
   else if negb (types.IsNull held)
           && negb (String.eqb (types.ValueString held) "")
        then held
        else types.StringNull)
  = threeStateMerge response held.
Proof.
  unfold threeStateMerge.
  destruct (String.eqb response ""); simpl; [|reflexivity].
  destruct held as [| |v]; simpl; reflexivity.
Qed.

(** C1, as the code has it.  Whenever the API answers, [Create] persists
    the three-state merge of the answer's role slug and the plan's, and
    [Read] that of the answer's role slug and the prior state's.  [Update]
    persists the answer's role slug when it is not empty and the plan's
    value otherwise, whatever that value is: when the answer carries no
    role slug and the plan's value is unknown or a known empty string,
    [Update] keeps that value where the merge rule, and [Create] and
    [Read] on the same values, store null. *)
Theorem C1_role_slug_merge_create_read_update :
  forall (env : Env) (c : Client)
         (plan state : OrganizationMembershipResourceModel)
         (n n' : Net env) (m : OrganizationMembership),
    (CreateOrganizationMembership env c
       (OrganizationMembershipResource_createReq plan) n = (Val (inr m), n') ->
     exists st,
       OrganizationMembershipResource_Create env c plan n
       = (Val (done (StateSet st)), n')
       /\ Mem_RoleSlug st
          = threeStateMerge (Membership_RoleSlug m) (Mem_RoleSlug plan))
    /\ (GetOrganizationMembership env c (types.ValueString (Mem_ID state)) n
        = (Val (inr m), n') ->
        (exists st,
           OrganizationMembershipResource_Read env c state n
           = (Val (done (StateSet st)), n')
           /\ Mem_RoleSlug st
              = threeStateMerge (Membership_RoleSlug m) (Mem_RoleSlug state))
        /\ (exists st,
              OrganizationMembershipResource_Update env c plan state n
              = (Val (done (StateSet st)), n')
              /\ Mem_RoleSlug st
                 = (if negb (String.eqb (Membership_RoleSlug m) "")
                    then types.StringValue (Membership_RoleSlug m)
                    else Mem_RoleSlug plan)
              /\ (Membership_RoleSlug m = "" ->
                  Mem_RoleSlug plan = types.StringUnknown
                  \/ Mem_RoleSlug plan = types.StringValue "" ->
                  Mem_RoleSlug st = Mem_RoleSlug plan
                  /\ Mem_RoleSlug st <> types.StringNull
                  /\ threeStateMerge (Membership_RoleSlug m) (Mem_RoleSlug plan)
                     = types.StringNull))).
Proof.
  intros env c plan state n n' m. split; [|intros Hget; split].
  - intros Hcreate.
    unfold OrganizationMembershipResource_Create, bind. rewrite Hcreate.
    eexists. split; [reflexivity|]. simpl. apply merge_as_coded.
  - unfold OrganizationMembershipResource_Read, bind. rewrite Hget.
    eexists. split; [reflexivity|]. simpl. apply merge_as_coded.
  - unfold OrganizationMembershipResource_Update, bind. rewrite Hget.
    eexists. split; [reflexivity|]. simpl. split; [reflexivity|].
    intros Hempty Hplan. rewrite Hempty. simpl.
    destruct Hplan as [-> | ->]; repeat split; discriminate.
Qed.

(** The API answers without a role slug, and the role slug held locally
    is the known empty string: [Create] and [Read] persist null, [Update]
    persists the empty string. *)
Lemma C1_witness :
  let held :=
    {| Mem_ID := types.StringValue "om_1";
       Mem_UserID := types.StringValue "user_1";
       Mem_OrganizationID := types.StringValue "org_1";
       Mem_RoleSlug := types.StringValue "";
       Mem_Status := types.StringValue "active";
       Mem_CreatedAt := types.StringValue "0";
       Mem_UpdatedAt := types.StringValue "0" |} in
  let n := sim.start [sim.reply 200 "" ""] in
  (exists st n',
     OrganizationMembershipResource_Create sim.env sim.theClient held n
     = (Val (done (StateSet st)), n')
     /\ Mem_RoleSlug st = types.StringNull)
  /\ (exists st n',
        OrganizationMembershipResource_Read sim.env sim.theClient held n
        = (Val (done (StateSet st)), n')
        /\ Mem_RoleSlug st = types.StringNull)
  /\ (exists st n',
        OrganizationMembershipResource_Update sim.env sim.theClient held held n
        = (Val (done (StateSet st)), n')
        /\ Mem_RoleSlug st = types.StringValue ""
        /\ Mem_RoleSlug st <> types.StringNull).
Proof.
  intros held n.
  pose proof (C1_role_slug_merge_create_read_update sim.env sim.theClient
                held held n) as H.
  split; [|split].
  - destruct (proj1 (H _ _) eq_refl) as (st & Hrun & Hslug).
    exists st. eexists. split; [exact Hrun | exact Hslug].
  - destruct (proj1 (proj2 (H _ _) eq_refl)) as (st & Hrun & Hslug).
    exists st. eexists. split; [exact Hrun | exact Hslug].
  - destruct (proj2 (proj2 (H _ _) eq_refl)) as (st & Hrun & _ & Hkeep).
    destruct (Hkeep eq_refl (or_intror eq_refl)) as (Hsame & Hne & _).
    exists st. eexists. split; [exact Hrun|]. split; [exact Hsame | exact Hne].
Defined.

(** C2, as the code has it.  The update payload of a user carries
    [email_verified] exactly when the planned flag differs from the prior
    state's: when the two are equal (as when only [first_name] changes)
    the field is nil, the marshalled object has no [email_verified] key,
    and this is the body of every request the update puts on the wire. *)
Theorem C2_user_update_email_verified_only_when_changed :
  forall (env : Env) (c : Client) (plan state : UserResourceModel)
         (n : Net env),
    UserUpdate_EmailVerified (UserResource_updateReq plan state)
    = (if types.BoolEqual (Usr_EmailVerified plan) (Usr_EmailVerified state)
       then None
       else Some (types.ValueBool (Usr_EmailVerified plan)))
    /\ hasKey "email_verified"
         (UserUpdateRequest_MarshalJSON (UserResource_updateReq plan state))
       = negb (types.BoolEqual (Usr_EmailVerified plan) (Usr_EmailVerified state))
    /\ exists xs,
         wire (snd (UserResource_Update env c plan state n)) = (wire n ++ xs)%list
         /\ Forall
              (fun x =>
                 fst x = requestOf c http_MethodPut
                           ("/user_management/users/"
                            ++ types.ValueString (Usr_ID state))
                           (Some (UserUpdateBody
                                    (UserResource_updateReq plan state)))) xs
         /\ (marshals env
               (Some (UserUpdateBody (UserResource_updateReq plan state))) ->
             http_NewRequest env http_MethodPut
               (baseURL c ++ "/user_management/users/"
                ++ types.ValueString (Usr_ID state)) = None ->
             xs <> []).
Proof.
  intros env c plan state n. split; [|split].
  - unfold UserResource_updateReq. simpl.
    destruct (types.BoolEqual _ _); reflexivity.
  - unfold UserUpdateRequest_MarshalJSON.
    rewrite !hasKey_app, !hasKey_omitemptyString by reflexivity.
    unfold UserResource_updateReq. simpl.
    destruct (types.BoolEqual _ _); reflexivity.
  - rewrite onwire.UserResource_Update_net. apply onwire.doRequest_sends.
Qed.

(** Only [first_name] changes, [email_verified] stays [true]: the one PUT
    on the wire carries [first_name] and nothing else. *)
Lemma C2_witness :
  let state :=
    {| Usr_ID := types.StringValue "user_1";
       Usr_Email := types.StringValue "jane@example.com";
       Usr_EmailVerified := types.BoolValue true;
       Usr_FirstName := types.StringValue "Jane";
       Usr_LastName := types.StringValue "Doe";
       Usr_Password := types.StringNull;
       Usr_PasswordHash := types.StringNull;
       Usr_ProfilePictureURL := types.StringNull;
       Usr_CreatedAt := types.StringValue "0";
       Usr_UpdatedAt := types.StringValue "0" |} in
  let plan :=
    {| Usr_ID := types.StringValue "user_1";
       Usr_Email := types.StringValue "jane@example.com";
       Usr_EmailVerified := types.BoolValue true;
       Usr_FirstName := types.StringValue "Janet";
       Usr_LastName := types.StringValue "Doe";
       Usr_Password := types.StringNull;
       Usr_PasswordHash := types.StringNull;
       Usr_ProfilePictureURL := types.StringNull;
       Usr_CreatedAt := types.StringValue "0";
       Usr_UpdatedAt := types.StringUnknown |} in
  UserUpdateRequest_MarshalJSON (UserResource_updateReq plan state)
  = [("first_name", JString "Janet")]
  /\ hasKey "email_verified"
       (UserUpdateRequest_MarshalJSON (UserResource_updateReq plan state))
     = false
  /\ map fst
       (wire (snd (UserResource_Update sim.env sim.theClient plan state
                     (sim.start [sim.reply 200 "" "jane@example.com"]))))
     = [requestOf sim.theClient http_MethodPut "/user_management/users/user_1"
          (Some (UserUpdateBody (UserResource_updateReq plan state)))].
Proof.
  intros state plan.
  split; [reflexivity|].
  split.
  - exact (proj1 (proj2 (C2_user_update_email_verified_only_when_changed
                           sim.env sim.theClient plan state
                           (sim.start [sim.reply 200 "" "jane@example.com"])))).
  - reflexivity.
Defined.

End survival.

(* ------------------------------------------------------------------ *)
(** ** Properties of the registry and of the write paths *)

Module writes.

Import client.
Import provider.
Import spec.

(** C5, as the code has it.  The provider's registry still holds the
    connection and the directory resources, and their handlers issue
    writes: creating a connection POSTs to [/connections], updating one
    PUTs to [/connections/{id}], deleting one sends DELETE to
    [/connections/{id}], and creating a directory POSTs to
    [/directories]; each of these requests reaches the wire whenever the
    body marshals and the request can be built. *)
Theorem C5_connection_and_directory_writes_enabled :
  forall (env : Env) (c : Client) (n : Net env),
    In ConnectionResource Resources
    /\ In DirectoryResource Resources
    /\ Metadata ConnectionResource "workos" = "workos_connection"
    /\ Metadata DirectoryResource "workos" = "workos_directory"
    /\ (forall plan : ConnectionResourceModel,
          exists body xs,
            wire (snd (ConnectionResource_Create env c plan n)) = (wire n ++ xs)%list
            /\ Forall (fun x => fst x = requestOf c http_MethodPost "/connections"
                                         (Some (ConnectionCreateBody body))) xs
            /\ (marshals env (Some (ConnectionCreateBody body)) ->
                http_NewRequest env http_MethodPost (baseURL c ++ "/connections")
                = None ->
                xs <> []))
    /\ (forall plan state : ConnectionResourceModel,
          exists body xs,
            wire (snd (ConnectionResource_Update env c plan state n))
            = (wire n ++ xs)%list
            /\ Forall (fun x => fst x = requestOf c http_MethodPut
                                         ("/connections/"
                                          ++ types.ValueString (Con_ID state))
                                         (Some (ConnectionUpdateBody body))) xs
            /\ (marshals env (Some (ConnectionUpdateBody body)) ->
                http_NewRequest env http_MethodPut
                  (baseURL c ++ "/connections/"
                   ++ types.ValueString (Con_ID state)) = None ->
                xs <> []))
    /\ (forall state : ConnectionResourceModel,
          exists xs,
            wire (snd (ConnectionResource_Delete env c state n))
            = (wire n ++ xs)%list
            /\ Forall (fun x => fst x = requestOf c http_MethodDelete
                                         ("/connections/"
                                          ++ types.ValueString (Con_ID state))
                                         None) xs
            /\ (http_NewRequest env http_MethodDelete
                  (baseURL c ++ "/connections/"
                   ++ types.ValueString (Con_ID state)) = None ->
                xs <> []))
    /\ (forall plan : DirectoryResourceModel,
          exists body xs,
            wire (snd (DirectoryResource_Create env c plan n)) = (wire n ++ xs)%list
            /\ Forall (fun x => fst x = requestOf c http_MethodPost "/directories"
                                         (Some (DirectoryCreateBody body))) xs
            /\ (marshals env (Some (DirectoryCreateBody body)) ->
                http_NewRequest env http_MethodPost (baseURL c ++ "/directories")
                = None ->
                xs <> [])).
Proof.
  intros env c n.
  split; [simpl; tauto|]. split; [simpl; tauto|].
  split; [reflexivity|]. split; [reflexivity|].
  split; [|split; [|split]].
  - intros plan. eexists. rewrite onwire.ConnectionResource_Create_net.
    apply onwire.doRequest_sends.
  - intros plan state. eexists. rewrite onwire.ConnectionResource_Update_net.
    apply onwire.doRequest_sends.
  - intros state. rewrite onwire.ConnectionResource_Delete_net.
    destruct (onwire.doRequest_sends env c http_MethodDelete
                ("/connections/" ++ types.ValueString (Con_ID state)) None n)
      as (xs & Hw & Hall & Hne).
    exists xs. split; [exact Hw|]. split; [exact Hall|].
    intros Hnew. apply Hne; [exact I | exact Hnew].
  - intros plan. eexists. rewrite onwire.DirectoryResource_Create_net.
    apply onwire.doRequest_sends.
Qed.

(** A [workos_connection] is created: one POST to [/connections]. *)
Lemma C5_witness :
  let plan :=
    {| Con_ID := types.StringUnknown;
       Con_OrganizationID := types.StringValue "org_1";
       Con_ConnectionType := types.StringValue "OktaSAML";
       Con_Name := types.StringValue "Okta";
       Con_State := types.StringUnknown; Con_Status := types.StringUnknown;
       Con_CreatedAt := types.StringUnknown;
       Con_UpdatedAt := types.StringUnknown |} in
  let r := ConnectionResource_Create sim.env sim.theClient plan
             (sim.start [sim.reply 201 "" "conn_1"]) in
  In ConnectionResource Resources
  /\ succeeded (fst r) = true
  /\ map fst (wire (snd r))
     = [requestOf sim.theClient http_MethodPost "/connections"
          (Some (ConnectionCreateBody
             {| ConnectionCreate_OrganizationID := "org_1";
                ConnectionCreate_ConnectionType := "OktaSAML";
                ConnectionCreate_Name := "Okta" |}))].
Proof.
  intros plan r.
  split.
  - exact (proj1 (C5_connection_and_directory_writes_enabled
                    sim.env sim.theClient (sim.start []))).
  - split; reflexivity.
Defined.

(** C7, as the code has it.  The slug [Create] transmits for an
    organization role is the configured slug, unchanged: every request
    the handler puts on the wire is a POST to the roles of the
    organization whose body holds exactly the string value of the plan's
    slug, so the body starts with [org-] exactly when the configured
    slug does. *)
Theorem C7_role_create_sends_configured_slug :
  forall (env : Env) (c : Client) (plan : OrganizationRoleResourceModel)
         (n : Net env),
    RoleCreate_Slug (OrganizationRoleResource_createReq plan)
    = types.ValueString (Rol_Slug plan)
    /\ strings_HasPrefix
         (RoleCreate_Slug (OrganizationRoleResource_createReq plan)) "org-"
       = strings_HasPrefix (types.ValueString (Rol_Slug plan)) "org-"
    /\ exists xs,
         wire (snd (OrganizationRoleResource_Create env c plan n))
         = (wire n ++ xs)%list
         /\ Forall
              (fun x =>
                 fst x = requestOf c http_MethodPost
                           ("/authorization/organizations/"
                            ++ types.ValueString (Rol_OrganizationID plan)
                            ++ "/roles")
                           (Some (RoleCreateBody
                                    (OrganizationRoleResource_createReq plan))))
              xs
         /\ (marshals env
               (Some (RoleCreateBody (OrganizationRoleResource_createReq plan))) ->
             http_NewRequest env http_MethodPost
               (baseURL c ++ "/authorization/organizations/"
                ++ types.ValueString (Rol_OrganizationID plan) ++ "/roles")
             = None ->
             xs <> []).
Proof.
  intros env c plan n. split; [reflexivity|]. split; [reflexivity|].
  rewrite onwire.OrganizationRoleResource_Create_net.
  apply onwire.doRequest_sends.
Qed.

(** The slug [org-billing-admin] goes out as configured. *)
Lemma C7_witness :
  let plan :=
    {| Rol_ID := types.StringUnknown;
       Rol_OrganizationID := types.StringValue "org_123";
       Rol_Slug := types.StringValue "org-billing-admin";
       Rol_Name := types.StringValue "Billing Admin";
       Rol_Description := types.StringUnknown;
       Rol_Type := types.StringUnknown;
       Rol_Permissions := types.ListUnknown;
       Rol_CreatedAt := types.StringUnknown;
       Rol_UpdatedAt := types.StringUnknown |} in
  RoleCreate_Slug (OrganizationRoleResource_createReq plan) = "org-billing-admin"
  /\ map fst
       (wire (snd (OrganizationRoleResource_Create sim.env sim.theClient plan
                     (sim.start [sim.reply 201 "" "org-billing-admin"]))))
     = [requestOf sim.theClient http_MethodPost
          "/authorization/organizations/org_123/roles"
          (Some (RoleCreateBody
             {| RoleCreate_Slug := "org-billing-admin";
                RoleCreate_Name := "Billing Admin";
                RoleCreate_Description := "" |}))].
Proof.
  intros plan. split.
  - exact (proj1 (C7_role_create_sends_configured_slug sim.env sim.theClient
                    plan (sim.start []))).
  - reflexivity.
Defined.

(** C7 as stated fails: a role configured with the slug [billing-admin]
    is created with a request whose slug is [billing-admin], without the
    prefix [org-], and the handler reports success. *)
Lemma C7_counterexample_unprefixed_slug :
  let plan :=
    {| Rol_ID := types.StringUnknown;
       Rol_OrganizationID := types.StringValue "org_123";
       Rol_Slug := types.StringValue "billing-admin";
       Rol_Name := types.StringValue "Billing Admin";
       Rol_Description := types.StringUnknown;
       Rol_Type := types.StringUnknown;
       Rol_Permissions := types.ListUnknown;
       Rol_CreatedAt := types.StringUnknown;
       Rol_UpdatedAt := types.StringUnknown |} in
  let r := OrganizationRoleResource_Create sim.env sim.theClient plan
             (sim.start [sim.reply 201 "" "billing-admin"]) in
  map (fun x => req_Body (fst x)) (wire (snd r))
  = [Some (RoleCreateBody
             {| RoleCreate_Slug := "billing-admin";
                RoleCreate_Name := "Billing Admin";
                RoleCreate_Description := "" |})]
  /\ strings_HasPrefix "billing-admin" "org-" = false
  /\ succeeded (fst r) = true.
Proof. repeat split. Qed.

End writes.

(* ------------------------------------------------------------------ *)
(** ** Further properties of the error taxonomy *)

Module kinds.

Import client.
Import spec.

(** The kind of an API error is read off its status code alone, through
    any number of wrapping layers: 404 is not-found, 401 unauthorized,
    403 forbidden, 400 bad-request, 409 conflict, 429 rate-limited, and
    every status from 500 on internal-server. *)
Theorem kind_is_decided_by_status :
  forall (e : APIError) (msgs : list string),
    IsNotFound (wraps msgs (apiError e)) = (StatusCode e =? 404)
    /\ IsUnauthorized (wraps msgs (apiError e)) = (StatusCode e =? 401)
    /\ IsForbidden (wraps msgs (apiError e)) = (StatusCode e =? 403)
    /\ IsBadRequest (wraps msgs (apiError e)) = (StatusCode e =? 400)
    /\ IsConflict (wraps msgs (apiError e)) = (StatusCode e =? 409)
    /\ IsRateLimited (wraps msgs (apiError e)) = (StatusCode e =? 429)
    /\ IsInternalServerError (wraps msgs (apiError e)) = (500 <=? StatusCode e).
Proof.
  intros e msgs.
  unfold IsNotFound, IsUnauthorized, IsForbidden, IsBadRequest, IsConflict,
    IsRateLimited, IsInternalServerError.
  rewrite !taxonomy.errors_Is_wraps, !taxonomy.errors_Is_apiError.
  unfold APIError_Unwrap, http_StatusNotFound, http_StatusUnauthorized,
    http_StatusForbidden, http_StatusBadRequest, http_StatusConflict,
    http_StatusTooManyRequests.
  destruct (Z.eqb_spec (StatusCode e) 404) as [->|H404];
    [repeat split; reflexivity|].
  destruct (Z.eqb_spec (StatusCode e) 401) as [->|H401];
    [repeat split; reflexivity|].
  destruct (Z.eqb_spec (StatusCode e) 403) as [->|H403];
    [repeat split; reflexivity|].
  destruct (Z.eqb_spec (StatusCode e) 400) as [->|H400];
    [repeat split; reflexivity|].
  destruct (Z.eqb_spec (StatusCode e) 409) as [->|H409];
    [repeat split; reflexivity|].
  destruct (Z.eqb_spec (StatusCode e) 429) as [->|H429];
    [repeat split; reflexivity|].
  destruct (500 <=? StatusCode e); repeat split; reflexivity.
Qed.

(** Every error answers [errors.Is] like one fixed leaf of its chain. *)
Lemma errors_Is_one_leaf (err : error) :
  exists leaf, forall target, errors_Is err target = sameError leaf target.
Proof.
  induction err as [| | | | | | |s|msg inner IH|e].
  1-8: match goal with
       | |- exists leaf, forall target, errors_Is ?e target = _ => exists e
       end; intros target; unfold errors_Is; simpl;
       first [apply orb_false_r | reflexivity].
  - destruct IH as [leaf Hleaf]. exists leaf. intros target.
    rewrite taxonomy.errors_Is_wrapError. apply Hleaf.
  - destruct (APIError_Unwrap e) as [sentinel|] eqn:Hu.
    + exists sentinel. intros target.
      rewrite taxonomy.errors_Is_apiError, Hu. reflexivity.
    + exists (errorString ""). intros target.
      rewrite taxonomy.errors_Is_apiError, Hu. reflexivity.
Qed.

(** No error is of two kinds: of the seven kind predicates at most one
    holds of any error value, whatever its chain. *)
Theorem kinds_are_exclusive :
  forall err : error,
    (length (filter (fun b : bool => b)
               [IsNotFound err; IsUnauthorized err; IsForbidden err;
                IsBadRequest err; IsConflict err; IsRateLimited err;
                IsInternalServerError err]) <= 1)%nat.
Proof.
  intros err. destruct (errors_Is_one_leaf err) as [leaf Hleaf].
  unfold IsNotFound, IsUnauthorized, IsForbidden, IsBadRequest, IsConflict,
    IsRateLimited, IsInternalServerError.
  rewrite !Hleaf. destruct leaf; simpl; lia.
Qed.

Lemma defaultMessage_nonempty (statusCode : Z) : defaultMessage statusCode <> "".
Proof.
  unfold defaultMessage.
  repeat match goal with
         | |- context [if ?b then _ else _] => destruct b; [discriminate|]
         end.
  simpl. discriminate.
Qed.

(** An error parsed from a response always carries a message, whatever
    the status and the body: with an empty body it is the default message
    of the status (and the status, code and details are those the error
    was created with); when the body does not decode it is the raw body;
    when the body decodes to a message it is that message. *)
Theorem parseAPIError_always_has_message :
  forall (unmarshal : string -> APIError -> APIError * bool)
         (statusCode : Z) (body : string),
    Message (parseAPIError unmarshal statusCode body) <> ""
    /\ (body = "" ->
        parseAPIError unmarshal statusCode body
        = {| StatusCode := statusCode; Code := "";
             Message := defaultMessage statusCode; Errors := [] |})
    /\ (forall d,
          body <> "" ->
          unmarshal body {| StatusCode := statusCode; Code := "";
                            Message := ""; Errors := [] |} = (d, false) ->
          parseAPIError unmarshal statusCode body = withMessage d body)
    /\ (forall d,
          body <> "" ->
          unmarshal body {| StatusCode := statusCode; Code := "";
                            Message := ""; Errors := [] |} = (d, true) ->
          Message d <> "" ->
          parseAPIError unmarshal statusCode body = d).
Proof.
  intros unmarshal statusCode body.
  assert (Hlen : body <> "" -> (0 <? len body) = true).
  { intros Hne. destruct body; [contradiction|].
    unfold len. simpl. reflexivity. }
  split; [|split; [|split]].
  - unfold parseAPIError.
    destruct (0 <? len body) eqn:H0.
    + destruct (unmarshal body _) as [d ok]. destruct ok.
      * destruct (String.eqb_spec (Message d) ""); simpl;
          [apply defaultMessage_nonempty | assumption].
      * simpl. destruct (String.eqb_spec body "") as [->|Hne]; simpl;
          [discriminate | assumption].
    + simpl. apply defaultMessage_nonempty.
  - intros ->. reflexivity.
  - intros d Hne Hdec. unfold parseAPIError. rewrite (Hlen Hne), Hdec.
    simpl. destruct (String.eqb_spec body ""); [contradiction | reflexivity].
  - intros d Hne Hdec Hmsg. unfold parseAPIError. rewrite (Hlen Hne), Hdec.
    destruct (String.eqb_spec (Message d) ""); [contradiction | reflexivity].
Qed.

(** A body that is not JSON, a body that decodes, and no body at all. *)
Lemma parseAPIError_witness :
  parseAPIError sim.Unmarshal_APIError 503 ""
  = {| StatusCode := 503; Code := "";
       Message := "WorkOS service encountered an internal error";
       Errors := [] |}
  /\ parseAPIError sim.Unmarshal_APIError 502 "Bad Gateway"
     = {| StatusCode := 502; Code := ""; Message := "Bad Gateway";
          Errors := [] |}.
Proof.
  split.
  - exact (proj1 (proj2 (parseAPIError_always_has_message
                           sim.Unmarshal_APIError 503 "")) eq_refl).
  - refine (proj1 (proj2 (proj2 (parseAPIError_always_has_message
                                   sim.Unmarshal_APIError 502 "Bad Gateway")))
              _ _ eq_refl).
    discriminate.
Defined.

End kinds.

(* ------------------------------------------------------------------ *)
(** ** Further properties of the transport layer *)

Module transport.

Import client.
Import spec.

(** Every request of a [doRequest] carries the bearer credential, the
    JSON content type and the user agent, and goes to the base URL
    followed by the path with the method asked for. *)
Theorem every_request_is_signed :
  forall (env : Env) (c : Client) (method path : string)
         (body : option Payload) (n : Net env),
    exists xs,
      wire (snd (doRequest env c method path body n)) = (wire n ++ xs)%list
      /\ Forall
           (fun x =>
              Header_Get (req_Header (fst x)) "Authorization"
              = "Bearer " ++ apiKey c
              /\ Header_Get (req_Header (fst x)) "Content-Type"
                 = "application/json"
              /\ Header_Get (req_Header (fst x)) "User-Agent"
                 = "terraform-provider-workos"
              /\ req_URL (fst x) = baseURL c ++ path
              /\ req_Method (fst x) = method
              /\ req_Body (fst x) = body) xs.
Proof.
  intros env c method path body n.
  destruct (onwire.doRequest_sends env c method path body n)
    as (xs & Hw & Hall & _).
  exists xs. split; [exact Hw|].
  eapply Forall_impl; [|exact Hall].
  intros x Hx. rewrite Hx. repeat split.
Qed.

(** When the body does not marshal, or the request cannot be built,
    [doRequest] returns the wrapped error without any round trip. *)
Theorem no_round_trip_without_a_request :
  forall (env : Env) (c : Client) (method path : string)
         (body : option Payload) (n : Net env),
    (forall payload err,
        body = Some payload ->
        json_Marshal env payload = Some err ->
        doRequest env c method path body n
        = (Val (inl (wrapError "failed to marshal request body: " err)), n))
    /\ (forall err,
          marshals env body ->
          http_NewRequest env method (baseURL c ++ path) = Some err ->
          doRequest env c method path body n
          = (Val (inl (wrapError "failed to create request: " err)), n)).
Proof.
  intros env c method path body n. split.
  - intros payload err -> Hm. unfold doRequest. rewrite Hm. reflexivity.
  - intros err Hm Hnew. unfold doRequest.
    change (Z.to_nat (MaxRetries + 1)) with 4%nat.
    rewrite retry.doRequestLoop_S, Hnew.
    destruct body as [payload|]; [|reflexivity].
    simpl in Hm. rewrite Hm. reflexivity.
Qed.

(** A base URL without a scheme: the request is refused before anything
    is sent. *)
Lemma no_round_trip_witness :
  doRequest sim.strict
    {| apiKey := "sk_test"; clientID := ""; baseURL := "://nowhere" |}
    http_MethodGet "/organizations/org_1" None
    ({| world := {| sim.replies := [sim.reply 200 "" ""]; sim.dones := [];
                    sim.randoms := [] |} : World sim.strict;
        wire := [] |})
  = (Val (inl (wrapError "failed to create request: "
                 (errorString "parse: missing protocol scheme"))),
     {| world := {| sim.replies := [sim.reply 200 "" ""]; sim.dones := [];
                    sim.randoms := [] |} : World sim.strict;
        wire := [] |}).
Proof.
  exact (proj2 (no_round_trip_without_a_request sim.strict
                  {| apiKey := "sk_test"; clientID := ""; baseURL := "://nowhere" |}
                  http_MethodGet "/organizations/org_1" None
                  ({| world := {| sim.replies := [sim.reply 200 "" ""];
                                  sim.dones := []; sim.randoms := [] |}
                              : World sim.strict;
                      wire := [] |}))
           _ I eq_refl).
Defined.

(** A failure of the round trip itself is returned, wrapped, by the
    attempt that met it: it is not retried. *)
Theorem transport_error_is_not_retried :
  forall (env : Env) (c : Client) (method path : string)
         (body : option Payload) (n : Net env) (w : World env) (err : error),
    marshals env body ->
    http_NewRequest env method (baseURL c ++ path) = None ->
    http_Do env (world n) (requestOf c method path body) = (w, inl err) ->
    doRequest env c method path body n
    = (Val (inl (wrapError "request failed: " err)),
       {| world := w;
          wire := wire n ++ [(requestOf c method path body, inl err)] |}).
Proof.
  intros env c method path body n w err Hm Hnew Hdo.
  assert (Hloop : doRequestLoop env c method path body 4 0 n
    = (Val (inl (wrapError "request failed: " err)),
       {| world := w;
          wire := wire n ++ [(requestOf c method path body, inl err)] |})).
  { rewrite retry.doRequestLoop_S, Hnew. unfold bind, httpClient_Do.
    rewrite Hdo. reflexivity. }
  unfold doRequest. change (Z.to_nat (MaxRetries + 1)) with 4%nat.
  destruct body as [payload|]; [|exact Hloop].
  simpl in Hm. rewrite Hm. exact Hloop.
Qed.

(** With an empty script the scripted remote refuses the connection. *)
Lemma transport_error_witness :
  doRequest sim.env sim.theClient http_MethodGet "/organizations/org_1" None
    (sim.start [])
  = (Val (inl (wrapError "request failed: " (errorString "connection refused"))),
     {| world := world (sim.start []);
        wire := [(requestOf sim.theClient http_MethodGet "/organizations/org_1"
                    None,
                  inl (errorString "connection refused"))] |}).
Proof.
  exact (transport_error_is_not_retried sim.env sim.theClient http_MethodGet
           "/organizations/org_1" None (sim.start []) _ _ I eq_refl eq_refl).
Defined.

(** When the context is done while [doRequest] waits after a 429, the
    wait is abandoned: the error of the context, [context.Canceled] or,
    when its deadline ended it, [context.DeadlineExceeded], is returned
    after that one round trip, and it is of none of the error kinds. *)
Theorem cancellation_ends_the_wait :
  forall (env : Env) (c : Client) (method path : string)
         (body : option Payload) (n n1 : Net env) (w1 w2 : World env)
         (resp : Response) (delay : Z),
    marshals env body ->
    http_NewRequest env method (baseURL c ++ path) = None ->
    http_Do env (world n) (requestOf c method path body) = (w1, inr resp) ->
    resp_StatusCode resp = http_StatusTooManyRequests ->
    calculateRetryDelay env resp 0
      {| world := w1;
         wire := wire n ++ [(requestOf c method path body, inr resp)] |}
    = (Val delay, n1) ->
    ctx_Done env (world n1) delay = (w2, true) ->
    doRequest env c method path body n
    = (Val (inl (contextErr_error (ctx_Err env w2))),
       {| world := w2;
          wire := wire n ++ [(requestOf c method path body, inr resp)] |})
    /\ (contextErr_error (ctx_Err env w2) = context_Canceled
        \/ contextErr_error (ctx_Err env w2) = context_DeadlineExceeded)
    /\ IsNotFound (contextErr_error (ctx_Err env w2)) = false
    /\ IsUnauthorized (contextErr_error (ctx_Err env w2)) = false
    /\ IsForbidden (contextErr_error (ctx_Err env w2)) = false
    /\ IsBadRequest (contextErr_error (ctx_Err env w2)) = false
    /\ IsConflict (contextErr_error (ctx_Err env w2)) = false
    /\ IsRateLimited (contextErr_error (ctx_Err env w2)) = false
    /\ IsInternalServerError (contextErr_error (ctx_Err env w2)) = false.
Proof.
  intros env c method path body n n1 w1 w2 resp delay
    Hm Hnew Hdo H429 Hdelay Hdone.
  split; [|destruct (ctx_Err env w2); repeat split;
            first [left; reflexivity | right; reflexivity | reflexivity]].
  destruct (retry.calculateRetryDelay_total env resp 0
              {| world := w1;
                 wire := wire n ++ [(requestOf c method path body, inr resp)] |})
    as (d & n1' & Hd & Hw1); [lia|].
  rewrite Hdelay in Hd. inversion Hd; subst d n1'.
  assert (Hloop : doRequestLoop env c method path body 4 0 n
    = (Val (inl (contextErr_error (ctx_Err env w2))),
       {| world := w2;
          wire := wire n ++ [(requestOf c method path body, inr resp)] |})).
  { rewrite retry.doRequestLoop_S, Hnew. unfold bind at 1, httpClient_Do.
    rewrite Hdo, H429. simpl.
    unfold bind at 1. rewrite Hdelay.
    unfold bind, selectDone, ctxErr. rewrite Hdone, Hw1. reflexivity. }
  unfold doRequest. change (Z.to_nat (MaxRetries + 1)) with 4%nat.
  destruct body as [payload|]; [|exact Hloop].
  simpl in Hm. rewrite Hm. exact Hloop.
Qed.

(** A 429 with [Retry-After: 60], and a context that ends during the
    wait: once cancelled, once by its deadline. *)
Lemma cancellation_witness :
  doRequest sim.env sim.theClient http_MethodGet "/organizations/org_1" None
    (sim.startWith [sim.reply 429 "60" ""; sim.reply 200 "" ""] [true])
  = (Val (inl context_Canceled),
     {| world := {| sim.replies := [sim.reply 200 "" ""]; sim.dones := [];
                    sim.randoms := [] |} : World sim.env;
        wire := [(requestOf sim.theClient http_MethodGet "/organizations/org_1"
                    None,
                  sim.reply 429 "60" "")] |})
  /\ doRequest sim.timed sim.theClient http_MethodGet "/organizations/org_1" None
       ({| world := {| sim.replies := [sim.reply 429 "60" ""; sim.reply 200 "" ""];
                       sim.dones := [true]; sim.randoms := [] |}
                    : World sim.timed;
           wire := [] |})
     = (Val (inl context_DeadlineExceeded),
        {| world := {| sim.replies := [sim.reply 200 "" ""]; sim.dones := [];
                       sim.randoms := [] |} : World sim.timed;
           wire := [(requestOf sim.theClient http_MethodGet
                       "/organizations/org_1" None,
                     sim.reply 429 "60" "")] |}).
Proof.
  split.
  - exact (proj1 (cancellation_ends_the_wait sim.env sim.theClient
                    http_MethodGet "/organizations/org_1" None
                    (sim.startWith [sim.reply 429 "60" ""; sim.reply 200 "" ""]
                       [true])
                    _ _ _ _ _ I eq_refl eq_refl eq_refl eq_refl eq_refl)).
  - exact (proj1 (cancellation_ends_the_wait sim.timed sim.theClient
                    http_MethodGet "/organizations/org_1" None
                    ({| world := {| sim.replies := [sim.reply 429 "60" "";
                                                    sim.reply 200 "" ""];
                                    sim.dones := [true]; sim.randoms := [] |}
                                 : World sim.timed;
                        wire := [] |})
                    _ _ _ _ _ I eq_refl eq_refl eq_refl eq_refl eq_refl)).
Defined.

(** A 429 followed, after the wait, by an answer other than 429: that
    second answer is returned after exactly two round trips. *)
Theorem one_retry_then_the_answer :
  forall (env : Env) (c : Client) (method path : string)
         (body : option Payload) (n n1 : Net env) (w1 w2 w3 : World env)
         (resp1 resp2 : Response) (delay : Z),
    marshals env body ->
    http_NewRequest env method (baseURL c ++ path) = None ->
    http_Do env (world n) (requestOf c method path body) = (w1, inr resp1) ->
    resp_StatusCode resp1 = http_StatusTooManyRequests ->
    calculateRetryDelay env resp1 0
      {| world := w1;
         wire := wire n ++ [(requestOf c method path body, inr resp1)] |}
    = (Val delay, n1) ->
    ctx_Done env (world n1) delay = (w2, false) ->
    http_Do env w2 (requestOf c method path body) = (w3, inr resp2) ->
    resp_StatusCode resp2 <> http_StatusTooManyRequests ->
    doRequest env c method path body n
    = (Val (inr resp2),
       {| world := w3;
          wire := wire n ++ [(requestOf c method path body, inr resp1);
                             (requestOf c method path body, inr resp2)] |}).
Proof.
  intros env c method path body n n1 w1 w2 w3 resp1 resp2 delay
    Hm Hnew Hdo1 H429 Hdelay Hdone Hdo2 Hne.
  destruct (retry.calculateRetryDelay_total env resp1 0
              {| world := w1;
                 wire := wire n ++ [(requestOf c method path body, inr resp1)] |})
    as (d & n1' & Hd & Hw1); [lia|].
  rewrite Hdelay in Hd. inversion Hd; subst d n1'.
  assert (Hloop : doRequestLoop env c method path body 4 0 n
    = (Val (inr resp2),
       {| world := w3;
          wire := wire n ++ [(requestOf c method path body, inr resp1);
                             (requestOf c method path body, inr resp2)] |})).
  { rewrite retry.doRequestLoop_S, Hnew. unfold bind at 1, httpClient_Do.
    rewrite Hdo1, H429.
    change (http_StatusTooManyRequests =? http_StatusTooManyRequests) with true.
    change (0 =? MaxRetries) with false. cbv beta iota zeta.
    unfold bind at 1. rewrite Hdelay.
    unfold bind at 1, selectDone. rewrite Hdone. cbv beta iota zeta.
    rewrite retry.doRequestLoop_S, Hnew. unfold bind, httpClient_Do.
    cbv beta iota zeta. simpl world. rewrite Hdo2.
    destruct (Z.eqb_spec (resp_StatusCode resp2) http_StatusTooManyRequests);
      [contradiction|].
    simpl. rewrite Hw1. simpl. rewrite <- app_assoc. reflexivity. }
  unfold doRequest. change (Z.to_nat (MaxRetries + 1)) with 4%nat.
  destruct body as [payload|]; [|exact Hloop].
  simpl in Hm. rewrite Hm. exact Hloop.
Qed.

(** A 429 with [Retry-After: 1], then a 200. *)
Lemma one_retry_witness :
  doRequest sim.env sim.theClient http_MethodGet "/organizations/org_1" None
    (sim.start [sim.reply 429 "1" ""; sim.reply 200 "" "acme.com"])
  = (Val (sim.reply 200 "" "acme.com"),
     {| world := world (sim.start []);
        wire := [(requestOf sim.theClient http_MethodGet "/organizations/org_1"
                    None, sim.reply 429 "1" "");
                 (requestOf sim.theClient http_MethodGet "/organizations/org_1"
                    None, sim.reply 200 "" "acme.com")] |}).
Proof.
  refine (one_retry_then_the_answer sim.env sim.theClient http_MethodGet
            "/organizations/org_1" None
            (sim.start [sim.reply 429 "1" ""; sim.reply 200 "" "acme.com"])
            _ _ _ _ _ _ _ I eq_refl eq_refl eq_refl eq_refl eq_refl eq_refl _).
  discriminate.
Defined.





(** What a [Get] makes of a single answer other than 429 whose body can
    be read: from status 400 on it is an API error parsed from the body;
    below 400 (a 3xx included) an empty body leaves the target at its
    zero value, a body that decodes fills it, and a body that does not
    decode is an error of no kind. *)
Theorem Get_outcomes :
  forall (T : Type) (env : Env) (c : Client) (path : string) (tg : Target T)
         (n : Net env) (w : World env) (resp : Response) (b : string),
    http_NewRequest env http_MethodGet (baseURL c ++ path) = None ->
    http_Do env (world n) (requestOf c http_MethodGet path None) = (w, inr resp) ->
    resp_StatusCode resp <> http_StatusTooManyRequests ->
    resp_Body resp = inr b ->
    exists r,
      Get env c path tg n
      = (Val r,
         {| world := w;
            wire := wire n ++ [(requestOf c http_MethodGet path None, inr resp)] |})
      /\ (400 <= resp_StatusCode resp ->
          r = inl (apiError (parseAPIError (json_Unmarshal_APIError env)
                               (resp_StatusCode resp) b)))
      /\ (resp_StatusCode resp < 400 -> b = "" -> r = inr (zero tg))
      /\ (forall v, resp_StatusCode resp < 400 -> b <> "" ->
                    json_Unmarshal tg b = inr v -> r = inr v)
      /\ (forall err, resp_StatusCode resp < 400 -> b <> "" ->
                      json_Unmarshal tg b = inl err ->
                      r = inl (wrapError "failed to unmarshal response: " err)).
Proof.
  intros T env c path tg n w resp b Hnew Hdo Hne Hb.
  eexists. split.
  - unfold Get, bind.
    rewrite (verbs.doRequest_single env c http_MethodGet path None n w resp
               I Hnew Hdo Hne).
    reflexivity.
  - assert (Hlen : b <> "" -> (0 <? len b) = true).
    { intros Hnb. destruct b; [contradiction | reflexivity]. }
    unfold parseResponse. rewrite Hb.
    destruct (Z.leb_spec 400 (resp_StatusCode resp)) as [Hge|Hlt].
    + split; [reflexivity|]. repeat split; intros; lia.
    + split; [intros; lia|]. split; [|split].
      * intros _ ->. reflexivity.
      * intros v _ Hnb Hdec. rewrite (Hlen Hnb), Hdec. reflexivity.
      * intros err _ Hnb Hdec. rewrite (Hlen Hnb), Hdec. reflexivity.
Qed.

(** A 404, a 200 without body and a 302 with a body, all on the
    organization endpoint. *)
Lemma Get_outcomes_witness :
  fst (Get sim.env sim.theClient "/organizations/org_1" (org sim.env)
         (sim.start [sim.reply 404 "" ""]))
  = Val (inl (apiError {| StatusCode := 404; Code := "";
                          Message := "The requested resource was not found";
                          Errors := [] |}))
  /\ fst (Get sim.env sim.theClient "/organizations/org_1" (org sim.env)
            (sim.start [sim.reply 200 "" ""]))
     = Val (inr zeroOrganization).
Proof.
  split.
  - destruct (Get_outcomes _ sim.env sim.theClient "/organizations/org_1"
                (org sim.env) (sim.start [sim.reply 404 "" ""]) _ _ ""
                eq_refl eq_refl) as (r & Hrun & H400 & _);
      [discriminate | reflexivity |].
    rewrite Hrun. simpl. rewrite H400; [reflexivity | simpl; lia].
  - destruct (Get_outcomes _ sim.env sim.theClient "/organizations/org_1"
                (org sim.env) (sim.start [sim.reply 200 "" ""]) _ _ ""
                eq_refl eq_refl) as (r & Hrun & _ & Hzero & _);
      [discriminate | reflexivity |].
    rewrite Hrun. simpl. rewrite Hzero; [reflexivity | simpl; lia | reflexivity].
Defined.

End transport.

(* ------------------------------------------------------------------ *)
(** ** Properties of the list and search helpers *)

Module lookups.

Import client.
Import spec.

Lemma find_first {A : Type} (f : A -> bool) (l : list A) (x : A) :
  find f l = Some x ->
  exists before after,
    l = (before ++ x :: after)%list
    /\ f x = true
    /\ Forall (fun y => f y = false) before.
Proof.
  induction l as [|y l IH]; simpl; [discriminate|].
  destruct (f y) eqn:Hy.
  - intros H. inversion H; subst. exists [], l. repeat split; [assumption | constructor].
  - intros H. destruct (IH H) as (before & after & Hl & Hx & Hall).
    exists (y :: before), after. rewrite Hl. repeat split; [assumption|].
    constructor; assumption.
Qed.

Lemma append_assoc (a b c : string) : ((a ++ b) ++ c = a ++ (b ++ c))%string.
Proof. induction a as [|ch a IH]; simpl; [reflexivity | rewrite IH; reflexivity]. Qed.

Lemma Get_net {T : Type} (env : Env) (c : Client) (path : string)
    (tg : Target T) (n : Net env) :
  snd (Get env c path tg n)
  = snd (doRequest env c http_MethodGet path None n).
Proof.
  unfold Get, bind.
  destruct (doRequest env c http_MethodGet path None n)
    as [[[err|resp]|msg] n1]; reflexivity.
Qed.

Lemma notFoundError_IsNotFound (message : string) :
  IsNotFound (notFoundError message) = true.
Proof. reflexivity. Qed.

(** When the roles of the organization can be listed,
    [GetOrganizationRoleByID] returns the first role of the list that has
    the id, and an error of the not-found kind when no role has it; it
    makes no round trip of its own. *)
Theorem GetOrganizationRoleByID_first_match :
  forall (env : Env) (ext : Ext) (c : Client) (orgID roleID : string)
         (n n' : Net env) (resp : OrganizationRoleListResponse),
    ListOrganizationRoles env ext c orgID n = (Val (inr resp), n') ->
    (exists role before after,
        GetOrganizationRoleByID env ext c orgID roleID n = (Val (inr role), n')
        /\ RoleList_Data resp = (before ++ role :: after)%list
        /\ Role_ID role = roleID
        /\ Forall (fun r => Role_ID r <> roleID) before)
    \/ (exists err,
          GetOrganizationRoleByID env ext c orgID roleID n = (Val (inl err), n')
          /\ IsNotFound err = true
          /\ Forall (fun r => Role_ID r <> roleID) (RoleList_Data resp)).
Proof.
  intros env ext c orgID roleID n n' resp Hlist.
  assert (Hrun : GetOrganizationRoleByID env ext c orgID roleID n
    = (Val (match find (fun role => String.eqb (Role_ID role) roleID)
                       (RoleList_Data resp) with
            | Some role => inr role
            | None => inl (notFoundError
                             ("no organization role found with ID: " ++ roleID))
            end), n')).
  { unfold GetOrganizationRoleByID. unfold bind at 1. rewrite Hlist.
    destruct (find _ (RoleList_Data resp)); reflexivity. }
  rewrite Hrun.
  destruct (find (fun role => String.eqb (Role_ID role) roleID)
              (RoleList_Data resp)) as [role|] eqn:Hfind.
  - left. destruct (find_first _ _ _ Hfind) as (before & after & Hl & Hid & Hall).
    exists role, before, after. split; [reflexivity|]. split; [exact Hl|].
    split; [apply String.eqb_eq; exact Hid|].
    eapply Forall_impl; [|exact Hall]. intros r Hr. simpl in Hr.
    apply String.eqb_neq. exact Hr.
  - right. eexists. split; [reflexivity|]. split; [reflexivity|].
    apply Forall_forall. intros r Hin.
    apply String.eqb_neq. exact (find_none _ _ Hfind r Hin).
Qed.

(** Three roles, the second and third sharing an id: the second is
    returned; an id that no role has is not found. *)
Lemma GetOrganizationRoleByID_witness :
  fst (GetOrganizationRoleByID sim.env sim.ext sim.theClient "org_1" "role_b"
         (sim.start [sim.reply 200 "" "role_a,role_b,role_b"]))
  = Val (inr (sim.mkRole "role_b"))
  /\ exists err,
       fst (GetOrganizationRoleByID sim.env sim.ext sim.theClient "org_1" "role_z"
              (sim.start [sim.reply 200 "" "role_a,role_b"]))
       = Val (inl err)
       /\ IsNotFound err = true.
Proof.
  split.
  - destruct (GetOrganizationRoleByID_first_match sim.env sim.ext sim.theClient
                "org_1" "role_b"
                (sim.start [sim.reply 200 "" "role_a,role_b,role_b"]) _ _ eq_refl)
      as [(role & before & after & Hrun & _) | (err & Hrun & _)];
      [reflexivity | vm_compute in Hrun; discriminate Hrun].
  - destruct (GetOrganizationRoleByID_first_match sim.env sim.ext sim.theClient
                "org_1" "role_z"
                (sim.start [sim.reply 200 "" "role_a,role_b"]) _ _ eq_refl)
      as [(role & before & after & Hrun & _) | (err & Hrun & Hnf & _)].
    + vm_compute in Hrun. discriminate Hrun.
    + exists err. rewrite Hrun. split; [reflexivity | exact Hnf].
Defined.

(** The search helpers by domain, by email and by organization and type
    turn an empty result list into an error of the not-found kind with
    status 404, and otherwise return the first entry of the list. *)
Theorem search_helpers_take_the_first_or_report_not_found :
  forall (env : Env) (ext : Ext) (c : Client) (n n' : Net env),
    (forall domain resp,
        Get env c ("/organizations?"
                   ++ Values_Encode (url_QueryEscape ext)
                        (Values_Set [] "domains" domain))
          (orgList ext) n = (Val (inr resp), n') ->
        GetOrganizationByDomain env ext c domain n
        = (Val (match OrganizationList_Data resp with
                | [] => inl (notFoundError
                               ("no organization found with domain: " ++ domain))
                | first :: _ => inr first
                end), n'))
    /\ (forall email resp,
          ListUsers env ext c email "" n = (Val (inr resp), n') ->
          GetUserByEmail env ext c email n
          = (Val (match UserList_Data resp with
                  | [] => inl (notFoundError "user not found")
                  | first :: _ => inr first
                  end), n'))
    /\ (forall organizationID connectionType resp,
          Get env c ("/connections?"
                     ++ Values_Encode (url_QueryEscape ext)
                          (Values_Set
                             (Values_Set [] "organization_id" organizationID)
                             "connection_type" connectionType))
            (connList ext) n = (Val (inr resp), n') ->
          GetConnectionByOrganizationAndType env ext c organizationID
            connectionType n
          = (Val (match ConnectionList_Data resp with
                  | [] => inl (notFoundError
                                 ("no connection found for organization "
                                  ++ organizationID ++ " with type "
                                  ++ connectionType))
                  | first :: _ => inr first
                  end), n'))
    /\ (forall message,
          IsNotFound (notFoundError message) = true
          /\ APIError_Unwrap {| StatusCode := 404; Code := "";
                                Message := message; Errors := [] |}
             = Some ErrNotFound).
Proof.
  intros env ext c n n'. split; [|split; [|split]].
  - intros domain resp Hget. unfold GetOrganizationByDomain, bind.
    rewrite Hget. destruct (OrganizationList_Data resp); reflexivity.
  - intros email resp Hlist. unfold GetUserByEmail. unfold bind at 1.
    rewrite Hlist. destruct (UserList_Data resp); reflexivity.
  - intros organizationID connectionType resp Hget.
    unfold GetConnectionByOrganizationAndType, bind.
    rewrite Hget. destruct (ConnectionList_Data resp); reflexivity.
  - intros message. split; reflexivity.
Qed.

(** A search by email that matches nothing, and one that matches two
    users. *)
Lemma search_helpers_witness :
  fst (GetUserByEmail sim.env sim.ext sim.theClient "jane@example.com"
         (sim.start [sim.reply 200 "" "-"]))
  = Val (inl (notFoundError "user not found"))
  /\ fst (GetUserByEmail sim.env sim.ext sim.theClient "jane@example.com"
            (sim.start [sim.reply 200 "" "jane,john"]))
     = Val (inr (sim.mkUser "jane")).
Proof.
  split.
  - rewrite (proj1 (proj2 (search_helpers_take_the_first_or_report_not_found
                             sim.env sim.ext sim.theClient
                             (sim.start [sim.reply 200 "" "-"]) _))
               "jane@example.com" _ eq_refl).
    reflexivity.
  - rewrite (proj1 (proj2 (search_helpers_take_the_first_or_report_not_found
                             sim.env sim.ext sim.theClient
                             (sim.start [sim.reply 200 "" "jane,john"]) _))
               "jane@example.com" _ eq_refl).
    reflexivity.
Defined.


(** The search for a connection asks for the type before the
    organization: the query is encoded in the order of the keys, not in
    the order in which they were set. *)
Theorem connection_search_query_is_sorted :
  forall (env : Env) (ext : Ext) (c : Client)
         (organizationID connectionType : string) (n : Net env),
    exists xs,
      wire (snd (GetConnectionByOrganizationAndType env ext c organizationID
                   connectionType n)) = (wire n ++ xs)%list
      /\ Forall
           (fun x =>
              req_Method (fst x) = http_MethodGet
              /\ req_URL (fst x)
                 = baseURL c ++ "/connections?"
                   ++ url_QueryEscape ext "connection_type" ++ "="
                   ++ url_QueryEscape ext connectionType ++ "&"
                   ++ url_QueryEscape ext "organization_id" ++ "="
                   ++ url_QueryEscape ext organizationID) xs.
Proof.
  intros env ext c organizationID connectionType n.
  assert (Hnet : snd (GetConnectionByOrganizationAndType env ext c
                        organizationID connectionType n)
                 = snd (Get env c
                          ("/connections?"
                           ++ Values_Encode (url_QueryEscape ext)
                                (Values_Set
                                   (Values_Set [] "organization_id" organizationID)
                                   "connection_type" connectionType))
                          (connList ext) n)).
  { unfold GetConnectionByOrganizationAndType, bind.
    destruct (Get env c _ (connList ext) n) as [[[err|resp]|msg] n1];
      try reflexivity.
    destruct (ConnectionList_Data resp); reflexivity. }
  rewrite Hnet, Get_net.
  destruct (onwire.doRequest_sends env c http_MethodGet
              ("/connections?"
               ++ Values_Encode (url_QueryEscape ext)
                    (Values_Set
                       (Values_Set [] "organization_id" organizationID)
                       "connection_type" connectionType)) None n)
    as (xs & Hw & Hall & _).
  exists xs. split; [exact Hw|].
  eapply Forall_impl; [|exact Hall].
  intros x Hx. rewrite Hx. split; [reflexivity|].
  unfold requestOf, Values_Encode. simpl.
  rewrite !append_assoc. reflexivity.
Qed.

End lookups.

(* ------------------------------------------------------------------ *)
(** ** Further properties of the reconciliation handlers *)

Module lifecycle.

Import client.
Import provider.
Import spec.

(** A resource that a read finds gone is dropped from the state without
    a diagnostic, for organizations, users, memberships and roles alike;
    any other error of the read is reported and leaves the state alone. *)
Theorem read_drops_what_is_gone :
  forall (env : Env) (c : Client) (err : error),
    (forall (state : OrganizationResourceModel) (n n' : Net env),
        GetOrganization env c (types.ValueString (Org_ID state)) n
        = (Val (inl err), n') ->
        exists r,
          OrganizationResource_Read env c state n = (Val r, n')
          /\ (IsNotFound err = true -> r = done StateRemoveResource)
          /\ (IsNotFound err = false ->
              HasError (Diagnostics r) = true /\ State r = StateUntouched))
    /\ (forall (state : UserResourceModel) (n n' : Net env),
          GetUser env c (types.ValueString (Usr_ID state)) n
          = (Val (inl err), n') ->
          exists r,
            UserResource_Read env c state n = (Val r, n')
            /\ (IsNotFound err = true -> r = done StateRemoveResource)
            /\ (IsNotFound err = false ->
                HasError (Diagnostics r) = true /\ State r = StateUntouched))
    /\ (forall (state : OrganizationMembershipResourceModel) (n n' : Net env),
          GetOrganizationMembership env c (types.ValueString (Mem_ID state)) n
          = (Val (inl err), n') ->
          exists r,
            OrganizationMembershipResource_Read env c state n = (Val r, n')
            /\ (IsNotFound err = true -> r = done StateRemoveResource)
            /\ (IsNotFound err = false ->
                HasError (Diagnostics r) = true /\ State r = StateUntouched))
    /\ (forall (state : OrganizationRoleResourceModel) (n n' : Net env),
          GetOrganizationRole env c
            (types.ValueString (Rol_OrganizationID state))
            (types.ValueString (Rol_Slug state)) n
          = (Val (inl err), n') ->
          exists r,
            OrganizationRoleResource_Read env c state n = (Val r, n')
            /\ (IsNotFound err = true -> r = done StateRemoveResource)
            /\ (IsNotFound err = false ->
                HasError (Diagnostics r) = true /\ State r = StateUntouched)).
Proof.
  intros env c err. repeat apply conj; intros state n n' Hget.
  - unfold OrganizationResource_Read, bind. rewrite Hget.
    destruct (IsNotFound err); eexists; (split; [reflexivity|]);
      split; intros H; try discriminate; try reflexivity; split; reflexivity.
  - unfold UserResource_Read, bind. rewrite Hget.
    destruct (IsNotFound err); eexists; (split; [reflexivity|]);
      split; intros H; try discriminate; try reflexivity; split; reflexivity.
  - unfold OrganizationMembershipResource_Read, bind. rewrite Hget.
    destruct (IsNotFound err); eexists; (split; [reflexivity|]);
      split; intros H; try discriminate; try reflexivity; split; reflexivity.
  - unfold OrganizationRoleResource_Read, bind. rewrite Hget.
    destruct (IsNotFound err); eexists; (split; [reflexivity|]);
      split; intros H; try discriminate; try reflexivity; split; reflexivity.
Qed.

(** An organization read that meets a 404, and one that meets a 500. *)
Lemma read_witness :
  fst (OrganizationResource_Read sim.env sim.theClient
         {| Org_ID := types.StringValue "org_1"; Org_Name := types.StringNull;
            Org_Domains := types.SetNull; Org_CreatedAt := types.StringNull;
            Org_UpdatedAt := types.StringNull |}
         (sim.start [sim.reply 404 "" ""]))
  = Val (done StateRemoveResource)
  /\ exists r,
       fst (OrganizationResource_Read sim.env sim.theClient
              {| Org_ID := types.StringValue "org_1"; Org_Name := types.StringNull;
                 Org_Domains := types.SetNull; Org_CreatedAt := types.StringNull;
                 Org_UpdatedAt := types.StringNull |}
              (sim.start [sim.reply 500 "" ""]))
       = Val r
       /\ HasError (Diagnostics r) = true
       /\ State r = StateUntouched.
Proof.
  split.
  - destruct (proj1 (read_drops_what_is_gone sim.env sim.theClient _)
                {| Org_ID := types.StringValue "org_1"; Org_Name := types.StringNull;
                   Org_Domains := types.SetNull; Org_CreatedAt := types.StringNull;
                   Org_UpdatedAt := types.StringNull |}
                (sim.start [sim.reply 404 "" ""]) _ eq_refl)
      as (r & Hrun & Hgone & _).
    rewrite Hrun. simpl. rewrite (Hgone eq_refl). reflexivity.
  - destruct (proj1 (read_drops_what_is_gone sim.env sim.theClient _)
                {| Org_ID := types.StringValue "org_1"; Org_Name := types.StringNull;
                   Org_Domains := types.SetNull; Org_CreatedAt := types.StringNull;
                   Org_UpdatedAt := types.StringNull |}
                (sim.start [sim.reply 500 "" ""]) _ eq_refl)
      as (r & Hrun & _ & Hother).
    exists r. rewrite Hrun. split; [reflexivity|]. apply Hother. reflexivity.
Defined.

(** A delete that fails with anything but a not-found error is never
    taken for a success: the handler reports an error diagnostic whose
    detail ends with the text of the error, for organizations, users,
    memberships, roles and connections alike. *)
Theorem delete_reports_other_errors :
  forall (env : Env) (c : Client) (err : error),
    IsNotFound err = false ->
    (forall (state : OrganizationResourceModel) (n n' : Net env),
        DeleteOrganization env c (types.ValueString (Org_ID state)) n
        = (Val (Some err), n') ->
        OrganizationResource_Delete env c state n
        = (Val (fail "Error Deleting Organization"
                  ("Could not delete organization, unexpected error: "
                   ++ Error err)), n'))
    /\ (forall (state : UserResourceModel) (n n' : Net env),
          DeleteUser env c (types.ValueString (Usr_ID state)) n
          = (Val (Some err), n') ->
          UserResource_Delete env c state n
          = (Val (fail "Error Deleting User"
                    ("Could not delete user, unexpected error: " ++ Error err)),
             n'))
    /\ (forall (state : OrganizationMembershipResourceModel) (n n' : Net env),
          DeleteOrganizationMembership env c (types.ValueString (Mem_ID state)) n
          = (Val (Some err), n') ->
          OrganizationMembershipResource_Delete env c state n
          = (Val (fail "Error Deleting Organization Membership"
                    ("Could not delete organization membership, unexpected error: "
                     ++ Error err)), n'))
    /\ (forall (state : OrganizationRoleResourceModel) (n n' : Net env),
          DeleteOrganizationRole env c
            (types.ValueString (Rol_OrganizationID state))
            (types.ValueString (Rol_Slug state)) n
          = (Val (Some err), n') ->
          OrganizationRoleResource_Delete env c state n
          = (Val (fail "Error Deleting Organization Role"
                    ("Could not delete organization role, unexpected error: "
                     ++ Error err)), n'))
    /\ (forall (state : ConnectionResourceModel) (n n' : Net env),
          DeleteConnection env c (types.ValueString (Con_ID state)) n
          = (Val (Some err), n') ->
          ConnectionResource_Delete env c state n
          = (Val (fail "Error Deleting Connection"
                    ("Could not delete connection, unexpected error: "
                     ++ Error err)), n'))
    /\ (forall (Model : Type) (summary detail : string),
          HasError (Diagnostics (fail (Model := Model) summary detail)) = true).
Proof.
  intros env c err Hnf. repeat apply conj.
  - intros state n n' Hdel. unfold OrganizationResource_Delete, bind.
    rewrite Hdel, Hnf. reflexivity.
  - intros state n n' Hdel. unfold UserResource_Delete, bind.
    rewrite Hdel, Hnf. reflexivity.
  - intros state n n' Hdel. unfold OrganizationMembershipResource_Delete, bind.
    rewrite Hdel, Hnf. reflexivity.
  - intros state n n' Hdel. unfold OrganizationRoleResource_Delete, bind.
    rewrite Hdel, Hnf. reflexivity.
  - intros state n n' Hdel. unfold ConnectionResource_Delete, bind.
    rewrite Hdel, Hnf. reflexivity.
  - intros Model summary detail. reflexivity.
Qed.

(** A delete answered with a 500. *)
Lemma delete_witness :
  fst (OrganizationResource_Delete sim.env sim.theClient
         {| Org_ID := types.StringValue "org_1"; Org_Name := types.StringNull;
            Org_Domains := types.SetNull; Org_CreatedAt := types.StringNull;
            Org_UpdatedAt := types.StringNull |}
         (sim.start [sim.reply 500 "" ""]))
  = Val (fail "Error Deleting Organization"
           "Could not delete organization, unexpected error: failed to delete organization: WorkOS API error (HTTP 500): WorkOS service encountered an internal error").
Proof.
  rewrite (proj1 (delete_reports_other_errors sim.env sim.theClient
                    (wrapError "failed to delete organization: "
                       (apiError (parseAPIError sim.Unmarshal_APIError 500 "")))
                    eq_refl)
             {| Org_ID := types.StringValue "org_1"; Org_Name := types.StringNull;
                Org_Domains := types.SetNull; Org_CreatedAt := types.StringNull;
                Org_UpdatedAt := types.StringNull |}
             (sim.start [sim.reply 500 "" ""]) _ eq_refl).
  reflexivity.
Defined.

(** Updating a membership writes nothing: every request the handler
    puts on the wire is a GET of the membership, without body. *)
Theorem membership_update_only_reads :
  forall (env : Env) (c : Client)
         (plan state : OrganizationMembershipResourceModel) (n : Net env),
    exists xs,
      wire (snd (OrganizationMembershipResource_Update env c plan state n))
      = (wire n ++ xs)%list
      /\ Forall
           (fun x =>
              req_Method (fst x) = http_MethodGet
              /\ req_URL (fst x)
                 = baseURL c ++ "/user_management/organization_memberships/"
                   ++ types.ValueString (Mem_ID state)
              /\ req_Body (fst x) = None) xs.
Proof.
  intros env c plan state n.
  assert (Hnet : snd (OrganizationMembershipResource_Update env c plan state n)
                 = snd (doRequest env c http_MethodGet
                          ("/user_management/organization_memberships/"
                           ++ types.ValueString (Mem_ID state)) None n)).
  { rewrite <- lookups.Get_net with (tg := membership env).
    rewrite <- (onwire.bind_pure_net env (Get env c _ (membership env))
                  (wrapResult "failed to get organization membership: ") n).
    unfold OrganizationMembershipResource_Update, GetOrganizationMembership.
    unfold bind at 1.
    destruct ((r <- Get env c _ (membership env) ;; ret (wrapResult _ r)) n)
      as [[[err|m]|msg] n1]; reflexivity. }
  rewrite Hnet.
  destruct (onwire.doRequest_sends env c http_MethodGet
              ("/user_management/organization_memberships/"
               ++ types.ValueString (Mem_ID state)) None n)
    as (xs & Hw & Hall & _).
  exists xs. split; [exact Hw|].
  eapply Forall_impl; [|exact Hall].
  intros x Hx. rewrite Hx. repeat split.
Qed.

(** When neither the name nor the description of a role differs from
    the prior state, the update makes no call at all: whatever the PATCH
    of the entity client would do, the network state is untouched and the
    plan is persisted with the id, type, permissions and both timestamps
    of the prior state. *)
Theorem role_update_without_change_makes_no_call :
  forall (env : Env)
         (UpdateOrganizationRole :
            string -> string -> OrganizationRoleUpdateRequest ->
            M env (error + OrganizationRole))
         (plan state : OrganizationRoleResourceModel) (n : Net env),
    types.Equal (Rol_Name plan) (Rol_Name state) = true ->
    types.Equal (Rol_Description plan) (Rol_Description state) = true ->
    OrganizationRoleResource_Update env UpdateOrganizationRole plan state n
    = (Val (done (StateSet
         {| Rol_ID := Rol_ID state;
            Rol_OrganizationID := Rol_OrganizationID plan;
            Rol_Slug := Rol_Slug plan;
            Rol_Name := Rol_Name plan;
            Rol_Description := Rol_Description plan;
            Rol_Type := Rol_Type state;
            Rol_Permissions := Rol_Permissions state;
            Rol_CreatedAt := Rol_CreatedAt state;
            Rol_UpdatedAt := Rol_UpdatedAt state |})), n).
Proof.
  intros env UpdateOrganizationRole plan state n Hname Hdesc.
  unfold OrganizationRoleResource_Update. rewrite Hname, Hdesc. reflexivity.
Qed.

(** A role whose plan equals its state, with an entity call that would
    panic if it were made. *)
Lemma role_update_witness :
  let role :=
    {| Rol_ID := types.StringValue "role_1";
       Rol_OrganizationID := types.StringValue "org_1";
       Rol_Slug := types.StringValue "org-billing-admin";
       Rol_Name := types.StringValue "Billing Admin";
       Rol_Description := types.StringNull;
       Rol_Type := types.StringValue "OrganizationRole";
       Rol_Permissions := types.ListValue [];
       Rol_CreatedAt := types.StringValue "0";
       Rol_UpdatedAt := types.StringValue "0" |} in
  OrganizationRoleResource_Update sim.env
    (fun _ _ _ => panic "not to be called") role role (sim.start [])
  = (Val (done (StateSet role)), sim.start []).
Proof.
  intros role.
  exact (role_update_without_change_makes_no_call sim.env
           (fun _ _ _ => panic "not to be called") role role (sim.start [])
           eq_refl eq_refl).
Defined.

Lemma strings_Cut_Some (s : string) (sep : ascii) (before after : string) :
  strings_Cut s sep = Some (before, after) ->
  s = (before ++ String sep after)%string /\ strings_Cut before sep = None.
Proof.
  revert before. induction s as [|ch s IH]; simpl; intros before H;
    [discriminate|].
  destruct (Ascii.eqb_spec ch sep) as [->|Hne].
  - inversion H; subst. split; reflexivity.
  - destruct (strings_Cut s sep) as [[a b]|]; [|discriminate].
    inversion H; subst. destruct (IH a eq_refl) as [Hs Hnone].
    split; [simpl; rewrite Hs; reflexivity|].
    simpl. destruct (Ascii.eqb_spec ch sep); [contradiction|].
    rewrite Hnone. reflexivity.
Qed.

(** An import identifier is accepted exactly when it is an organization
    id without slash and not empty, a slash, and a slug that is not
    empty; the slug is everything after the first slash, further slashes
    included.  Every other identifier is rejected with one error and no
    attribute set. *)
Theorem role_import_accepts_exactly_the_composite_keys :
  forall (env : Env) (ID : string) (n : Net env),
    (forall org slug,
        strings_Cut org "/" = None -> org <> "" -> slug <> "" ->
        ID = (org ++ String "/" slug)%string ->
        fst (OrganizationRoleResource_ImportState env ID n)
        = Val {| ImportDiagnostics := [];
                 ImportAttributes := [("organization_id", org); ("slug", slug)] |})
    /\ (forall attrs,
          fst (OrganizationRoleResource_ImportState env ID n)
          = Val {| ImportDiagnostics := []; ImportAttributes := attrs |} ->
          exists org slug,
            ID = (org ++ String "/" slug)%string
            /\ strings_Cut org "/" = None /\ org <> "" /\ slug <> ""
            /\ attrs = [("organization_id", org); ("slug", slug)])
    /\ (exists resp,
          fst (OrganizationRoleResource_ImportState env ID n) = Val resp
          /\ (ImportDiagnostics resp <> [] ->
              HasError (ImportDiagnostics resp) = true
              /\ ImportAttributes resp = [])).
Proof.
  intros env ID n. split; [|split].
  - intros org slug Hcut Horg Hslug ->.
    rewrite (reconcile.ImportState_well_formed env org slug n Hcut Horg Hslug).
    reflexivity.
  - intros attrs. unfold OrganizationRoleResource_ImportState.
    rewrite reconcile.strings_SplitN_2.
    destruct (strings_Cut ID "/") as [[a b]|] eqn:Hcut; [|discriminate].
    destruct (strings_Cut_Some _ _ _ _ Hcut) as [HID Hnone].
    destruct (String.eqb_spec a "") as [->|Ha]; [discriminate|].
    destruct (String.eqb_spec b "") as [->|Hb]; [discriminate|].
    simpl. intros H. inversion H; subst attrs.
    exists a, b. repeat split; assumption.
  - unfold OrganizationRoleResource_ImportState.
    rewrite reconcile.strings_SplitN_2.
    destruct (strings_Cut ID "/") as [[a b]|].
    + destruct (String.eqb a "" || String.eqb b ""); eexists;
        (split; [reflexivity|]); simpl; intros H;
        [split; reflexivity | contradiction].
    + eexists. split; [reflexivity|]. intros _. split; reflexivity.
Qed.

(** A slug that itself holds a slash is taken whole. *)
Lemma role_import_witness :
  fst (OrganizationRoleResource_ImportState sim.env "org_123/team/lead"
         (sim.start []))
  = Val {| ImportDiagnostics := [];
           ImportAttributes :=
             [("organization_id", "org_123"); ("slug", "team/lead")] |}.
Proof.
  refine (proj1 (role_import_accepts_exactly_the_composite_keys sim.env
                   "org_123/team/lead" (sim.start []))
            "org_123" "team/lead" eq_refl _ _ eq_refl); discriminate.
Defined.

(** The update payload of a user names a field exactly when the planned
    value differs from the prior state and is not empty.  So a name or an
    email that the plan clears (null, or the empty string) is left out of
    the payload like one that did not change: the update cannot clear
    it. *)
Theorem user_update_payload_names_changed_nonempty_fields :
  forall (plan state : UserResourceModel),
    hasKey "email"
      (UserUpdateRequest_MarshalJSON (UserResource_updateReq plan state))
    = negb (types.Equal (Usr_Email plan) (Usr_Email state))
      && negb (String.eqb (types.ValueString (Usr_Email plan)) "")
    /\ hasKey "first_name"
         (UserUpdateRequest_MarshalJSON (UserResource_updateReq plan state))
       = negb (types.Equal (Usr_FirstName plan) (Usr_FirstName state))
         && negb (String.eqb (types.ValueString (Usr_FirstName plan)) "")
    /\ hasKey "last_name"
         (UserUpdateRequest_MarshalJSON (UserResource_updateReq plan state))
       = negb (types.Equal (Usr_LastName plan) (Usr_LastName state))
         && negb (String.eqb (types.ValueString (Usr_LastName plan)) "").
Proof.
  intros plan state.
  unfold UserUpdateRequest_MarshalJSON, UserResource_updateReq,
    omitemptyString, hasKey. simpl.
  destruct (types.Equal (Usr_Email plan) (Usr_Email state));
    destruct (types.Equal (Usr_FirstName plan) (Usr_FirstName state));
    destruct (types.Equal (Usr_LastName plan) (Usr_LastName state));
    destruct (types.BoolEqual (Usr_EmailVerified plan) (Usr_EmailVerified state));
    simpl;
    destruct (String.eqb (types.ValueString (Usr_Email plan)) "");
    destruct (String.eqb (types.ValueString (Usr_FirstName plan)) "");
    destruct (String.eqb (types.ValueString (Usr_LastName plan)) "");
    repeat split; reflexivity.
Qed.

Lemma valueOrNull_null (s : string) :
  valueOrNull s = types.StringNull <-> s = "".
Proof.
  unfold valueOrNull. destruct (String.eqb_spec s ""); simpl; split;
    intros H; try reflexivity; try assumption; try discriminate; contradiction.
Qed.

(** Reading a user, and updating one, never takes the write-only fields
    from the API: the password and the password hash persisted are those
    held before (the prior state's on read, the plan's on update), and
    the id is the prior state's.  On read a name the API leaves empty
    becomes null. *)
Theorem user_write_only_fields_survive :
  forall (env : Env) (c : Client) (plan state : UserResourceModel)
         (n n' : Net env) (user : User),
    (GetUser env c (types.ValueString (Usr_ID state)) n = (Val (inr user), n') ->
     exists st,
       UserResource_Read env c state n = (Val (done (StateSet st)), n')
       /\ Usr_ID st = Usr_ID state
       /\ Usr_Password st = Usr_Password state
       /\ Usr_PasswordHash st = Usr_PasswordHash state
       /\ (Usr_FirstName st = types.StringNull <-> User_FirstName user = "")
       /\ (Usr_LastName st = types.StringNull <-> User_LastName user = ""))
    /\ (UpdateUser env c (types.ValueString (Usr_ID state))
          (UserResource_updateReq plan state) n = (Val (inr user), n') ->
        exists st,
          UserResource_Update env c plan state n = (Val (done (StateSet st)), n')
          /\ Usr_ID st = Usr_ID state
          /\ Usr_Password st = Usr_Password plan
          /\ Usr_PasswordHash st = Usr_PasswordHash plan
          /\ Usr_CreatedAt st = Usr_CreatedAt state
          /\ (User_FirstName user = "" -> Usr_FirstName st = Usr_FirstName plan)
          /\ (User_LastName user = "" -> Usr_LastName st = Usr_LastName plan)).
Proof.
  intros env c plan state n n' user. split.
  - intros Hget. unfold UserResource_Read, bind. rewrite Hget.
    eexists. split; [reflexivity|]. simpl.
    repeat split; try apply valueOrNull_null.
  - intros Hupd. unfold UserResource_Update, bind. rewrite Hupd.
    eexists. split; [reflexivity|]. simpl.
    repeat split; intros ->; reflexivity.
Qed.

(** A user with a password in the state, read back from an API that
    returns neither password nor names. *)
Lemma user_read_witness :
  let state :=
    {| Usr_ID := types.StringValue "user_1";
       Usr_Email := types.StringValue "old@example.com";
       Usr_EmailVerified := types.BoolValue true;
       Usr_FirstName := types.StringValue "Jane";
       Usr_LastName := types.StringNull;
       Usr_Password := types.StringValue "hunter2";
       Usr_PasswordHash := types.StringNull;
       Usr_ProfilePictureURL := types.StringNull;
       Usr_CreatedAt := types.StringValue "0";
       Usr_UpdatedAt := types.StringValue "0" |} in
  exists st n',
    UserResource_Read sim.env sim.theClient state
      (sim.start [sim.reply 200 "" "jane@example.com"])
    = (Val (done (StateSet st)), n')
    /\ Usr_Password st = types.StringValue "hunter2"
    /\ Usr_FirstName st = types.StringNull
    /\ Usr_Email st = types.StringValue "jane@example.com".
Proof.
  intros state.
  destruct (proj1 (user_write_only_fields_survive sim.env sim.theClient state
                     state (sim.start [sim.reply 200 "" "jane@example.com"])
                     _ _) eq_refl)
    as (st & Hrun & _ & Hpw & _ & Hfirst & _).
  exists st. eexists. split; [exact Hrun|]. split; [exact Hpw|].
  split; [apply Hfirst; reflexivity|].
  vm_compute in Hrun. inversion Hrun. reflexivity.
Defined.

Lemma permissionsList_known (permissions : list string) :
  permissionsList permissions = types.ListValue permissions.
Proof. destruct permissions; reflexivity. Qed.

(** The permissions of a role are never persisted as null: whenever the
    API answers, create and read store the list of the answer as a known
    list, the empty list included. *)
Theorem role_permissions_are_never_null :
  forall (env : Env) (c : Client)
         (plan state : OrganizationRoleResourceModel)
         (n n' : Net env) (role : OrganizationRole),
    (CreateOrganizationRole env c (types.ValueString (Rol_OrganizationID plan))
       (OrganizationRoleResource_createReq plan) n = (Val (inr role), n') ->
     exists st,
       OrganizationRoleResource_Create env c plan n
       = (Val (done (StateSet st)), n')
       /\ Rol_Permissions st = types.ListValue (Role_Permissions role)
       /\ Rol_Slug st = Rol_Slug plan)
    /\ (GetOrganizationRole env c
          (types.ValueString (Rol_OrganizationID state))
          (types.ValueString (Rol_Slug state)) n = (Val (inr role), n') ->
        exists st,
          OrganizationRoleResource_Read env c state n
          = (Val (done (StateSet st)), n')
          /\ Rol_Permissions st = types.ListValue (Role_Permissions role)
          /\ Rol_Slug st = types.StringValue (Role_Slug role)
          /\ Rol_OrganizationID st = Rol_OrganizationID state).
Proof.
  intros env c plan state n n' role. split.
  - intros Hcreate. unfold OrganizationRoleResource_Create, bind.
    rewrite Hcreate. eexists. split; [reflexivity|]. simpl.
    split; [|reflexivity]. destruct (Role_Permissions role); reflexivity.
  - intros Hget. unfold OrganizationRoleResource_Read, bind. rewrite Hget.
    eexists. split; [reflexivity|]. simpl.
    split; [apply permissionsList_known | split; reflexivity].
Qed.

(** A role read back without permissions. *)
Lemma role_permissions_witness :
  let state :=
    {| Rol_ID := types.StringValue "role_1";
       Rol_OrganizationID := types.StringValue "org_1";
       Rol_Slug := types.StringValue "org-billing-admin";
       Rol_Name := types.StringValue "Billing Admin";
       Rol_Description := types.StringNull;
       Rol_Type := types.StringValue "OrganizationRole";
       Rol_Permissions := types.ListNull;
       Rol_CreatedAt := types.StringValue "0";
       Rol_UpdatedAt := types.StringValue "0" |} in
  exists st n',
    OrganizationRoleResource_Read sim.env sim.theClient state
      (sim.start [sim.reply 200 "" "org-billing-admin"])
    = (Val (done (StateSet st)), n')
    /\ Rol_Permissions st = types.ListValue [].
Proof.
  intros state.
  destruct (proj2 (role_permissions_are_never_null sim.env sim.theClient state
                     state (sim.start [sim.reply 200 "" "org-billing-admin"])
                     _ _) eq_refl)
    as (st & Hrun & Hperm & _).
  exists st. eexists. split; [exact Hrun | exact Hperm].
Defined.

(** How [Configure] resolves the API key: a configuration value that is
    not null wins over the environment, also when it is empty or
    unknown.  With an empty resolved key the provider reports an error
    and hands out no client; otherwise it hands out a client with the
    resolved key and client id, and with the resolved base URL or, when
    that is empty, the production URL. *)
Theorem Configure_prefers_configuration :
  forall (ext : Ext) (config : WorkOSProviderModel),
    let pick (value : types.String) (variable : string) : string :=
      if types.IsNull value then os_Getenv ext variable
      else types.ValueString value in
    (pick (APIKey config) "WORKOS_API_KEY" = "" ->
     ResourceData (Configure ext config) = None
     /\ HasError (ConfigureDiagnostics (Configure ext config)) = true)
    /\ (pick (APIKey config) "WORKOS_API_KEY" <> "" ->
        Configure ext config
        = {| ConfigureDiagnostics := [];
             ResourceData :=
               Some {| apiKey := pick (APIKey config) "WORKOS_API_KEY";
                       clientID := pick (ClientID config) "WORKOS_CLIENT_ID";
                       baseURL :=
                         if String.eqb (pick (BaseURL config) "WORKOS_BASE_URL") ""
                         then DefaultBaseURL
                         else pick (BaseURL config) "WORKOS_BASE_URL" |} |})
    /\ (APIKey config = types.StringValue ""
        \/ APIKey config = types.StringUnknown ->
        ResourceData (Configure ext config) = None).
Proof.
  intros ext config pick. subst pick. cbv beta.
  assert (Hmissing :
    (if types.IsNull (APIKey config) then os_Getenv ext "WORKOS_API_KEY"
     else types.ValueString (APIKey config)) = "" ->
    Configure ext config
    = {| ConfigureDiagnostics :=
           [AddError "Missing WorkOS API Key"
              ("The provider cannot create the WorkOS API client as there is a missing or empty value for the WorkOS API key. "
               ++ "Set the api_key value in the configuration or use the WORKOS_API_KEY environment variable. "
               ++ "If either is already set, ensure the value is not empty.")];
         ResourceData := None |}).
  { unfold Configure. cbv zeta.
    destruct (types.IsNull (APIKey config)); simpl negb; cbv iota;
      intros Hk; rewrite Hk; reflexivity. }
  split; [|split].
  - intros Hk. rewrite (Hmissing Hk). split; reflexivity.
  - unfold Configure, NewClient. cbv zeta.
    destruct (types.IsNull (APIKey config)); simpl negb; cbv iota;
      intros Hk;
      destruct (types.IsNull (ClientID config));
      destruct (types.IsNull (BaseURL config)); simpl negb; cbv iota;
      repeat (match goal with
              | |- context [String.eqb ?x ""] =>
                  let H := fresh in
                  destruct (String.eqb_spec x "") as [H|H];
                  try contradiction; try discriminate
              end; cbv iota);
      reflexivity.
  - intros Hcfg. rewrite Hmissing; [reflexivity|].
    destruct Hcfg as [-> | ->]; reflexivity.
Qed.

(** An empty [api_key] in the configuration hides the key of the
    environment; a null one lets it through, together with the base URL
    of the environment. *)
Lemma Configure_witness :
  ResourceData (Configure sim.ext
                  {| APIKey := types.StringValue "";
                     ClientID := types.StringNull;
                     BaseURL := types.StringNull |}) = None
  /\ Configure sim.ext
       {| APIKey := types.StringNull; ClientID := types.StringValue "client_1";
          BaseURL := types.StringNull |}
     = {| ConfigureDiagnostics := [];
          ResourceData := Some {| apiKey := "sk_env"; clientID := "client_1";
                                  baseURL := "https://env.example.com" |} |}.
Proof.
  split.
  - exact (proj2 (proj2 (Configure_prefers_configuration sim.ext
                           {| APIKey := types.StringValue "";
                              ClientID := types.StringNull;
                              BaseURL := types.StringNull |}))
             (or_introl eq_refl)).
  - refine (proj1 (proj2 (Configure_prefers_configuration sim.ext
                            {| APIKey := types.StringNull;
                               ClientID := types.StringValue "client_1";
                               BaseURL := types.StringNull |})) _).
    discriminate.
Defined.






End lifecycle.
